(** * Muse 2 EEG recorder: a model of [RecordEEGPersonality.py]

    The program is a Tk application with one object, [EEGRecorderApp], whose
    attributes are mutated by Tk callbacks (key release in the participant
    entry, click on a segment button) and by daemon threads (the connection
    monitor, one sample-pulling thread and one stopwatch thread per
    recording).

    The embedding follows the source method by method.  Methods are written
    in a state-and-exception monad over the object and its surroundings (the
    files on disk, the threads, what was shown to the operator); an exception
    keeps every mutation made before it, as in Python.  Callbacks run
    atomically; threads advance one loop step at a time, interleaved with the
    callbacks by the sequence of events. *)

From Stdlib Require Import Ascii String.
From stdpp Require Import gmap strings list fin_maps pretty.


(** ** Characters and strings *)

Definition chr_lf : ascii := "010"%char.
Definition chr_cr : ascii := "013"%char.
Definition chr_quote : ascii := "034"%char.
Definition chr_comma : ascii := ","%char.

Definition str_of (c : ascii) : string := String c EmptyString.

(** ["\n"] and ["\r\n"]. *)
Definition nl : string := str_of chr_lf.
Definition crlf : string := String chr_cr (String chr_lf EmptyString).

(** [str.isspace] on the ASCII range: tab, LF, VT, FF, CR, FS, GS, RS, US and
    space. *)
Definition is_space (c : ascii) : bool :=
  let n := nat_of_ascii c in
  (((9 <=? n) && (n <=? 13)) || ((28 <=? n) && (n <=? 32)))%nat.

Fixpoint lstrip (s : string) : string :=
  match s with
  | String c s' => if is_space c then lstrip s' else s
  | EmptyString => EmptyString
  end.

Definition rstrip (s : string) : string :=
  String.rev (lstrip (String.rev s)).

(** [s.strip()] *)
Definition strip (s : string) : string := rstrip (lstrip s).

(** [s.replace(a, b)] for one-character [a] and [b]. *)
Fixpoint replace_char (a b : ascii) (s : string) : string :=
  match s with
  | String c s' => String (if Ascii.eqb c a then b else c) (replace_char a b s')
  | EmptyString => EmptyString
  end.

(** Truth value of a string: [if s:]. *)
Definition truthy (s : string) : bool :=
  match s with EmptyString => false | _ => true end.

(** How an f-string renders an attribute that holds [None] or a string. *)
Definition fstr_opt (o : option string) : string :=
  match o with Some s => s | None => "None" end.

(** [format(n, "02")] for an integer: zero padded to width 2, the sign
    counting towards the width. *)
Definition fmt_02 (n : Z) : string :=
  if decide (0 ≤ n ∧ n < 10)%Z then "0" +:+ pretty n else pretty n.

(** ** [csv.writer] with the default dialect

    Comma separated, fields quoted only when they contain the delimiter, the
    quote character or a character of the line terminator (embedded quotes
    doubled), rows terminated by CR LF.  A row made of one empty field is
    written as a pair of quotes. *)

Definition csv_special (c : ascii) : bool :=
  Ascii.eqb c chr_comma || Ascii.eqb c chr_quote ||
  Ascii.eqb c chr_cr || Ascii.eqb c chr_lf.

Fixpoint csv_needs_quotes (s : string) : bool :=
  match s with
  | String c s' => csv_special c || csv_needs_quotes s'
  | EmptyString => false
  end.

Fixpoint csv_double_quotes (s : string) : string :=
  match s with
  | String c s' =>
      if Ascii.eqb c chr_quote
      then String c (String c (csv_double_quotes s'))
      else String c (csv_double_quotes s')
  | EmptyString => EmptyString
  end.

Definition csv_field (s : string) : string :=
  if csv_needs_quotes s
  then str_of chr_quote +:+ csv_double_quotes s +:+ str_of chr_quote
  else s.

Definition csv_line (fields : list string) : string :=
  match fields with
  | [EmptyString] => String chr_quote (String chr_quote EmptyString) +:+ crlf
  | _ => String.concat "," (csv_field <$> fields) +:+ crlf
  end.

(** ** Python dictionaries

    A [dict] keeps its keys in insertion order; assigning to a key that is
    already present replaces the value where it stands. *)

Definition dict (V : Type) : Type := list (string * V).

Fixpoint dict_get {V} (k : string) (d : dict V) : option V :=
  match d with
  | (k', v) :: d' => if decide (k' = k) then Some v else dict_get k d'
  | [] => None
  end.

Fixpoint dict_set {V} (k : string) (v : V) (d : dict V) : dict V :=
  match d with
  | (k', v') :: d' =>
      if decide (k' = k) then (k', v) :: d' else (k', v') :: dict_set k v d'
  | [] => [(k, v)]
  end.

Definition dict_keys {V} (d : dict V) : list string := d.*1.

(** [l.index(x)] *)
Fixpoint list_index (x : string) (l : list string) : option nat :=
  match l with
  | y :: l' => if decide (y = x) then Some 0 else S <$> list_index x l'
  | [] => None
  end.

(** ** Exceptions and results *)

Inductive exn : Type :=
| KeyError (k : string)
| ValueError
| TypeError
| AttributeError
| OSError
| LSLError.

Inductive result (A : Type) : Type :=
| Ok (a : A)
| Raise (e : exn).
Arguments Ok {A} a.
Arguments Raise {A} e.

(** ** Numbers supplied by the platform

    Clock readings, sample values and durations are Python floats.  The
    program only subtracts two of them, truncates one to an integer and
    prints them; these operations are taken as an interface, so that every
    statement below holds for any implementation of them. *)

Class FloatOps : Type := {
  float : Type;
  (** [a - b] *)
  fsub : float → float → float;
  (** [int(x)] *)
  float_int : float → Z;
  (** [str(x)], what [csv.writer] puts in a cell *)
  float_str : float → string;
  (** [format(x, ".2f")] *)
  fmt_2f : float → string;
}.

(** An implementation used to run the model on concrete traces: numbers are
    counted in hundredths (of a second, of a unit), so [125] stands for
    [1.25]. *)

Definition centi_digits (n : Z) : string :=
  let a := Z.abs n in
  (if decide (n < 0)%Z then "-" else "") +:+
  pretty (a / 100)%Z +:+ "." +:+
  (if decide (a `mod` 100 < 10)%Z then "0" else "") +:+ pretty (a `mod` 100)%Z.

Definition centi_float : FloatOps := {|
  float := Z;
  fsub := Z.sub;
  float_int := λ x, Z.quot x 100;
  float_str := centi_digits;
  fmt_2f := centi_digits;
|}.

(** ** The application object and its surroundings *)

Section Model.
Context `{FloatOps}.

Inductive tk_state : Type := NORMAL | DISABLED.

(** A [tk.Button]: its label and whether it reacts to clicks. *)
Record button : Type := Button {
  btn_text : string;
  btn_state : tk_state;
}.

(** The attributes of [EEGRecorderApp].  [text_field_frame] is [None] until
    the frame is created and then tells whether the frame is on the grid;
    [participant_id_entry] is the text currently in the entry widget. *)
Record EEGRecorderApp : Type := App {
  stream : option nat;
  inlet : option nat;
  recording : bool;
  start_time : option float;
  data : list (list float);
  participant_id : option string;
  durations : dict float;
  stopwatch_running : bool;
  status_label : string;
  text_field_frame : option bool;
  participant_id_entry : string;
  buttons : dict button;
  stopwatch_label : string;
}.

(** Program counter of a [record_data] thread: about to test
    [while self.recording], blocked in [pull_sample], or finished. *)
Inductive rec_pc : Type := RecWhile | RecPulling | RecDone.

(** Program counter of an [update_stopwatch] thread: not yet run, in its loop
    with its own start reading, or finished. *)
Inductive sw_pc : Type := SwEntry | SwWhile (t0 : float) | SwDone.

Inductive thread_id : Type := Monitor | Stopwatch (i : nat) | Recorder (i : nat) | MainLoop.

(** What the program does that is visible from outside the object, in order
    of occurrence.  [Connected] and [Disconnected] mark the calls of
    [on_connection] and [on_disconnection]. *)
Inductive effect : Type :=
| Connected
| Disconnected
| Sleep (who : thread_id) (secs : nat)
| ShowInfo (title message : string)
| Uncaught (who : thread_id) (e : exn).

(** The object together with the monitor's local variable [connected], the
    threads, the files on disk and the effects so far.  [io_fault = Some n]
    makes the file operation after the next [n] raise [OSError]. *)
Record world : Type := World {
  self : EEGRecorderApp;
  connected : bool;
  monitor_alive : bool;
  rec_threads : list rec_pc;
  sw_threads : list sw_pc;
  files : gmap string string;
  io_fault : option nat;
  trace : list effect;
}.

(** *** Attribute assignment *)

Definition set_stream v (a : EEGRecorderApp) : EEGRecorderApp :=
  App v (inlet a) (recording a) (start_time a) (data a) (participant_id a)
      (durations a) (stopwatch_running a) (status_label a) (text_field_frame a)
      (participant_id_entry a) (buttons a) (stopwatch_label a).
Definition set_inlet v (a : EEGRecorderApp) : EEGRecorderApp :=
  App (stream a) v (recording a) (start_time a) (data a) (participant_id a)
      (durations a) (stopwatch_running a) (status_label a) (text_field_frame a)
      (participant_id_entry a) (buttons a) (stopwatch_label a).
Definition set_recording v (a : EEGRecorderApp) : EEGRecorderApp :=
  App (stream a) (inlet a) v (start_time a) (data a) (participant_id a)
      (durations a) (stopwatch_running a) (status_label a) (text_field_frame a)
      (participant_id_entry a) (buttons a) (stopwatch_label a).
Definition set_start_time v (a : EEGRecorderApp) : EEGRecorderApp :=
  App (stream a) (inlet a) (recording a) v (data a) (participant_id a)
      (durations a) (stopwatch_running a) (status_label a) (text_field_frame a)
      (participant_id_entry a) (buttons a) (stopwatch_label a).
Definition set_data v (a : EEGRecorderApp) : EEGRecorderApp :=
  App (stream a) (inlet a) (recording a) (start_time a) v (participant_id a)
      (durations a) (stopwatch_running a) (status_label a) (text_field_frame a)
      (participant_id_entry a) (buttons a) (stopwatch_label a).
Definition set_participant_id v (a : EEGRecorderApp) : EEGRecorderApp :=
  App (stream a) (inlet a) (recording a) (start_time a) (data a) v
      (durations a) (stopwatch_running a) (status_label a) (text_field_frame a)
      (participant_id_entry a) (buttons a) (stopwatch_label a).
Definition set_durations v (a : EEGRecorderApp) : EEGRecorderApp :=
  App (stream a) (inlet a) (recording a) (start_time a) (data a) (participant_id a)
      v (stopwatch_running a) (status_label a) (text_field_frame a)
      (participant_id_entry a) (buttons a) (stopwatch_label a).
Definition set_stopwatch_running v (a : EEGRecorderApp) : EEGRecorderApp :=
  App (stream a) (inlet a) (recording a) (start_time a) (data a) (participant_id a)
      (durations a) v (status_label a) (text_field_frame a)
      (participant_id_entry a) (buttons a) (stopwatch_label a).
Definition set_status_label v (a : EEGRecorderApp) : EEGRecorderApp :=
  App (stream a) (inlet a) (recording a) (start_time a) (data a) (participant_id a)
      (durations a) (stopwatch_running a) v (text_field_frame a)
      (participant_id_entry a) (buttons a) (stopwatch_label a).
Definition set_text_field_frame v (a : EEGRecorderApp) : EEGRecorderApp :=
  App (stream a) (inlet a) (recording a) (start_time a) (data a) (participant_id a)
      (durations a) (stopwatch_running a) (status_label a) v
      (participant_id_entry a) (buttons a) (stopwatch_label a).
Definition set_participant_id_entry v (a : EEGRecorderApp) : EEGRecorderApp :=
  App (stream a) (inlet a) (recording a) (start_time a) (data a) (participant_id a)
      (durations a) (stopwatch_running a) (status_label a) (text_field_frame a)
      v (buttons a) (stopwatch_label a).
Definition set_buttons v (a : EEGRecorderApp) : EEGRecorderApp :=
  App (stream a) (inlet a) (recording a) (start_time a) (data a) (participant_id a)
      (durations a) (stopwatch_running a) (status_label a) (text_field_frame a)
      (participant_id_entry a) v (stopwatch_label a).
Definition set_stopwatch_label v (a : EEGRecorderApp) : EEGRecorderApp :=
  App (stream a) (inlet a) (recording a) (start_time a) (data a) (participant_id a)
      (durations a) (stopwatch_running a) (status_label a) (text_field_frame a)
      (participant_id_entry a) (buttons a) v.

Definition upd_self (f : EEGRecorderApp → EEGRecorderApp) (w : world) : world :=
  World (f (self w)) (connected w) (monitor_alive w) (rec_threads w)
        (sw_threads w) (files w) (io_fault w) (trace w).
Definition set_connected v (w : world) : world :=
  World (self w) v (monitor_alive w) (rec_threads w)
        (sw_threads w) (files w) (io_fault w) (trace w).
Definition set_monitor_alive v (w : world) : world :=
  World (self w) (connected w) v (rec_threads w)
        (sw_threads w) (files w) (io_fault w) (trace w).
Definition set_rec_threads v (w : world) : world :=
  World (self w) (connected w) (monitor_alive w) v
        (sw_threads w) (files w) (io_fault w) (trace w).
Definition set_sw_threads v (w : world) : world :=
  World (self w) (connected w) (monitor_alive w) (rec_threads w)
        v (files w) (io_fault w) (trace w).
Definition set_files v (w : world) : world :=
  World (self w) (connected w) (monitor_alive w) (rec_threads w)
        (sw_threads w) v (io_fault w) (trace w).
Definition set_io_fault v (w : world) : world :=
  World (self w) (connected w) (monitor_alive w) (rec_threads w)
        (sw_threads w) (files w) v (trace w).
Definition emit (e : effect) (w : world) : world :=
  World (self w) (connected w) (monitor_alive w) (rec_threads w)
        (sw_threads w) (files w) (io_fault w) (trace w ++ [e]).

(** *** The monad of methods *)

Definition M (A : Type) : Type := world → result A * world.

Definition ret {A} (a : A) : M A := λ w, (Ok a, w).

Definition raise {A} (e : exn) : M A := λ w, (Raise e, w).

Definition bind {A B} (m : M A) (k : A → M B) : M B :=
  λ w, match m w with
       | (Ok a, w') => k a w'
       | (Raise e, w') => (Raise e, w')
       end.

(** [try: body except Exception as e: handler] *)
Definition try_except {A} (body : M A) (handler : exn → M A) : M A :=
  λ w, match body w with
       | (Ok a, w') => (Ok a, w')
       | (Raise e, w') => handler e w'
       end.

Definition gets {A} (f : EEGRecorderApp → A) : M A := λ w, (Ok (f (self w)), w).

Definition assign (f : EEGRecorderApp → EEGRecorderApp) : M unit := λ w, (Ok (), upd_self f w).

Definition effect_ (e : effect) : M unit := λ w, (Ok (), emit e w).

Definition lift {A} (r : result A) : M A := λ w, (r, w).

(** Access to what surrounds the object. *)
Definition reads {A} (f : world → A) : M A := λ w, (Ok (f w), w).

Definition update (f : world → world) : M unit := λ w, (Ok (), f w).

End Model.

(** stdpp's [x ← m; k] and [m;; k] for the monad of methods. *)
#[global] Instance M_ret `{FloatOps} : MRet M := λ A, ret.
#[global] Instance M_bind `{FloatOps} : MBind M := λ A B k m, bind m k.

Section Methods.
Context `{FloatOps}.

Fixpoint for_each {A} (l : list A) (body : A → M unit) : M unit :=
  match l with
  | [] => mret ()
  | x :: l' => body x;; for_each l' body
  end.

(** *** Widgets *)

Definition with_state (s : tk_state) (b : button) : button :=
  Button (btn_text b) s.

Definition with_text (t : string) (b : button) : button :=
  Button t (btn_state b).

(** [self.buttons[key].config(...)] *)
Definition button_config (key : string) (f : button → button) : M unit :=
  bs ← gets buttons;
  match dict_get key bs with
  | Some b => assign (set_buttons (dict_set key (f b) bs))
  | None => raise (KeyError key)
  end.

(** [messagebox.showinfo(title, message)] *)
Definition showinfo (title message : string) : M unit :=
  effect_ (ShowInfo title message).

(** [time.sleep(secs)] in thread [who] *)
Definition sleep (who : thread_id) (secs : nat) : M unit :=
  effect_ (Sleep who secs).

(** *** Files

    [open(filename, 'w')] truncates or creates the file, [f.write(s)] appends
    to it; each of them is one file operation and may fail. *)

Definition io_op : M unit := λ w,
  match io_fault w with
  | Some 0 => (Raise OSError, set_io_fault None w)
  | Some (S n) => (Ok (), set_io_fault (Some n) w)
  | None => (Ok (), w)
  end.

Definition open_w (filename : string) : M unit :=
  io_op;;
  update (λ w, set_files (<[filename := ""]> (files w)) w).

Definition write (filename s : string) : M unit :=
  io_op;;
  update (λ w, set_files (alter (λ c, c +:+ s) filename (files w)) w).

(** [csv.writer(f).writerow(row)] for a row of strings and for a row of
    numbers, and [writerows]. *)
Definition writerow_str (filename : string) (row : list string) : M unit :=
  write filename (csv_line row).

Definition writerow (filename : string) (row : list float) : M unit :=
  write filename (csv_line (float_str <$> row)).

Definition writerows (filename : string) (rows : list (list float)) : M unit :=
  for_each rows (writerow filename).

(** *** Methods of [EEGRecorderApp] *)

Definition segments : list (string * string) :=
  [ ("Record Eyes Closed", "EC");
    ("Record Eyes Opened", "EO");
    ("Record Personality 1", "Personality1");
    ("Record Personality 2", "Personality2");
    ("Record Personality 3", "Personality3") ].

(** The object after [__init__]. *)
Definition init_app : EEGRecorderApp :=
  App None None false None [] None [] false
      "Status: Not connected to Muse 2"
      None ""
      (foldl (λ bs (seg : string * string),
                let '(label, key) := seg in
                dict_set key (Button label DISABLED) bs) [] segments)
      "Stopwatch: 00:00:00".

Definition show_text_field : M unit :=
  frame ← gets text_field_frame;
  match frame with
  | None => assign (set_participant_id_entry "")
  | Some _ => mret ()
  end;;
  assign (set_text_field_frame (Some true)).

Definition hide_text_field : M unit :=
  frame ← gets text_field_frame;
  match frame with
  | Some _ => assign (set_text_field_frame (Some false))
  | None => mret ()
  end.

Definition disable_buttons : M unit :=
  bs ← gets buttons;
  assign (set_buttons (prod_map id (with_state DISABLED) <$> bs)).

Definition on_connection : M unit :=
  effect_ Connected;;
  assign (set_status_label "Status: Connected to Muse 2");;
  show_text_field.

Definition on_disconnection : M unit :=
  effect_ Disconnected;;
  assign (set_status_label "Status: Not connected to Muse 2");;
  hide_text_field;;
  disable_buttons.

(** One turn of the [while True] loop of [monitor_muse_connection];
    [found] is what [resolve_stream('type', 'EEG')] does this time and
    [opened] what [StreamInlet(self.stream)] does if it is reached. *)
Definition monitor_muse_connection
    (found : result (list nat)) (opened : result nat) : M unit :=
  try_except
    (streams ← lift found;
     c ← reads connected;
     match streams with
     | s0 :: _ =>
         if negb c then
           assign (set_stream (Some s0));;
           i ← lift opened;
           assign (set_inlet (Some i));;
           on_connection;;
           update (set_connected true)
         else mret ()
     | [] =>
         if c : bool then
           on_disconnection;;
           update (set_connected false)
         else mret ()
     end)
    (λ e,
     c ← reads connected;
     if c : bool then
       on_disconnection;;
       update (set_connected false)
     else mret ());;
  sleep Monitor 1.

Definition enable_buttons : M unit :=
  text ← gets participant_id_entry;
  assign (set_participant_id (Some (strip text)));;
  pid ← gets participant_id;
  if truthy (default "" pid)
  then button_config "EC" (with_state NORMAL)
  else mret ().

Definition update_duration_file : M unit :=
  pid ← gets participant_id;
  let filename := fstr_opt pid +:+ "_duration.txt" in
  open_w filename;;
  write filename ("Participant ID: " +:+ fstr_opt pid +:+ nl);;
  ds ← gets durations;
  for_each ds (λ item : string * float,
    let '(key, duration) := item in
    write filename (key +:+ ": " +:+ fmt_2f duration +:+ " seconds" +:+ nl)).

Definition csv_header : list string :=
  ["timestamps"; "TP9"; "AF7"; "AF8"; "TP10"; "Right AUX"].

(** [end_time] is the reading [time.time()] gives at the first line. *)
Definition save_data (key : string) (end_time : float) : M unit :=
  t0 ← gets start_time;
  duration ← match t0 with
             | Some t0 => mret (fsub end_time t0)
             | None => raise TypeError
             end;
  ds ← gets durations;
  assign (set_durations (dict_set key duration ds));;
  pid ← gets participant_id;
  let filename := fstr_opt pid +:+ "_" +:+ key +:+ ".csv" in
  open_w filename;;
  writerow_str filename csv_header;;
  rows ← gets data;
  writerows filename rows;;
  update_duration_file;;
  showinfo "Recording Saved" (key +:+ " data saved to " +:+ filename).

Definition start_stopwatch : M unit :=
  assign (set_stopwatch_running true);;
  update (λ w, set_sw_threads (sw_threads w ++ [SwEntry]) w).

(** One turn of the loop of [update_stopwatch] in thread [i], entered with
    the local [start_time]; returns where the thread goes next. *)
Definition update_stopwatch (i : nat) (start_time now : float) : M sw_pc :=
  running ← gets stopwatch_running;
  if running : bool then
    let elapsed_time := float_int (fsub now start_time) in
    let hours := (elapsed_time `div` 3600)%Z in
    let remainder := (elapsed_time `mod` 3600)%Z in
    let minutes := (remainder `div` 60)%Z in
    let seconds := (remainder `mod` 60)%Z in
    assign (set_stopwatch_label
              ("Stopwatch: " +:+ fmt_02 hours +:+ ":" +:+ fmt_02 minutes
                 +:+ ":" +:+ fmt_02 seconds));;
    sleep (Stopwatch i) 1;;
    mret (SwWhile start_time)
  else mret SwDone.

Definition reset_stopwatch : M unit :=
  assign (set_stopwatch_label "Stopwatch: 00:00:00").

Definition get_next_key (current_key : string) : M (option string) :=
  bs ← gets buttons;
  let keys := dict_keys bs in
  match list_index current_key keys with
  | Some current_index =>
      mret (if decide (current_index + 1 < length keys)
            then keys !! (current_index + 1) else None)
  | None => raise ValueError
  end.

(** The test [while self.recording] of [record_data], followed by the
    attribute access [self.inlet.pull_sample] when the loop goes on. *)
Definition record_data_test : M rec_pc :=
  r ← gets recording;
  if r : bool then
    i ← gets inlet;
    match i with
    | Some _ => mret RecPulling
    | None => raise AttributeError
    end
  else mret RecDone.

(** [pull_sample] returns [(sample, timestamp)] and the row is appended. *)
Definition record_data_pull (sample : list float) (timestamp : float) : M rec_pc :=
  d ← gets data;
  assign (set_data (d ++ [timestamp :: sample]));;
  mret RecWhile.

Definition spawn_record_data : M unit :=
  update (λ w, set_rec_threads (rec_threads w ++ [RecWhile]) w).

(** [now] is the reading of [time.time()] in the branch taken: at the first
    line of [save_data] when stopping, at [self.start_time = time.time()]
    when starting. *)
Definition toggle_recording (key : string) (now : float) : M unit :=
  r ← gets recording;
  if r : bool then
    assign (set_recording false);;
    assign (set_stopwatch_running false);;
    save_data key now;;
    reset_stopwatch;;
    button_config key
      (λ b, with_state DISABLED
              (with_text ("Record " +:+ replace_char "_" " " key) b));;
    next_key ← get_next_key key;
    match next_key with
    | Some nk =>
        if truthy nk then button_config nk (with_state NORMAL) else mret ()
    | None => mret ()
    end
  else
    assign (set_recording true);;
    assign (set_start_time (Some now));;
    assign (set_data []);;
    start_stopwatch;;
    spawn_record_data;;
    button_config key (with_text "Stop Recording").

(** ** Events

    What happens to the running program, one event at a time. *)

Inductive event : Type :=
| Poll (found : result (list nat)) (opened : result nat)
    (* the monitor thread runs one turn of its loop *)
| KeyRelease (text : string)
    (* a key is released in the entry, which then holds [text] *)
| Press (key : string) (now : float) (fault : option nat)
    (* the operator clicks the button of segment [key] at clock reading
       [now]; [fault] tells which file operation of the callback fails *)
| RecTest (i : nat)
    (* recorder thread [i] evaluates its loop condition *)
| RecPull (i : nat) (sample : list float) (timestamp : float)
    (* [pull_sample] returns in recorder thread [i] *)
| SwStart (i : nat) (now : float)
    (* stopwatch thread [i] takes its start reading *)
| SwIter (i : nat) (now : float).
    (* stopwatch thread [i] runs one turn of its loop *)

(** A Tk callback: an exception that escapes it is reported and the main
    loop goes on with the object as the callback left it. *)
Definition run_callback (m : M unit) (w : world) : world :=
  match m w with
  | (Ok _, w') => w'
  | (Raise e, w') => emit (Uncaught MainLoop e) w'
  end.

(** Tk runs a button's command only when the button is in state [NORMAL]. *)
Definition clickable (key : string) (w : world) : bool :=
  match dict_get key (buttons (self w)) with
  | Some b => match btn_state b with NORMAL => true | DISABLED => false end
  | None => false
  end.

Definition step (e : event) (w : world) : world :=
  match e with
  | Poll found opened =>
      if monitor_alive w then
        match monitor_muse_connection found opened w with
        | (Ok _, w') => w'
        | (Raise e, w') => set_monitor_alive false (emit (Uncaught Monitor e) w')
        end
      else w
  | KeyRelease text =>
      match text_field_frame (self w) with
      | Some _ =>
          run_callback enable_buttons (upd_self (set_participant_id_entry text) w)
      | None => w
      end
  | Press key now fault =>
      if clickable key w then
        set_io_fault None
          (run_callback (toggle_recording key now) (set_io_fault fault w))
      else w
  | RecTest i =>
      match rec_threads w !! i with
      | Some RecWhile =>
          match record_data_test w with
          | (Ok pc, w') => set_rec_threads (<[i := pc]> (rec_threads w')) w'
          | (Raise e, w') =>
              set_rec_threads (<[i := RecDone]> (rec_threads w'))
                (emit (Uncaught (Recorder i) e) w')
          end
      | _ => w
      end
  | RecPull i sample timestamp =>
      match rec_threads w !! i with
      | Some RecPulling =>
          match record_data_pull sample timestamp w with
          | (Ok pc, w') => set_rec_threads (<[i := pc]> (rec_threads w')) w'
          | (Raise e, w') =>
              set_rec_threads (<[i := RecDone]> (rec_threads w'))
                (emit (Uncaught (Recorder i) e) w')
          end
      | _ => w
      end
  | SwStart i now =>
      match sw_threads w !! i with
      | Some SwEntry => set_sw_threads (<[i := SwWhile now]> (sw_threads w)) w
      | _ => w
      end
  | SwIter i now =>
      match sw_threads w !! i with
      | Some (SwWhile t0) =>
          match update_stopwatch i t0 now w with
          | (Ok pc, w') => set_sw_threads (<[i := pc]> (sw_threads w')) w'
          | (Raise e, w') =>
              set_sw_threads (<[i := SwDone]> (sw_threads w'))
                (emit (Uncaught (Stopwatch i) e) w')
          end
      | _ => w
      end
  end.

Definition run (evs : list event) (w : world) : world :=
  foldl (λ w e, step e w) w evs.

(** The program once [__init__] has returned and the monitor thread is
    started, on a disk holding [fs]. *)
Definition init (fs : gmap string string) : world :=
  World init_app false true [] [] fs None [].

(** *** What the operator did

    The branch of a callback that an event takes: a click starts a recording
    or stops one, a key release stores the stripped text of the entry. *)

Inductive action : Type :=
| Started (key : string)
| Stopped (key : string)
| IdEntered (pid : string).

Definition action_of (e : event) (w : world) : list action :=
  match e with
  | Press key _ _ =>
      if clickable key w
      then [if recording (self w) then Stopped key else Started key]
      else []
  | KeyRelease text =>
      match text_field_frame (self w) with
      | Some _ => [IdEntered (strip text)]
      | None => []
      end
  | _ => []
  end.

Fixpoint actions (evs : list event) (w : world) : list action :=
  match evs with
  | [] => []
  | e :: evs' => action_of e w ++ actions evs' (step e w)
  end.

End Methods.

(** ** Auxiliary definitions for the statements *)

Section Auxiliary.
Context `{FloatOps}.

(** The five segment keys in the order [__init__] creates the buttons. *)
Definition segment_keys : list string := segments.*2.

Definition stopped_keys (acts : list action) : list string :=
  omap (λ a, match a with Stopped k => Some k | _ => None end) acts.

(** The elements of a list in the order of their first occurrence. *)
Fixpoint first_occurrences (l : list string) : list string :=
  match l with
  | [] => []
  | x :: l' => x :: filter (λ y, y ≠ x) (first_occurrences l')
  end.

(** File operations as data, to speak of the first [n] operations of a
    method. *)
Inductive file_op : Type :=
| FOpen (filename : string)
| FWrite (filename s : string).

Definition file_op_do (o : file_op) : M unit :=
  match o with
  | FOpen f => open_w f
  | FWrite f s => write f s
  end.

Definition file_op_apply (fs : gmap string string) (o : file_op) : gmap string string :=
  match o with
  | FOpen f => <[f := ""]> fs
  | FWrite f s => alter (λ c, c +:+ s) f fs
  end.

Definition csv_rows (rows : list (list float)) : list string :=
  (λ row, csv_line (float_str <$> row)) <$> rows.

Definition duration_lines (ds : dict float) : list string :=
  (λ item : string * float,
     item.1 +:+ ": " +:+ fmt_2f item.2 +:+ " seconds" +:+ nl) <$> ds.

(** The file operations of [save_data] up to the call of
    [update_duration_file], and those of [update_duration_file]. *)
Definition csv_ops (filename : string) (rows : list (list float)) : list file_op :=
  FOpen filename :: FWrite filename (csv_line csv_header)
    :: (FWrite filename <$> csv_rows rows).

Definition duration_ops (pid : string) (ds : dict float) : list file_op :=
  FOpen (pid +:+ "_duration.txt")
    :: FWrite (pid +:+ "_duration.txt") ("Participant ID: " +:+ pid +:+ nl)
    :: (FWrite (pid +:+ "_duration.txt") <$> duration_lines ds).

(** The key that follows [key] in [keys]. *)
Definition next_key (key : string) (keys : list string) : option string :=
  match list_index key keys with
  | Some i => keys !! (i + 1)
  | None => None
  end.

(** The buttons once the stop branch of [toggle_recording key] is through. *)
Definition buttons_after_stop (key : string) (bs : dict button) : dict button :=
  let bs1 :=
    match dict_get key bs with
    | Some b =>
        dict_set key
          (with_state DISABLED
             (with_text ("Record " +:+ replace_char "_" " " key) b)) bs
    | None => bs
    end in
  match next_key key (dict_keys bs1) with
  | Some nk =>
      match dict_get nk bs1 with
      | Some b => if truthy nk then dict_set nk (with_state NORMAL b) bs1 else bs1
      | None => bs1
      end
  | None => bs1
  end.

(** The file operations of [save_data key] in world [w], whose recording
    started at [t0] and is stopped at [now]. *)
Definition save_ops (key : string) (now t0 : float) (w : world) : list file_op :=
  let pid := fstr_opt (participant_id (self w)) in
  csv_ops (pid +:+ "_" +:+ key +:+ ".csv") (data (self w))
    ++ duration_ops pid (dict_set key (fsub now t0) (durations (self w))).

(** The text of a data file and of a duration file. *)
Definition csv_text (rows : list (list float)) : string :=
  csv_line csv_header +:+ String.concat "" (csv_rows rows).

Definition duration_text (pid : string) (ds : dict float) : string :=
  "Participant ID: " +:+ pid +:+ nl +:+ String.concat "" (duration_lines ds).

(** What holds of the program whatever happened to it so far. *)
Definition reachable_inv (w : world) : Prop :=
  dict_keys (buttons (self w)) = segment_keys
  ∧ (recording (self w) = true → is_Some (start_time (self w)))
  ∧ io_fault w = None
  ∧ monitor_alive w = true
  ∧ ((∃ k, clickable k w = true) →
     is_Some (participant_id (self w)) ∧ is_Some (text_field_frame (self w)))
  ∧ (is_Some (text_field_frame (self w)) → is_Some (inlet (self w)))
  ∧ (recording (self w) = true → is_Some (text_field_frame (self w))).

(** Events of the background threads of a recording, and those among them
    that deliver no sample. *)
Definition thread_event (e : event) : Prop :=
  match e with
  | RecTest _ | RecPull _ _ _ | SwStart _ _ | SwIter _ _ => True
  | _ => False
  end.

Definition idle_thread_event (e : event) : Prop :=
  match e with
  | RecTest _ | SwStart _ _ | SwIter _ _ => True
  | _ => False
  end.


End Auxiliary.

(** ** Concrete sessions

    Sessions of participant [p01], with numbers in hundredths, on which the
    statements below are instantiated. *)

Section Scenarios.
#[local] Existing Instance centi_float.

(** The headband is found and the operator types the identifier. *)
Definition session_ready : list event :=
  [Poll (Ok [7]) (Ok 1); KeyRelease "p01"].

(** Eyes-closed is started at 1000.00 s and three samples arrive. *)
Definition session_three_samples : list event :=
  session_ready ++
  [Press "EC" 100000%Z None;
   RecTest 0; RecPull 0 [100; 200; 300; 400; 500]%Z 5000%Z;
   RecTest 0; RecPull 0 [110; 210; 310; 410; 510]%Z 5001%Z;
   RecTest 0; RecPull 0 [120; 220; 320; 420; 520]%Z 5002%Z].

(** Eyes-closed is recorded for 2.50 s, then eyes-open is started. *)
Definition session_ec_done_eo_started : list event :=
  session_ready ++
  [Press "EC" 100000%Z None; Press "EC" 100250%Z None;
   Press "EO" 100400%Z None].

(** Eyes-closed is recorded, then a key is released in the entry again, which
    enables the first button a second time: two buttons are enabled. *)
Definition session_two_enabled : list event :=
  session_ready ++
  [Press "EC" 100000%Z None; Press "EC" 100250%Z None; KeyRelease "p01"].


End Scenarios.

(** ** Further definitions for the statements *)

Section MoreAuxiliary.
Context `{FloatOps}.

(** [n] turns of the loop of [record_data] in thread [i], one per sample. *)
Definition pull_cycles (i : nat) (samples : list (list float * float)) : list event :=
  flat_map (λ st : list float * float, [RecTest i; RecPull i st.1 st.2]) samples.

(** The rows these samples make in the buffer. *)
Definition sample_rows (samples : list (list float * float)) : list (list float) :=
  (λ st : list float * float, st.2 :: st.1) <$> samples.

(** Events other than clicks. *)
Definition no_click (e : event) : Prop :=
  match e with Press _ _ _ => False | _ => True end.

(** Events other than turns of the monitor loop. *)
Definition no_poll (e : event) : Prop :=
  match e with Poll _ _ => False | _ => True end.

(** The calls of the connection handlers among the effects, in order:
    [true] for [on_connection], [false] for [on_disconnection]. *)
Definition signals (tr : list effect) : list bool :=
  omap (λ e, match e with
             | Connected => Some true
             | Disconnected => Some false
             | _ => None
             end) tr.

(** Signals that alternate, the first one being [first]. *)
Fixpoint alternating (first : bool) (l : list bool) : Prop :=
  match l with
  | [] => True
  | b :: l' => b = first ∧ alternating (negb first) l'
  end.

(** The characters of a string. *)
Fixpoint chars (s : string) : list ascii :=
  match s with
  | EmptyString => []
  | String c s' => c :: chars s'
  end.

(** A number below 100 written with two decimal digits. *)
Definition digit (d : Z) : ascii := ascii_of_nat (48 + Z.to_nat d).

Definition two_digits (n : Z) : string :=
  String (digit (n `div` 10)) (String (digit (n `mod` 10)) EmptyString).

(** The text [update_stopwatch] puts on the label for [elapsed_time]
    seconds. *)
Definition stopwatch_text (elapsed_time : Z) : string :=
  "Stopwatch: " +:+ fmt_02 (elapsed_time `div` 3600)
    +:+ ":" +:+ fmt_02 ((elapsed_time `mod` 3600) `div` 60)
    +:+ ":" +:+ fmt_02 ((elapsed_time `mod` 3600) `mod` 60).

(** What the window shows of the connection: the status line, whether the
    entry is on the grid, and, when connected, a stream and an inlet. *)
Definition display_inv (w : world) : Prop :=
  if connected w then
    status_label (self w) = "Status: Connected to Muse 2"
    ∧ text_field_frame (self w) = Some true
    ∧ is_Some (stream (self w)) ∧ is_Some (inlet (self w))
  else
    status_label (self w) = "Status: Not connected to Muse 2"
    ∧ text_field_frame (self w) ≠ Some true.

(** Events other than a turn of the monitor loop that finds a stream and
    opens its inlet. *)
Definition no_connection (e : event) : Prop :=
  match e with Poll (Ok (_ :: _)) (Ok _) => False | _ => True end.

(** What [resolve_stream] does when no stream is there: an empty list or an
    exception. *)
Definition no_stream (found : result (list nat)) : Prop :=
  match found with Ok (_ :: _) => False | _ => True end.

(** A text of characters of the ASCII range, on which [is_space] is
    [str.isspace]. *)
Definition ascii_text (s : string) : Prop :=
  Forall (λ c, nat_of_ascii c < 128) (chars s).

(** A text without a character that [strip] keeps. *)
Definition blank (s : string) : Prop :=
  Forall (λ c, is_space c = true) (chars s).

(** The file a file operation works on. *)
Definition file_op_name (o : file_op) : string :=
  match o with FOpen f | FWrite f _ => f end.

(** The segments of the recordings started. *)
Definition started_keys (acts : list action) : list string :=
  omap (λ a, match a with Started k => Some k | _ => None end) acts.

(** The identifiers stored by key releases. *)
Definition entered_ids (acts : list action) : list string :=
  omap (λ a, match a with IdEntered pid => Some pid | _ => None end) acts.

(** The caption a button can carry: the one [__init__] gave it, the one of
    a recording in progress, or the one a stop gives. *)
Definition caption_ok (k : string) (b : button) : Prop :=
  (btn_text b, k) ∈ segments
  ∨ btn_text b = "Stop Recording"
  ∨ btn_text b = "Record " +:+ k.

End MoreAuxiliary.

(** ** Further sessions *)

Section MoreScenarios.
#[local] Existing Instance centi_float.

(** Eyes-closed is recorded; eyes-open is started; a key released in the
    entry enables the first button again; the monitor polls and the recorder
    thread of eyes-open pulls one sample. *)
Definition session_eo_recording : list event :=
  session_ec_done_eo_started ++
  [KeyRelease "p01"; Poll (Ok [7]) (Ok 1);
   RecTest 1; RecPull 1 [100; 200; 300; 400; 500]%Z 6000%Z].

(** Eyes-closed is started and its recorder thread waits for a sample. *)
Definition session_pull_pending : list event :=
  session_ready ++ [Press "EC" 100000%Z None; RecTest 0].

(** Eyes-closed is started and its stopwatch thread has shown one second. *)
Definition session_stopwatch_running : list event :=
  session_ready ++
  [Press "EC" 100000%Z None; SwStart 0 100000%Z; SwIter 0 100100%Z].

(** No headband: discovery finds nothing, finds a stream whose inlet cannot
    be opened, or fails, while the operator types and clicks. *)
Definition session_no_headband : list event :=
  [Poll (Ok []) (Ok 1); Poll (Ok [7]) (Raise LSLError); KeyRelease "p01";
   Press "EC" 100000%Z None; Poll (Raise LSLError) (Ok 1)].

(** Eyes-closed is recorded and saved. *)
Definition session_ec_saved : list event :=
  session_three_samples ++ [Press "EC" 100250%Z None].

(** The next participant: another identifier is typed and eyes-open is
    recorded. *)
Definition session_next_participant : list event :=
  [KeyRelease "p02"; Press "EO" 200000%Z None; Press "EO" 200300%Z None].

(** Two samples as [pull_sample] returns them. *)
Definition two_samples : list (list float * float) :=
  [([100; 200; 300; 400; 500]%Z, 5000%Z); ([110; 210; 310; 410; 510]%Z, 5001%Z)].

End MoreScenarios.

(** * Properties *)

(** Unfolding of the monad's operations, and of attribute access. *)
Ltac munfold :=
  unfold mbind, M_bind, bind, mret, M_ret, ret, gets, assign, update, reads,
    effect_, raise, lift, showinfo, sleep.

Ltac proj_simpl :=
  cbn [self connected monitor_alive rec_threads sw_threads files io_fault trace
       stream inlet recording start_time data participant_id durations
       stopwatch_running status_label text_field_frame participant_id_entry
       buttons stopwatch_label
       upd_self emit set_connected set_monitor_alive set_rec_threads
       set_sw_threads set_files set_io_fault
       set_stream set_inlet set_recording set_start_time set_data
       set_participant_id set_durations set_stopwatch_running set_status_label
       set_text_field_frame set_participant_id_entry set_buttons
       set_stopwatch_label].

Ltac inv_close :=
  proj_simpl; intros;
  first [ done | by eexists | split; by eexists | by eauto ].

Section Execution.
Context `{FloatOps}.

(** ** Dictionaries *)

Lemma dict_get_set_eq {V} (k : string) (v : V) (d : dict V) :
  dict_get k (dict_set k v d) = Some v.
Proof.
  induction d as [|[k' v'] d IH]; simpl.
  - by rewrite decide_True.
  - destruct (decide (k' = k)) as [->|Hne]; simpl.
    + by rewrite decide_True.
    + by rewrite decide_False.
Qed.

Lemma dict_get_set_ne {V} (k k0 : string) (v : V) (d : dict V) :
  k0 ≠ k → dict_get k0 (dict_set k v d) = dict_get k0 d.
Proof.
  intros Hne. induction d as [|[k' v'] d IH]; simpl.
  - by rewrite decide_False.
  - destruct (decide (k' = k)) as [->|Hk]; simpl.
    + by rewrite !decide_False by done.
    + destruct (decide (k' = k0)); done.
Qed.

Lemma dict_get_Some_keys {V} (k : string) (v : V) (d : dict V) :
  dict_get k d = Some v → k ∈ dict_keys d.
Proof.
  induction d as [|[k' v'] d IH]; simpl; [done|].
  destruct (decide (k' = k)) as [->|Hk]; intros Hg.
  - apply list_elem_of_here.
  - apply list_elem_of_further. by apply IH.
Qed.

Lemma dict_get_None_keys {V} (k : string) (d : dict V) :
  dict_get k d = None ↔ k ∉ dict_keys d.
Proof.
  induction d as [|[k' v'] d IH]; simpl.
  - split; [intros _; apply not_elem_of_nil | done].
  - rewrite not_elem_of_cons. destruct (decide (k' = k)) as [->|Hk].
    + split; [done | intros [? _]; done].
    + rewrite IH. split; [intros ?; split; congruence | intros [_ ?]; done].
Qed.

Lemma dict_keys_set_present {V} (k : string) (v : V) (d : dict V) :
  k ∈ dict_keys d → dict_keys (dict_set k v d) = dict_keys d.
Proof.
  induction d as [|[k' v'] d IH]; simpl.
  - intros Hin. by apply elem_of_nil in Hin.
  - intros Hin. destruct (decide (k' = k)) as [->|Hk]; simpl; [done|].
    f_equal. apply IH. apply elem_of_cons in Hin as [->|Hin]; done.
Qed.

Lemma dict_keys_set_absent {V} (k : string) (v : V) (d : dict V) :
  k ∉ dict_keys d → dict_keys (dict_set k v d) = (dict_keys d ++ [k])%list.
Proof.
  induction d as [|[k' v'] d IH]; simpl; [done|].
  intros Hin. apply not_elem_of_cons in Hin as [Hne Hin].
  rewrite decide_False by done. simpl. f_equal. by apply IH.
Qed.

Lemma dict_keys_disable (bs : dict button) :
  dict_keys (prod_map id (with_state DISABLED) <$> bs) = dict_keys bs.
Proof.
  unfold dict_keys. induction bs as [|[k b] bs IH]; [done|].
  cbn. f_equal. exact IH.
Qed.

Lemma dict_get_disable (k : string) (bs : dict button) :
  dict_get k (prod_map id (with_state DISABLED) <$> bs)
  = with_state DISABLED <$> dict_get k bs.
Proof.
  induction bs as [|[k' b] bs IH]; simpl; [done|].
  destruct (decide (k' = k)); done.
Qed.

End Execution.

(** ** Loops and file operations *)

Section FileOperations.
Context `{FloatOps}.

Lemma bind_eval {A B} (m : M A) (k : A → M B) (w : world) :
  (m ≫= k) w = match m w with
               | (Ok a, w') => k a w'
               | (Raise e, w') => (Raise e, w')
               end.
Proof. reflexivity. Qed.

Lemma for_each_cons {A} (x : A) (l : list A) (f : A → M unit) (w : world) :
  for_each (x :: l) f w = match f x w with
                          | (Ok _, w') => for_each l f w'
                          | (Raise e, w') => (Raise e, w')
                          end.
Proof. reflexivity. Qed.

Lemma for_each_app {A} (l1 l2 : list A) (f : A → M unit) (w : world) :
  for_each (l1 ++ l2) f w = match for_each l1 f w with
                            | (Ok _, w') => for_each l2 f w'
                            | (Raise e, w') => (Raise e, w')
                            end.
Proof.
  revert w. induction l1 as [|x l1 IH]; intros w; [done|].
  rewrite <- app_comm_cons, !for_each_cons.
  destruct (f x w) as [[[]|e] w']; [apply IH | done].
Qed.

Lemma for_each_fmap {A B} (g : A → B) (l : list A) (f : B → M unit) (w : world) :
  for_each (g <$> l) f w = for_each l (λ x, f (g x)) w.
Proof.
  revert w. induction l as [|x l IH]; intros w; [done|].
  rewrite fmap_cons, !for_each_cons.
  destruct (f (g x) w) as [[[]|e] w']; [apply IH | done].
Qed.

Lemma file_op_do_eval (o : file_op) (w : world) :
  file_op_do o w =
  match io_fault w with
  | Some 0 => (Raise OSError, set_io_fault None w)
  | Some (S n) =>
      (Ok (), set_files (file_op_apply (files w) o) (set_io_fault (Some n) w))
  | None => (Ok (), set_files (file_op_apply (files w) o) w)
  end.
Proof.
  destruct w as [a c ma rt st fs [[|n]|] tr]; destruct o; reflexivity.
Qed.

(** Running a list of file operations: all of them when no fault is pending
    or the fault lies beyond them, otherwise those before the fault. *)
Lemma for_each_file_ops (ops : list file_op) (w : world) :
  for_each ops file_op_do w =
  match io_fault w with
  | None => (Ok (), set_files (foldl file_op_apply (files w) ops) w)
  | Some n =>
      if decide (n < length ops)
      then (Raise OSError,
            set_io_fault None
              (set_files (foldl file_op_apply (files w) (take n ops)) w))
      else (Ok (),
            set_io_fault (Some (n - length ops))
              (set_files (foldl file_op_apply (files w) ops) w))
  end.
Proof.
  revert w. induction ops as [|o ops IH]; intros w.
  - destruct w as [a c ma rt st fs [n|] tr]; [|done].
    cbn [io_fault]. destruct (decide (n < length [])) as [Hlt|_].
    + simpl in Hlt. lia.
    + cbn. by rewrite Nat.sub_0_r.
  - rewrite for_each_cons, file_op_do_eval.
    destruct w as [a c ma rt st fs [[|n]|] tr]; simpl.
    + done.
    + rewrite IH. cbn [io_fault set_files set_io_fault length].
      destruct (decide (n < length ops)), (decide (S n < S (length ops)));
        try lia; done.
    + rewrite IH. done.
Qed.

End FileOperations.

(** ** [save_data] and [update_duration_file] *)

Section SaveData.
Context `{FloatOps}.

Lemma for_each_ext {A} (l : list A) (f g : A → M unit) (w : world) :
  (∀ x w, f x w = g x w) → for_each l f w = for_each l g w.
Proof.
  intros Hfg. revert w. induction l as [|x l IH]; intros w; [done|].
  rewrite !for_each_cons, Hfg. destruct (g x w) as [[[]|e] w']; [apply IH | done].
Qed.

Lemma file_op_do_self (o : file_op) (w w' : world) (r : result ()) :
  file_op_do o w = (r, w') → self w' = self w.
Proof.
  destruct w as [a c ma rt st fs [[|n]|] tr]; destruct o; cbn; intros [= _ <-]; done.
Qed.

Lemma for_each_file_ops_self (ops : list file_op) (w w' : world) (r : result ()) :
  for_each ops file_op_do w = (r, w') → self w' = self w.
Proof.
  revert w. induction ops as [|o ops IH]; intros w.
  - by intros [= _ <-].
  - rewrite for_each_cons. destruct (file_op_do o w) as [[[]|e] w1] eqn:Ho.
    + intros Hrest. apply IH in Hrest. apply file_op_do_self in Ho. congruence.
    + intros [= _ <-]. by apply file_op_do_self in Ho.
Qed.

Lemma update_duration_file_eval (w : world) :
  update_duration_file w
  = for_each (duration_ops (fstr_opt (participant_id (self w)))
                           (durations (self w))) file_op_do w.
Proof.
  unfold update_duration_file, duration_ops.
  change (open_w ?f) with (file_op_do (FOpen f)).
  change (write ?f ?s) with (file_op_do (FWrite f s)).
  rewrite bind_eval. cbn [gets].
  rewrite for_each_cons, bind_eval.
  destruct (file_op_do (FOpen _) w) as [[[]|e] w1] eqn:H1; [|done].
  rewrite for_each_cons, bind_eval.
  destruct (file_op_do (FWrite _ _) w1) as [[[]|e] w2] eqn:H2; [|done].
  rewrite bind_eval. cbn [gets]. apply file_op_do_self in H1, H2.
  rewrite H2, H1. unfold duration_lines. rewrite !for_each_fmap.
  apply for_each_ext. by intros [k d] w'.
Qed.

(** [save_data] assigns the duration and then runs its file operations in
    order; the confirmation is shown when all of them succeeded. *)
Lemma save_data_eval (key : string) (now t0 : float) (w : world) :
  start_time (self w) = Some t0 →
  save_data key now w =
  let w1 := upd_self (set_durations
                        (dict_set key (fsub now t0) (durations (self w)))) w in
  let pid := fstr_opt (participant_id (self w)) in
  let filename := pid +:+ "_" +:+ key +:+ ".csv" in
  match for_each (csv_ops filename (data (self w))
                    ++ duration_ops pid (durations (self w1))) file_op_do w1 with
  | (Ok _, w2) =>
      (Ok (), emit (ShowInfo "Recording Saved"
                      (key +:+ " data saved to " +:+ filename)) w2)
  | (Raise e, w2) => (Raise e, w2)
  end.
Proof.
  intros Hst. unfold save_data.
  change (open_w ?f) with (file_op_do (FOpen f)).
  change (writerow_str ?f ?r) with (file_op_do (FWrite f (csv_line r))).
  rewrite bind_eval. cbn [gets]. rewrite Hst.
  rewrite bind_eval. cbn [mret M_ret ret].
  rewrite bind_eval. cbn [gets].
  rewrite bind_eval. cbn [assign].
  rewrite bind_eval. cbn [gets].
  set (w1 := upd_self _ w). cbn zeta.
  change (participant_id (self w1)) with (participant_id (self w)).
  change (data (self w)) with (data (self w1)).
  rewrite for_each_app. unfold csv_ops.
  rewrite for_each_cons, bind_eval.
  destruct (file_op_do (FOpen _) w1) as [[[]|e] w2] eqn:H1; [|done].
  rewrite for_each_cons, bind_eval.
  destruct (file_op_do (FWrite _ _) w2) as [[[]|e] w3] eqn:H2; [|done].
  rewrite !bind_eval. cbn [gets]. apply file_op_do_self in H1, H2.
  rewrite H2, H1. unfold writerows, csv_rows. rewrite !for_each_fmap.
  change (λ x, file_op_do (FWrite ?f (csv_line (float_str <$> x))))
    with (writerow f).
  rewrite bind_eval.
  destruct (for_each (data (self w1)) _ w3) as [[[]|e] w4] eqn:H3; [|done].
  rewrite bind_eval, update_duration_file_eval.
  assert (self w4 = self w1) as ->.
  { rewrite <- for_each_fmap in H3.
    change (writerow ?f) with (λ x, file_op_do (FWrite f (csv_line (float_str <$> x)))) in H3.
    rewrite <- (for_each_fmap (λ x, FWrite _ (csv_line (float_str <$> x)))) in H3.
    apply for_each_file_ops_self in H3. congruence. }
  change (participant_id (self w1)) with (participant_id (self w)).
  destruct (for_each (duration_ops _ _) file_op_do w4) as [[[]|e] w5]; done.
Qed.
End SaveData.

(** ** The two branches of [toggle_recording] *)

Section ToggleBranches.
Context `{FloatOps}.

Lemma list_index_elem (x : string) (l : list string) :
  x ∈ l → ∃ i, list_index x l = Some i ∧ i < length l.
Proof.
  induction l as [|y l IH]; intros Hin.
  - by apply elem_of_nil in Hin.
  - simpl. destruct (decide (y = x)) as [->|Hne].
    + exists 0. split; [done | simpl; lia].
    + apply elem_of_cons in Hin as [->|Hin]; [done|].
      destruct (IH Hin) as (i & -> & Hi). exists (S i). split; [done | simpl; lia].
Qed.

(** The start branch. *)
Lemma toggle_recording_start (key : string) (now : float) (b : button) (w : world) :
  recording (self w) = false →
  dict_get key (buttons (self w)) = Some b →
  toggle_recording key now w =
  (Ok (),
   upd_self
     (set_buttons
        (dict_set key (with_text "Stop Recording" b) (buttons (self w))))
     (set_rec_threads (rec_threads w ++ [RecWhile])
        (set_sw_threads (sw_threads w ++ [SwEntry])
           (upd_self (set_stopwatch_running true)
              (upd_self (set_data [])
                 (upd_self (set_start_time (Some now))
                    (upd_self (set_recording true) w))))))).
Proof.
  intros Hrec Hb.
  unfold toggle_recording, start_stopwatch, spawn_record_data, button_config.
  munfold. rewrite Hrec. cbn. by rewrite Hb.
Qed.

(** What follows [save_data] in the stop branch. *)
Lemma stop_tail_eval (key : string) (b : button) (w : world) :
  dict_get key (buttons (self w)) = Some b →
  (reset_stopwatch;;
   button_config key
     (λ b, with_state DISABLED
             (with_text ("Record " +:+ replace_char "_" " " key) b));;
   next_key ← get_next_key key;
   match next_key with
   | Some nk =>
       if truthy nk then button_config nk (with_state NORMAL) else mret ()
   | None => mret ()
   end) w
  = (Ok (),
     upd_self (set_buttons (buttons_after_stop key (buttons (self w))))
       (upd_self (set_stopwatch_label "Stopwatch: 00:00:00") w)).
Proof.
  intros Hb. unfold reset_stopwatch, button_config, get_next_key.
  munfold. cbn. rewrite Hb. cbn.
  unfold buttons_after_stop, next_key. rewrite Hb. cbn zeta.
  set (bs1 := dict_set key _ (buttons (self w))).
  assert (key ∈ dict_keys bs1) as Hin.
  { eapply dict_get_Some_keys. apply dict_get_set_eq. }
  destruct (list_index_elem _ _ Hin) as (i & Hidx & Hi).
  unfold dict_keys in *. rewrite Hidx.
  destruct (decide (i + 1 < length (bs1.*1))) as [Hlt|Hge].
  - destruct (bs1.*1 !! (i + 1)) as [nk|] eqn:Hnk.
    2:{ apply lookup_ge_None_1 in Hnk. lia. }
    apply list_elem_of_lookup_2 in Hnk.
    destruct (dict_get nk bs1) as [b'|] eqn:Hb'.
    + destruct (truthy nk); [|done]. cbn. fold bs1. by rewrite Hb'.
    + apply dict_get_None_keys in Hb'. done.
  - by rewrite lookup_ge_None_2 by lia.
Qed.

End ToggleBranches.

(** ** File names and file contents *)

Section FileContents.
Context `{FloatOps}.

Lemma append_cons (c : ascii) (s t : string) :
  String c s +:+ t = String c (s +:+ t).
Proof. reflexivity. Qed.

Lemma append_nil_r (s : string) : s +:+ "" = s.
Proof.
  induction s as [|c s IH]; [done|]. by rewrite append_cons, IH.
Qed.

Lemma append_assoc (s1 s2 s3 : string) : (s1 +:+ s2) +:+ s3 = s1 +:+ (s2 +:+ s3).
Proof.
  induction s1 as [|c s1 IH]; [done|]. by rewrite !append_cons, IH.
Qed.

Lemma append_length (s1 s2 : string) :
  String.length (s1 +:+ s2) = String.length s1 + String.length s2.
Proof.
  induction s1 as [|c s1 IH]; [done|]. rewrite append_cons. simpl. by rewrite IH.
Qed.

Lemma append_inj_suffix (s1 s2 a b : string) :
  String.length a = String.length b → s1 +:+ a = s2 +:+ b → a = b.
Proof.
  revert s2. induction s1 as [|c s1 IH]; intros [|c2 s2] Hlen Heq.
  - done.
  - apply (f_equal String.length) in Heq.
    rewrite !append_length in Heq. simpl in Heq. lia.
  - apply (f_equal String.length) in Heq.
    rewrite !append_length in Heq. simpl in Heq. lia.
  - rewrite !append_cons in Heq. injection Heq as _ Heq. by eapply IH.
Qed.

(** The data file and the duration file of a participant never coincide. *)
Lemma csv_name_ne_duration_name (pid pid' key : string) :
  pid +:+ "_" +:+ key +:+ ".csv" ≠ pid' +:+ "_duration.txt".
Proof.
  intros Heq.
  change (pid' +:+ "_duration.txt") with (pid' +:+ "_duration" +:+ ".txt") in Heq.
  rewrite <- !append_assoc in Heq.
  by apply append_inj_suffix in Heq.
Qed.

(** Writing [lines] to a file that holds [c] appends them in order. *)
Lemma foldl_writes (f c : string) (lines : list string) (fs : gmap string string) :
  foldl file_op_apply (<[f := c]> fs) (FWrite f <$> lines)
  = <[f := c +:+ String.concat "" lines]> fs.
Proof.
  revert c. induction lines as [|l lines IH]; intros c.
  - simpl. by rewrite append_nil_r.
  - rewrite fmap_cons. cbn [foldl file_op_apply].
    rewrite alter_insert_eq, IH. f_equal.
    destruct lines as [|l' lines]; cbn [String.concat].
    + by rewrite !append_nil_r.
    + by rewrite append_assoc.
Qed.

End FileContents.

(** ** The stop branch with its save *)

Section StopBranch.
Context `{FloatOps}.

Lemma csv_ops_files (f : string) (rows : list (list float)) (fs : gmap string string) :
  foldl file_op_apply fs (csv_ops f rows) = <[f := csv_text rows]> fs.
Proof.
  unfold csv_ops, csv_text. cbn [foldl file_op_apply].
  by rewrite alter_insert_eq, foldl_writes.
Qed.

Lemma duration_ops_files (pid : string) (ds : dict float) (fs : gmap string string) :
  foldl file_op_apply fs (duration_ops pid ds)
  = <[pid +:+ "_duration.txt" := duration_text pid ds]> fs.
Proof.
  unfold duration_ops, duration_text. cbn [foldl file_op_apply].
  rewrite alter_insert_eq, foldl_writes.
  f_equal. change ("" +:+ ?s) with s. by rewrite !append_assoc.
Qed.

Lemma save_ops_files (key : string) (now t0 : float) (w : world) :
  foldl file_op_apply (files w) (save_ops key now t0 w)
  = <[fstr_opt (participant_id (self w)) +:+ "_duration.txt" :=
        duration_text (fstr_opt (participant_id (self w)))
          (dict_set key (fsub now t0) (durations (self w)))]>
      (<[fstr_opt (participant_id (self w)) +:+ "_" +:+ key +:+ ".csv" :=
           csv_text (data (self w))]> (files w)).
Proof.
  unfold save_ops. by rewrite foldl_app, csv_ops_files, duration_ops_files.
Qed.

(** The stop branch: the flags are cleared, [save_data] runs, and the rest
    follows only if no file operation failed. *)
Lemma toggle_recording_stop (key : string) (now t0 : float) (b : button) (w : world) :
  recording (self w) = true →
  start_time (self w) = Some t0 →
  dict_get key (buttons (self w)) = Some b →
  toggle_recording key now w =
  match for_each (save_ops key now t0 w) file_op_do
          (upd_self (set_durations
                       (dict_set key (fsub now t0) (durations (self w))))
             (upd_self (set_stopwatch_running false)
                (upd_self (set_recording false) w))) with
  | (Ok _, w2) =>
      (Ok (),
       upd_self (set_buttons (buttons_after_stop key (buttons (self w))))
         (upd_self (set_stopwatch_label "Stopwatch: 00:00:00")
            (emit (ShowInfo "Recording Saved"
                     (key +:+ " data saved to "
                        +:+ fstr_opt (participant_id (self w))
                        +:+ "_" +:+ key +:+ ".csv")) w2)))
  | (Raise e, w2) => (Raise e, w2)
  end.
Proof.
  intros Hrec Hst Hb. unfold toggle_recording.
  rewrite bind_eval. cbn [gets]. rewrite Hrec.
  rewrite bind_eval. cbn [assign].
  rewrite bind_eval. cbn [assign].
  rewrite bind_eval.
  rewrite (save_data_eval key now t0) by done.
  unfold save_ops. cbn zeta.
  set (w1 := upd_self (set_durations _) _).
  set (ops := @List.app file_op _ _).
  match goal with
  | |- _ = match for_each ?ops' _ ?w1' with _ => _ end =>
      change ops' with ops; change w1' with w1
  end.
  destruct (for_each ops file_op_do w1) as [[[]|e] w2] eqn:Hio; [|done].
  apply for_each_file_ops_self in Hio.
  erewrite stop_tail_eval.
  - cbn [self emit upd_self]. by rewrite Hio.
  - cbn [self emit]. rewrite Hio. exact Hb.
Qed.

End StopBranch.

(** ** Connection handlers and the monitor loop *)

Section Handlers.
Context `{FloatOps}.

Lemma on_disconnection_eval (w : world) :
  on_disconnection w =
  (Ok (),
   upd_self (set_buttons (prod_map id (with_state DISABLED) <$> buttons (self w)))
     (upd_self (set_text_field_frame
                  (match text_field_frame (self w) with
                   | Some _ => Some false
                   | None => None
                   end))
        (upd_self (set_status_label "Status: Not connected to Muse 2")
           (emit Disconnected w)))).
Proof.
  unfold on_disconnection, hide_text_field, disable_buttons. munfold. cbn.
  destruct w as [[s i r st d p ds sr sl tf pe bs swl] c ma rt stt fs io tr]; cbn.
  by destruct tf.
Qed.

Lemma on_connection_eval (w : world) :
  on_connection w =
  (Ok (),
   upd_self (set_text_field_frame (Some true))
     (upd_self (set_participant_id_entry
                  (match text_field_frame (self w) with
                   | Some _ => participant_id_entry (self w)
                   | None => ""
                   end))
        (upd_self (set_status_label "Status: Connected to Muse 2")
           (emit Connected w)))).
Proof.
  unfold on_connection, show_text_field. munfold. cbn.
  destruct w as [[s i r st d p ds sr sl tf pe bs swl] c ma rt stt fs io tr]; cbn.
  by destruct tf.
Qed.

Lemma enable_buttons_eval (w : world) :
  enable_buttons w =
  let pid := strip (participant_id_entry (self w)) in
  let w1 := upd_self (set_participant_id (Some pid)) w in
  if truthy pid then
    match dict_get "EC" (buttons (self w)) with
    | Some b =>
        (Ok (),
         upd_self (set_buttons
                     (dict_set "EC" (with_state NORMAL b) (buttons (self w)))) w1)
    | None => (Raise (KeyError "EC"), w1)
    end
  else (Ok (), w1).
Proof.
  unfold enable_buttons, button_config. munfold. cbn.
  destruct (truthy _); [|done]. by destruct (dict_get _ _).
Qed.

(** One turn of the monitor loop, by what discovery did and whether the
    monitor believed it was connected. *)
Lemma monitor_found_new (s0 i : nat) (ss : list nat) (w : world) :
  connected w = false →
  monitor_muse_connection (Ok (s0 :: ss)) (Ok i) w =
  match on_connection
          (upd_self (set_inlet (Some i)) (upd_self (set_stream (Some s0)) w)) with
  | (_, w') => (Ok (), emit (Sleep Monitor 1) (set_connected true w'))
  end.
Proof.
  intros Hc. rewrite on_connection_eval.
  unfold monitor_muse_connection, try_except. munfold. cbn. rewrite Hc. cbn.
  rewrite on_connection_eval. done.
Qed.

Lemma monitor_inlet_error (s0 : nat) (ss : list nat) (e : exn) (w : world) :
  connected w = false →
  monitor_muse_connection (Ok (s0 :: ss)) (Raise e) w =
  (Ok (), emit (Sleep Monitor 1) (upd_self (set_stream (Some s0)) w)).
Proof.
  intros Hc.
  unfold monitor_muse_connection, try_except. munfold. cbn. rewrite Hc. cbn.
  by rewrite Hc.
Qed.

Lemma monitor_found_still (s0 : nat) (ss : list nat) (opened : result nat) (w : world) :
  connected w = true →
  monitor_muse_connection (Ok (s0 :: ss)) opened w =
  (Ok (), emit (Sleep Monitor 1) w).
Proof.
  intros Hc.
  unfold monitor_muse_connection, try_except. munfold. cbn. by rewrite Hc.
Qed.

Lemma monitor_lost (opened : result nat) (w : world) :
  connected w = true →
  monitor_muse_connection (Ok []) opened w =
  match on_disconnection w with
  | (_, w') => (Ok (), emit (Sleep Monitor 1) (set_connected false w'))
  end.
Proof.
  intros Hc. rewrite on_disconnection_eval.
  unfold monitor_muse_connection, try_except. munfold. cbn. rewrite Hc. cbn.
  by rewrite on_disconnection_eval.
Qed.

Lemma monitor_error (e : exn) (opened : result nat) (w : world) :
  connected w = true →
  monitor_muse_connection (Raise e) opened w =
  match on_disconnection w with
  | (_, w') => (Ok (), emit (Sleep Monitor 1) (set_connected false w'))
  end.
Proof.
  intros Hc. rewrite on_disconnection_eval.
  unfold monitor_muse_connection, try_except. munfold. cbn. rewrite Hc. cbn.
  by rewrite on_disconnection_eval.
Qed.

Lemma monitor_idle (found : result (list nat)) (opened : result nat) (w : world) :
  connected w = false →
  match found with Ok (_ :: _) => False | _ => True end →
  monitor_muse_connection found opened w = (Ok (), emit (Sleep Monitor 1) w).
Proof.
  intros Hc Hf.
  unfold monitor_muse_connection, try_except. munfold.
  destruct found as [[|s0 ss]|e]; [| done |]; cbn; by rewrite Hc.
Qed.

End Handlers.

(** ** Clicks on segment buttons *)

Section Clicks.
Context `{FloatOps}.

Lemma clickable_inv (key : string) (w : world) :
  clickable key w = true ↔
  ∃ b, dict_get key (buttons (self w)) = Some b ∧ btn_state b = NORMAL.
Proof.
  unfold clickable. destruct (dict_get key _) as [b|].
  - destruct (btn_state b) eqn:Hs; split; try done.
    + intros _. by exists b.
    + intros (b' & [= <-] & Hb'). congruence.
  - split; [done | by intros (b & ? & _)].
Qed.

Lemma step_press_disabled (key : string) (now : float) (fault : option nat) (w : world) :
  clickable key w = false → step (Press key now fault) w = w.
Proof. intros Hc. cbn. by rewrite Hc. Qed.

Lemma step_press_start (key : string) (now : float) (fault : option nat)
    (b : button) (w : world) :
  dict_get key (buttons (self w)) = Some b →
  btn_state b = NORMAL →
  recording (self w) = false →
  io_fault w = None →
  step (Press key now fault) w =
  upd_self
    (set_buttons
       (dict_set key (with_text "Stop Recording" b) (buttons (self w))))
    (set_rec_threads (rec_threads w ++ [RecWhile])
       (set_sw_threads (sw_threads w ++ [SwEntry])
          (upd_self (set_stopwatch_running true)
             (upd_self (set_data [])
                (upd_self (set_start_time (Some now))
                   (upd_self (set_recording true) w)))))).
Proof.
  intros Hb Hs Hrec Hio.
  assert (clickable key w = true) as Hc by (apply clickable_inv; eauto).
  cbn [step]. rewrite Hc. unfold run_callback.
  rewrite (toggle_recording_start key now b) by done.
  destruct w as [a c ma rt st fs io tr]. cbn in Hio. by subst io.
Qed.

(** A click that stops a recording.  With no fault among the file
    operations of [save_data] the whole branch runs; with a fault at
    operation [n] the callback ends there with [OSError]. *)
Lemma step_press_stop (key : string) (now t0 : float) (fault : option nat)
    (b : button) (w : world) :
  dict_get key (buttons (self w)) = Some b →
  btn_state b = NORMAL →
  recording (self w) = true →
  start_time (self w) = Some t0 →
  io_fault w = None →
  step (Press key now fault) w =
  let w1 := upd_self (set_durations
                        (dict_set key (fsub now t0) (durations (self w))))
              (upd_self (set_stopwatch_running false)
                 (upd_self (set_recording false) w)) in
  let ops := save_ops key now t0 w in
  match fault with
  | Some n =>
      if decide (n < length ops) then
        emit (Uncaught MainLoop OSError)
          (set_files (foldl file_op_apply (files w) (take n ops)) w1)
      else
        upd_self (set_buttons (buttons_after_stop key (buttons (self w))))
          (upd_self (set_stopwatch_label "Stopwatch: 00:00:00")
             (emit (ShowInfo "Recording Saved"
                      (key +:+ " data saved to "
                         +:+ fstr_opt (participant_id (self w))
                         +:+ "_" +:+ key +:+ ".csv"))
                (set_files (foldl file_op_apply (files w) ops) w1)))
  | None =>
      upd_self (set_buttons (buttons_after_stop key (buttons (self w))))
        (upd_self (set_stopwatch_label "Stopwatch: 00:00:00")
           (emit (ShowInfo "Recording Saved"
                    (key +:+ " data saved to "
                       +:+ fstr_opt (participant_id (self w))
                       +:+ "_" +:+ key +:+ ".csv"))
              (set_files (foldl file_op_apply (files w) ops) w1)))
  end.
Proof.
  intros Hb Hs Hrec Hst Hio.
  assert (clickable key w = true) as Hc by (apply clickable_inv; eauto).
  cbn [step]. rewrite Hc. unfold run_callback.
  rewrite (toggle_recording_stop key now t0 b); [|done..].
  change (save_ops key now t0 (set_io_fault fault w)) with (save_ops key now t0 w).
  rewrite for_each_file_ops. cbn zeta.
  destruct w as [a c ma rt st fs io tr]. cbn in Hio. subst io.
  destruct fault as [n|]; cbn -[save_ops].
  - by case_decide.
  - done.
Qed.

End Clicks.

(** ** Reachable states *)

Section Reachable.
Context `{FloatOps}.

Lemma segment_keys_eq :
  segment_keys = ["EC"; "EO"; "Personality1"; "Personality2"; "Personality3"].
Proof. reflexivity. Qed.

Lemma clickable_same_buttons (k : string) (w w' : world) :
  buttons (self w') = buttons (self w) → clickable k w' = clickable k w.
Proof. unfold clickable. by intros ->. Qed.

Lemma clickable_disabled (k : string) (w w' : world) :
  buttons (self w') = prod_map id (with_state DISABLED) <$> buttons (self w) →
  clickable k w' = false.
Proof.
  unfold clickable. intros ->. rewrite dict_get_disable.
  by destruct (dict_get k _).
Qed.

Lemma dict_keys_buttons_after_stop (key : string) (bs : dict button) :
  dict_keys (buttons_after_stop key bs) = dict_keys bs.
Proof.
  unfold buttons_after_stop.
  set (bs1 := match dict_get key bs with Some _ => _ | None => _ end).
  assert (dict_keys bs1 = dict_keys bs) as Hk.
  { unfold bs1. destruct (dict_get key bs) as [b|] eqn:Hb; [|done].
    apply dict_keys_set_present. by eapply dict_get_Some_keys. }
  destruct (next_key key _) as [nk|]; [|done].
  destruct (dict_get nk bs1) as [b'|] eqn:Hb'; [|done].
  destruct (truthy nk); [|done].
  rewrite dict_keys_set_present; [done|]. by eapply dict_get_Some_keys.
Qed.

Lemma init_buttons :
  buttons init_app =
  [ ("EC", Button "Record Eyes Closed" DISABLED);
    ("EO", Button "Record Eyes Opened" DISABLED);
    ("Personality1", Button "Record Personality 1" DISABLED);
    ("Personality2", Button "Record Personality 2" DISABLED);
    ("Personality3", Button "Record Personality 3" DISABLED) ].
Proof. vm_compute. reflexivity. Qed.

Lemma init_not_clickable (fs : gmap string string) (k : string) :
  clickable k (init fs) = false.
Proof.
  unfold clickable. change (buttons (self (init fs))) with (buttons init_app).
  rewrite init_buttons. cbn [dict_get]. repeat case_decide; done.
Qed.

Lemma reachable_inv_init (fs : gmap string string) : reachable_inv (init fs).
Proof.
  unfold reachable_inv. split_and!.
  - change (buttons (self (init fs))) with (buttons init_app).
    by rewrite init_buttons.
  - cbn. discriminate.
  - reflexivity.
  - reflexivity.
  - intros [k Hk]. by rewrite init_not_clickable in Hk.
  - cbn. by intros [? ?].
  - cbn. discriminate.
Qed.

End Reachable.

Section ReachableSteps.
Context `{FloatOps}.

Lemma segment_key_has_button (k : string) (w : world) :
  dict_keys (buttons (self w)) = segment_keys →
  k ∈ segment_keys → is_Some (dict_get k (buttons (self w))).
Proof.
  intros Hk Hin. rewrite <- Hk in Hin.
  destruct (dict_get k (buttons (self w))) eqn:Hg; [by eexists|].
  by apply dict_get_None_keys in Hg.
Qed.

(** The invariant only looks at a few attributes. *)
Lemma reachable_inv_same (w w' : world) :
  reachable_inv w →
  buttons (self w') = buttons (self w) →
  recording (self w') = recording (self w) →
  start_time (self w') = start_time (self w) →
  participant_id (self w') = participant_id (self w) →
  text_field_frame (self w') = text_field_frame (self w) →
  inlet (self w') = inlet (self w) →
  io_fault w' = io_fault w →
  monitor_alive w' = monitor_alive w →
  reachable_inv w'.
Proof.
  intros (I1 & I2 & I3 & I4 & I5 & I6 & I7) Hb Hr Hs Hp Hf Hi Hio Hm.
  unfold reachable_inv, clickable in *.
  rewrite Hb, Hr, Hs, Hp, Hf, Hi, Hio, Hm. done.
Qed.

Lemma reachable_inv_threads (e : event) (w : world) :
  match e with Poll _ _ | KeyRelease _ | Press _ _ _ => False | _ => True end →
  reachable_inv w → reachable_inv (step e w).
Proof.
  intros He Hinv. pose proof Hinv as (I1 & I2 & I3 & I4 & I5 & I6 & I7).
  destruct e as [| | |i|i s t|i now|i now]; try done; cbn [step].
  - destruct (rec_threads w !! i) as [[]|]; try done.
    unfold record_data_test, mbind, M_bind, bind, gets, mret, M_ret, ret, raise.
    destruct (recording (self w)) eqn:Hrec; [|done].
    by destruct (I6 (I7 eq_refl)) as [x ->].
  - by destruct (rec_threads w !! i) as [[]|].
  - by destruct (sw_threads w !! i) as [[]|].
  - destruct (sw_threads w !! i) as [[| t0 |]|]; try done.
    unfold update_stopwatch, mbind, M_bind, bind, gets, mret, M_ret, ret,
      assign, sleep, effect_.
    by destruct (stopwatch_running (self w)).
Qed.

Lemma reachable_inv_key_release (text : string) (w : world) :
  reachable_inv w → reachable_inv (step (KeyRelease text) w).
Proof.
  intros Hinv. pose proof Hinv as (I1 & I2 & I3 & I4 & I5 & I6 & I7). cbn [step].
  destruct (text_field_frame (self w)) as [v|] eqn:Hf; [|done].
  unfold run_callback. rewrite enable_buttons_eval. cbn zeta.
  destruct (segment_key_has_button "EC" w I1) as [b Hb].
  { apply list_elem_of_here. }
  cbn [self upd_self participant_id_entry set_participant_id_entry buttons].
  rewrite Hb. destruct (truthy _).
  - split_and!; try done; try inv_close.
    etrans; [|exact I1].
    apply (dict_keys_set_present "EC" _ (buttons (self w))).
    by eapply dict_get_Some_keys.
  - split_and!; try done; inv_close.
Qed.

Lemma reachable_inv_poll (found : result (list nat)) (opened : result nat) (w : world) :
  reachable_inv w → reachable_inv (step (Poll found opened) w).
Proof.
  intros Hinv. pose proof Hinv as (I1 & I2 & I3 & I4 & I5 & I6 & I7).
  cbn [step]. rewrite I4.
  destruct (connected w) eqn:Hc.
  - destruct found as [[|s0 ss]|e].
    + rewrite monitor_lost, on_disconnection_eval by done.
      split_and!; try done.
      * etrans; [|exact I1]. apply dict_keys_disable.
      * intros [k Hk]. erewrite clickable_disabled in Hk; done.
      * proj_simpl. intros Hf. apply I6. by destruct (text_field_frame (self w)).
      * proj_simpl. intros Hr. specialize (I7 Hr).
        by destruct (text_field_frame (self w)).
    + rewrite monitor_found_still by done. done.
    + rewrite monitor_error, on_disconnection_eval by done.
      split_and!; try done.
      * etrans; [|exact I1]. apply dict_keys_disable.
      * intros [k Hk]. erewrite clickable_disabled in Hk; done.
      * proj_simpl. intros Hf. apply I6. by destruct (text_field_frame (self w)).
      * proj_simpl. intros Hr. specialize (I7 Hr).
        by destruct (text_field_frame (self w)).
  - destruct found as [[|s0 ss]|e].
    + rewrite monitor_idle by done. done.
    + destruct opened as [i|e].
      * rewrite monitor_found_new, on_connection_eval by done.
        split_and!; try done; try inv_close.
        intros Hk. destruct (I5 Hk) as [? _]. split; [done | by eexists].
      * rewrite monitor_inlet_error by done. done.
    + rewrite monitor_idle by done. done.
Qed.

End ReachableSteps.

Section ReachableRun.
Context `{FloatOps}.

Lemma reachable_inv_press (key : string) (now : float) (fault : option nat) (w : world) :
  reachable_inv w → reachable_inv (step (Press key now fault) w).
Proof.
  intros Hinv. pose proof Hinv as (I1 & I2 & I3 & I4 & I5 & I6 & I7).
  destruct (clickable key w) eqn:Hc; [|by rewrite step_press_disabled].
  destruct (I5 (ex_intro _ key Hc)) as [Hpid Hframe].
  apply clickable_inv in Hc as (b & Hb & Hs).
  destruct (recording (self w)) eqn:Hrec.
  - destruct (I2 eq_refl) as [t0 Ht0].
    rewrite (step_press_stop key now t0 fault b) by done. cbn zeta.
    assert (∀ w', buttons (self w') = buttons_after_stop key (buttons (self w)) →
                  dict_keys (buttons (self w')) = segment_keys) as Hkeys.
    { intros w' ->. by rewrite dict_keys_buttons_after_stop. }
    destruct fault as [n|]; [case_decide|];
      (split_and!; try done; try inv_close; by apply Hkeys).
  - rewrite (step_press_start key now fault b) by done.
    split_and!; try done; try inv_close.
    etrans; [|exact I1].
    apply (dict_keys_set_present key _ (buttons (self w))).
    by eapply dict_get_Some_keys.
Qed.

Lemma reachable_inv_step (e : event) (w : world) :
  reachable_inv w → reachable_inv (step e w).
Proof.
  destruct e.
  - apply reachable_inv_poll.
  - apply reachable_inv_key_release.
  - apply reachable_inv_press.
  - by apply reachable_inv_threads.
  - by apply reachable_inv_threads.
  - by apply reachable_inv_threads.
  - by apply reachable_inv_threads.
Qed.

Lemma run_app (evs1 evs2 : list event) (w : world) :
  run (evs1 ++ evs2) w = run evs2 (run evs1 w).
Proof. apply foldl_app. Qed.

Lemma run_cons (e : event) (evs : list event) (w : world) :
  run (e :: evs) w = run evs (step e w).
Proof. reflexivity. Qed.

Lemma reachable_inv_run (evs : list event) (w : world) :
  reachable_inv w → reachable_inv (run evs w).
Proof.
  revert w. induction evs as [|e evs IH]; intros w Hinv; [done|].
  rewrite run_cons. by apply IH, reachable_inv_step.
Qed.

Lemma reachable_inv_reached (evs : list event) (fs : gmap string string) :
  reachable_inv (run evs (init fs)).
Proof. apply reachable_inv_run, reachable_inv_init. Qed.

End ReachableRun.

(** ** The buttons after a stop *)

Section ButtonsAfterStop.
Context `{FloatOps}.

Lemma segment_keys_cases (k : string) :
  k ∈ segment_keys →
  k = "EC" ∨ k = "EO" ∨ k = "Personality1" ∨ k = "Personality2"
  ∨ k = "Personality3".
Proof.
  rewrite segment_keys_eq. intros Hk.
  repeat (apply elem_of_cons in Hk as [->|Hk]; [tauto|]).
  by apply elem_of_nil in Hk.
Qed.

Lemma segment_keys_elem (k : string) :
  k = "EC" ∨ k = "EO" ∨ k = "Personality1" ∨ k = "Personality2"
  ∨ k = "Personality3" →
  k ∈ segment_keys.
Proof.
  rewrite segment_keys_eq, !elem_of_cons. tauto.
Qed.

Lemma next_key_segment (k nk : string) :
  next_key k segment_keys = Some nk →
  nk ∈ segment_keys ∧ nk ≠ k ∧ truthy nk = true.
Proof.
  unfold next_key. intros Hn.
  destruct (list_index k segment_keys) as [i|] eqn:Hi; [|done].
  assert (k = "EC" ∨ k = "EO" ∨ k = "Personality1" ∨ k = "Personality2"
          ∨ k = "Personality3") as Hk.
  { revert Hi. rewrite segment_keys_eq. cbn [list_index].
    repeat (case_decide; [subst; tauto|]). done. }
  destruct Hk as [->|[->|[->|[->| ->]]]]; vm_compute in Hi;
    injection Hi as <-; vm_compute in Hn;
    first [ discriminate
          | injection Hn as <-;
            split_and!; [apply segment_keys_elem; tauto | done | done] ].
Qed.

(** Every button after the stop branch for [key]: the button of [key] is
    relabelled and disabled, the button of the next key is enabled, the
    others are untouched. *)
Lemma buttons_after_stop_spec (key k : string) (b : button) (bs : dict button) :
  dict_keys bs = segment_keys →
  dict_get key bs = Some b →
  dict_get k (buttons_after_stop key bs) =
  if decide (k = key) then
    Some (Button ("Record " +:+ replace_char "_" " " key) DISABLED)
  else if decide (next_key key segment_keys = Some k) then
    with_state NORMAL <$> dict_get k bs
  else dict_get k bs.
Proof.
  intros Hkeys Hb. unfold buttons_after_stop. rewrite Hb. cbn zeta.
  set (b1 := with_state DISABLED _).
  assert (dict_keys (dict_set key b1 bs) = segment_keys) as ->.
  { rewrite dict_keys_set_present; [done|]. by eapply dict_get_Some_keys. }
  destruct (next_key key segment_keys) as [nk|] eqn:Hn.
  - apply next_key_segment in Hn as (Hnk & Hne & ->).
    rewrite dict_get_set_ne by done.
    destruct (dict_get nk bs) as [bn|] eqn:Hbn.
    2:{ apply dict_get_None_keys in Hbn. by rewrite Hkeys in Hbn. }
    destruct (decide (k = key)) as [->|Hk].
    + rewrite dict_get_set_ne by done. apply dict_get_set_eq.
    + destruct (decide (Some nk = Some k)) as [[= ->]|Hk'].
      * by rewrite dict_get_set_eq, Hbn.
      * rewrite !dict_get_set_ne by congruence. done.
  - destruct (decide (k = key)) as [->|Hk].
    + apply dict_get_set_eq.
    + rewrite dict_get_set_ne by done. by rewrite decide_False.
Qed.

End ButtonsAfterStop.

(** ** Disconnection and monitor errors *)

Section Monitor.
Context `{FloatOps}.

(** C9.  The disconnection handler, in any state the program can reach:
    it sets the status text to the disconnected one, takes the participant
    entry off the screen and disables each of the five segment buttons
    (keeping their labels), and it leaves the recording flag, the stopwatch
    flag, the sample buffer, the durations, the participant identifier, the
    threads and the files as they were; an ongoing recording is neither
    stopped nor saved.  A turn of the monitor loop that finds no stream while
    connected does this and nothing else but forget the connection and
    sleep. *)
Theorem on_disconnection_frame
    (fs : gmap string string) (evs : list event) :
  let w := run evs (init fs) in
  ∃ w', on_disconnection w = (Ok (), w')
    ∧ status_label (self w') = "Status: Not connected to Muse 2"
    ∧ text_field_frame (self w') ≠ Some true
    ∧ (∀ k, k ∈ segment_keys →
         ∃ b b', dict_get k (buttons (self w)) = Some b
                 ∧ dict_get k (buttons (self w')) = Some b'
                 ∧ btn_state b' = DISABLED ∧ btn_text b' = btn_text b)
    ∧ (∀ k, clickable k w' = false)
    ∧ recording (self w') = recording (self w)
    ∧ stopwatch_running (self w') = stopwatch_running (self w)
    ∧ data (self w') = data (self w)
    ∧ durations (self w') = durations (self w)
    ∧ participant_id (self w') = participant_id (self w)
    ∧ start_time (self w') = start_time (self w)
    ∧ rec_threads w' = rec_threads w
    ∧ sw_threads w' = sw_threads w
    ∧ files w' = files w
    ∧ trace w' = trace w ++ [Disconnected]
    ∧ (connected w = true → ∀ opened,
         step (Poll (Ok []) opened) w
         = emit (Sleep Monitor 1) (set_connected false w')).
Proof.
  intros w. pose proof (reachable_inv_reached evs fs) as (I1 & _ & _ & I4 & _).
  fold w in I1, I4. rewrite on_disconnection_eval. eexists. split; [done|].
  split_and!; try done.
  - proj_simpl. by destruct (text_field_frame (self w)).
  - intros k Hk. destruct (segment_key_has_button k w I1 Hk) as [b Hb].
    exists b, (with_state DISABLED b). proj_simpl.
    by rewrite dict_get_disable, Hb.
  - intros k. by eapply clickable_disabled.
  - intros Hc opened. cbn [step]. rewrite I4, monitor_lost by done.
    by rewrite on_disconnection_eval.
Qed.

Lemma monitor_alive_reached (evs : list event) (w : world) :
  reachable_inv w → monitor_alive (run evs w) = true.
Proof. intros Hinv. by apply (reachable_inv_run evs) in Hinv as (_ & _ & _ & ? & _). Qed.

(** C7.  In any state the program can reach, a turn of the monitor loop in
    which discovery raises does exactly what a turn that finds no stream
    does.  The turn ends normally with the one-second sleep, so the loop goes
    on, now and after any further events; nothing is shown to the operator
    and no exception escapes.  If the monitor was connected the
    disconnection handler is called once and the monitor is disconnected
    afterwards, so that a second error in a row calls no handler; if it was
    not connected no handler is called and the object is untouched. *)
Theorem monitor_error_is_disconnect
    (fs : gmap string string) (evs : list event) (e : exn) (opened : result nat) :
  let w := run evs (init fs) in
  let w' := step (Poll (Raise e) opened) w in
  w' = step (Poll (Ok []) opened) w
  ∧ monitor_muse_connection (Raise e) opened w = (Ok (), w')
  ∧ trace w' = trace w ++ (if connected w then [Disconnected] else [])
                       ++ [Sleep Monitor 1]
  ∧ connected w' = false
  ∧ (connected w = false → self w' = self w)
  ∧ (∀ e2 opened2,
       trace (step (Poll (Raise e2) opened2) w') = trace w' ++ [Sleep Monitor 1])
  ∧ (∀ more, monitor_alive (run more w') = true).
Proof.
  intros w w'. pose proof (reachable_inv_reached evs fs) as Hinv. fold w in Hinv.
  pose proof Hinv as (_ & _ & _ & I4 & _).
  assert (reachable_inv w') as Hinv' by by apply reachable_inv_step.
  assert (connected w' = false ∧
          monitor_muse_connection (Raise e) opened w = (Ok (), w') ∧
          w' = step (Poll (Ok []) opened) w ∧
          trace w' = trace w ++ (if connected w then [Disconnected] else [])
                       ++ [Sleep Monitor 1] ∧
          (connected w = false → self w' = self w)) as (Hc' & Hm & Heq & Htr & Hself).
  { unfold w'. cbn [step]. rewrite I4. destruct (connected w) eqn:Hc.
    - rewrite monitor_error, monitor_lost, on_disconnection_eval by done.
      split_and!; try done. proj_simpl. by rewrite <- app_assoc.
    - rewrite !monitor_idle by done. done. }
  split_and!; try done.
  - intros e2 opened2. pose proof Hinv' as (_ & _ & _ & I4' & _).
    cbn [step]. rewrite I4', monitor_idle by done. done.
  - intros more. by apply monitor_alive_reached.
Qed.

End Monitor.

(** ** The sample buffer *)

Section Buffer.
Context `{FloatOps}.

(** What the invariant gives at a click that stops a recording. *)
Lemma reached_stop (key : string) (w : world) :
  reachable_inv w → clickable key w = true → recording (self w) = true →
  ∃ t0 b P,
    start_time (self w) = Some t0
    ∧ dict_get key (buttons (self w)) = Some b ∧ btn_state b = NORMAL
    ∧ participant_id (self w) = Some P
    ∧ io_fault w = None
    ∧ dict_keys (buttons (self w)) = segment_keys.
Proof.
  intros (I1 & I2 & I3 & I4 & I5 & I6 & I7) Hc Hrec.
  destruct (I2 Hrec) as [t0 Ht0].
  destruct (I5 (ex_intro _ key Hc)) as [[P HP] _].
  apply clickable_inv in Hc as (b & Hb & Hs).
  by exists t0, b, P.
Qed.

(** Every event leaves the buffer alone, empties it, or appends the row of
    the sample that was pulled. *)
Lemma step_data (e : event) (w : world) :
  reachable_inv w →
  data (self (step e w)) = data (self w)
  ∨ data (self (step e w)) = []
  ∨ ∃ i sample timestamp,
      e = RecPull i sample timestamp
      ∧ data (self (step e w)) = data (self w) ++ [timestamp :: sample].
Proof.
  intros Hinv. pose proof Hinv as (I1 & I2 & I3 & I4 & I5 & I6 & I7).
  destruct e as [found opened|text|key now fault|i|i s t|i now|i now]; cbn [step].
  - left. rewrite I4. destruct (connected w) eqn:Hc.
    + destruct found as [[|s0 ss]|e].
      * by rewrite monitor_lost, on_disconnection_eval.
      * by rewrite monitor_found_still.
      * by rewrite monitor_error, on_disconnection_eval.
    + destruct found as [[|s0 ss]|e].
      * by rewrite monitor_idle.
      * destruct opened as [i|e].
        -- by rewrite monitor_found_new, on_connection_eval.
        -- by rewrite monitor_inlet_error.
      * by rewrite monitor_idle.
  - left. destruct (text_field_frame (self w)); [|done].
    unfold run_callback. rewrite enable_buttons_eval. cbn zeta.
    destruct (truthy _); [|done]. by destruct (dict_get _ _).
  - change (if clickable key w then _ else w) with (step (Press key now fault) w).
    destruct (clickable key w) eqn:Hc; [|left; by rewrite step_press_disabled].
    destruct (recording (self w)) eqn:Hrec.
    + destruct (reached_stop key w Hinv Hc Hrec) as (t0 & b & P & ? & ? & ? & ? & ? & ?).
      left. rewrite (step_press_stop key now t0 fault b) by done. cbn zeta.
      destruct fault as [n|]; [case_decide|]; done.
    + apply clickable_inv in Hc as (b & Hb & Hs).
      right; left. by rewrite (step_press_start key now fault b).
  - left. destruct (rec_threads w !! i) as [[]|]; try done.
    unfold record_data_test. munfold.
    destruct (recording (self w)); [|done]. by destruct (inlet (self w)).
  - destruct (rec_threads w !! i) as [[]|]; try by left.
    right; right. by exists i, s, t.
  - left. by destruct (sw_threads w !! i) as [[]|].
  - left. destruct (sw_threads w !! i) as [[| t0 |]|]; try done.
    unfold update_stopwatch. munfold. by destruct (stopwatch_running (self w)).
Qed.

(** The rows in the buffer after some events were there before or come from
    samples pulled during these events. *)
Lemma data_rows_from_pulls (evs : list event) (w : world) (row : list float) :
  reachable_inv w →
  row ∈ data (self (run evs w)) →
  row ∈ data (self w)
  ∨ ∃ i sample timestamp,
      RecPull i sample timestamp ∈ evs ∧ row = timestamp :: sample.
Proof.
  revert w. induction evs as [|e evs IH]; intros w Hinv Hrow; [by left|].
  rewrite run_cons in Hrow.
  assert (reachable_inv (step e w)) as Hinv' by by apply reachable_inv_step.
  destruct (IH _ Hinv' Hrow) as [Hrow'|(i & s & t & Hin & ->)].
  2:{ right. exists i, s, t. split; [by right | done]. }
  clear Hrow. rename Hrow' into Hrow.
  destruct (step_data e w Hinv) as [Heq|[Heq|(i & s & t & -> & Heq)]];
    rewrite Heq in Hrow.
  - by left.
  - by apply elem_of_nil in Hrow.
  - apply elem_of_app in Hrow as [Hrow|Hrow]; [by left|].
    apply list_elem_of_singleton in Hrow as ->.
    right. exists i, s, t. split; [by left | done].
Qed.

End Buffer.

(** ** Stopping a recording *)

Section StopAction.
Context `{FloatOps}.

(** A successful stop, attribute by attribute. *)
Lemma stop_ok_world (key : string) (now : float) (w : world) :
  reachable_inv w → clickable key w = true → recording (self w) = true →
  ∃ t0 b P,
    start_time (self w) = Some t0
    ∧ dict_get key (buttons (self w)) = Some b
    ∧ participant_id (self w) = Some P
    ∧ step (Press key now None) w =
      upd_self (set_buttons (buttons_after_stop key (buttons (self w))))
        (upd_self (set_stopwatch_label "Stopwatch: 00:00:00")
           (emit (ShowInfo "Recording Saved"
                    (key +:+ " data saved to " +:+ P +:+ "_" +:+ key +:+ ".csv"))
              (set_files
                 (<[P +:+ "_duration.txt" :=
                      duration_text P
                        (dict_set key (fsub now t0) (durations (self w)))]>
                    (<[P +:+ "_" +:+ key +:+ ".csv" := csv_text (data (self w))]>
                       (files w)))
                 (upd_self (set_durations
                              (dict_set key (fsub now t0) (durations (self w))))
                    (upd_self (set_stopwatch_running false)
                       (upd_self (set_recording false) w)))))).
Proof.
  intros Hinv Hc Hrec.
  destruct (reached_stop key w Hinv Hc Hrec) as (t0 & b & P & ? & ? & ? & HP & ? & ?).
  exists t0, b, P. split_and!; try done.
  rewrite (step_press_stop key now t0 None b) by done. cbn zeta.
  by rewrite save_ops_files, HP.
Qed.

(** C5.  A click on an enabled segment button [K] while a recording is in
    progress, with no file error: the recording flag and the stopwatch flag
    are cleared, so that the next test of either loop ends its thread; the
    data of [K] is saved (duration stored under [K], data file written,
    confirmation shown); the stopwatch shows 00:00:00; the button of [K] is
    disabled; the button of the segment after [K] in the fixed order is
    enabled; every other button is as before, and after [Personality3] no
    button becomes enabled. *)
Theorem stop_action_effects
    (fs : gmap string string) (evs : list event) (K : string) (now : float) :
  let w := run evs (init fs) in
  clickable K w = true →
  recording (self w) = true →
  let w' := step (Press K now None) w in
  action_of (Press K now None) w = [Stopped K]
  ∧ recording (self w') = false
  ∧ stopwatch_running (self w') = false
  ∧ record_data_test w' = (Ok RecDone, w')
  ∧ (∀ i t0 t, update_stopwatch i t0 t w' = (Ok SwDone, w'))
  ∧ (∃ P t0,
       participant_id (self w) = Some P ∧ start_time (self w) = Some t0
       ∧ durations (self w') = dict_set K (fsub now t0) (durations (self w))
       ∧ is_Some (files w' !! (P +:+ "_" +:+ K +:+ ".csv"))
       ∧ is_Some (files w' !! (P +:+ "_duration.txt"))
       ∧ trace w' = trace w ++
           [ShowInfo "Recording Saved"
              (K +:+ " data saved to " +:+ P +:+ "_" +:+ K +:+ ".csv")])
  ∧ stopwatch_label (self w') = "Stopwatch: 00:00:00"
  ∧ clickable K w' = false
  ∧ (∀ K', next_key K segment_keys = Some K' → clickable K' w' = true)
  ∧ (∀ k, k ≠ K → next_key K segment_keys ≠ Some k →
       dict_get k (buttons (self w')) = dict_get k (buttons (self w)))
  ∧ (K = "Personality3" → ∀ k, clickable k w' = true → clickable k w = true).
Proof.
  intros w Hc Hrec w'.
  pose proof (reachable_inv_reached evs fs) as Hinv. fold w in Hinv.
  pose proof Hinv as (I1 & _).
  destruct (stop_ok_world K now w Hinv Hc Hrec) as (t0 & b & P & Ht0 & Hb & HP & Hw').
  fold w' in Hw'.
  assert (∀ k, dict_get k (buttons (self w')) =
               if decide (k = K) then
                 Some (Button ("Record " +:+ replace_char "_" " " K) DISABLED)
               else if decide (next_key K segment_keys = Some k) then
                 with_state NORMAL <$> dict_get k (buttons (self w))
               else dict_get k (buttons (self w))) as Hbtn.
  { intros k. rewrite Hw'. proj_simpl. by apply (buttons_after_stop_spec K k b). }
  split_and!.
  - cbn. by rewrite Hc, Hrec.
  - by rewrite Hw'.
  - by rewrite Hw'.
  - unfold record_data_test. munfold. by rewrite Hw'.
  - intros i t1 t. unfold update_stopwatch. munfold. by rewrite Hw'.
  - exists P, t0. rewrite Hw'. proj_simpl. split_and!; try done.
    + rewrite lookup_insert_ne by (symmetry; apply csv_name_ne_duration_name).
      rewrite lookup_insert_eq. by eexists.
    + rewrite lookup_insert_eq. by eexists.
  - by rewrite Hw'.
  - unfold clickable. rewrite Hbtn. by rewrite decide_True.
  - intros K' HK'. pose proof HK' as HK''.
    apply next_key_segment in HK'' as (Hin & Hne & _).
    unfold clickable. rewrite Hbtn. rewrite decide_False by done.
    rewrite decide_True by done.
    destruct (segment_key_has_button K' w I1 Hin) as [b' ->]. done.
  - intros k Hk Hnk. rewrite Hbtn. rewrite decide_False by done.
    by rewrite decide_False.
  - intros -> k. unfold clickable. rewrite Hbtn.
    destruct (decide (k = "Personality3")) as [->|Hk]; [done|].
    by rewrite decide_False.
Qed.

End StopAction.

(** ** Background threads of a recording *)

Section Threads.
Context `{FloatOps}.

(** The threads of a recording touch neither the buttons, the flags, the
    start time, the participant, the durations nor the files. *)
Lemma thread_step_frame (e : event) (w : world) :
  thread_event e →
  buttons (self (step e w)) = buttons (self w)
  ∧ recording (self (step e w)) = recording (self w)
  ∧ start_time (self (step e w)) = start_time (self w)
  ∧ participant_id (self (step e w)) = participant_id (self w)
  ∧ durations (self (step e w)) = durations (self w)
  ∧ files (step e w) = files w
  ∧ (idle_thread_event e → data (self (step e w)) = data (self w)).
Proof.
  destruct e as [| | |i|i s t|i now|i now]; try done; intros _; cbn [step].
  - destruct (rec_threads w !! i) as [[]|]; try done.
    unfold record_data_test. munfold.
    destruct (recording (self w)) eqn:Hr; [destruct (inlet (self w))|];
      proj_simpl; rewrite ?Hr; done.
  - by destruct (rec_threads w !! i) as [[]|].
  - by destruct (sw_threads w !! i) as [[]|].
  - destruct (sw_threads w !! i) as [[| t0 |]|]; try done.
    unfold update_stopwatch. munfold. by destruct (stopwatch_running (self w)).
Qed.

Lemma thread_events_frame (mid : list event) (w : world) :
  Forall thread_event mid →
  buttons (self (run mid w)) = buttons (self w)
  ∧ recording (self (run mid w)) = recording (self w)
  ∧ start_time (self (run mid w)) = start_time (self w)
  ∧ participant_id (self (run mid w)) = participant_id (self w)
  ∧ durations (self (run mid w)) = durations (self w)
  ∧ files (run mid w) = files w
  ∧ (Forall idle_thread_event mid → data (self (run mid w)) = data (self w)).
Proof.
  intros Hmid. revert w. induction Hmid as [|e mid He Hmid IH]; intros w; [done|].
  rewrite run_cons.
  destruct (IH (step e w)) as (-> & -> & -> & -> & -> & -> & Hd).
  destruct (thread_step_frame e w He) as (-> & -> & -> & -> & -> & -> & Hd').
  split_and!; try done.
  intros Hidle. apply Forall_cons in Hidle as [? ?]. rewrite Hd, Hd'; done.
Qed.

Lemma idle_thread_event_thread (mid : list event) :
  Forall idle_thread_event mid → Forall thread_event mid.
Proof. intros Hmid. eapply Forall_impl; [exact Hmid|]. by intros []. Qed.

Lemma clickable_after_threads (mid : list event) (k : string) (w : world) :
  Forall thread_event mid → clickable k (run mid w) = clickable k w.
Proof.
  intros Hmid. apply clickable_same_buttons.
  by destruct (thread_events_frame mid w Hmid) as (-> & _).
Qed.

End Threads.

(** ** The data file; starting a recording *)

Section DataFile.
Context `{FloatOps}.

Lemma csv_header_line :
  csv_line csv_header = "timestamps,TP9,AF7,AF8,TP10,Right AUX" +:+ crlf.
Proof. reflexivity. Qed.

(** A number whose text has none of the characters that the writer quotes is
    written as it is. *)
Lemma csv_field_plain (s : string) : csv_needs_quotes s = false → csv_field s = s.
Proof. unfold csv_field. by intros ->. Qed.

Lemma csv_line_plain (fields : list string) :
  Forall (λ s, csv_needs_quotes s = false ∧ s ≠ "") fields →
  csv_line fields = String.concat "," fields +:+ crlf.
Proof.
  intros Hf.
  assert (csv_field <$> fields = fields) as Hplain.
  { induction Hf as [|s l [Hs _] _ IH]; [done|].
    by rewrite fmap_cons, IH, csv_field_plain. }
  unfold csv_line. rewrite Hplain.
  destruct fields as [|[|c s] [|s' l]]; try done.
  by apply Forall_cons in Hf as [[_ Hs] _].
Qed.

(** C2.  A click on an enabled segment button [K] while a recording is in
    progress, with no file error, for participant [P]: the file
    [P_K.csv] then holds the header line
    [timestamps,TP9,AF7,AF8,TP10,Right AUX] followed by one line per row of
    the buffer, in the order of the buffer, each row handed to the CSV
    writer as it is; and every row of the buffer is the timestamp of a
    pulled sample followed by the values of that sample (five for the Muse
    headband).  When the text of a number is never empty and has no comma,
    quote or line break, as for Python floats, the writer quotes nothing and
    each line is the texts of the row separated by commas. *)
Theorem stop_writes_data_file
    (fs : gmap string string) (evs : list event) (K : string) (now : float) :
  let w := run evs (init fs) in
  clickable K w = true →
  recording (self w) = true →
  let w' := step (Press K now None) w in
  ∃ P, participant_id (self w) = Some P
    ∧ files w' !! (P +:+ "_" +:+ K +:+ ".csv")
      = Some ("timestamps,TP9,AF7,AF8,TP10,Right AUX" +:+ crlf
                +:+ String.concat ""
                      ((λ row, csv_line (float_str <$> row)) <$> data (self w)))
    ∧ (∀ row, row ∈ data (self w) →
         ∃ i sample timestamp,
           RecPull i sample timestamp ∈ evs ∧ row = timestamp :: sample)
    ∧ ((∀ x, csv_needs_quotes (float_str x) = false ∧ float_str x ≠ "") →
       files w' !! (P +:+ "_" +:+ K +:+ ".csv")
       = Some ("timestamps,TP9,AF7,AF8,TP10,Right AUX" +:+ crlf
                 +:+ String.concat ""
                       ((λ row, String.concat "," (float_str <$> row) +:+ crlf)
                          <$> data (self w)))).
Proof.
  intros w Hc Hrec w'.
  pose proof (reachable_inv_reached evs fs) as Hinv. fold w in Hinv.
  destruct (stop_ok_world K now w Hinv Hc Hrec) as (t0 & b & P & Ht0 & Hb & HP & Hw').
  fold w' in Hw'.
  assert (files w' !! (P +:+ "_" +:+ K +:+ ".csv") = Some (csv_text (data (self w))))
    as Hfile.
  { rewrite Hw'. proj_simpl.
    rewrite lookup_insert_ne by (symmetry; apply csv_name_ne_duration_name).
    by rewrite lookup_insert_eq. }
  exists P. split_and!; [done | exact Hfile | |].
  - intros row Hrow.
    destruct (data_rows_from_pulls evs (init fs) row (reachable_inv_init fs) Hrow)
      as [Hin|?]; [|done].
    by apply elem_of_nil in Hin.
  - intros Hplain. rewrite Hfile. unfold csv_text, csv_rows.
    assert ((λ row, csv_line (float_str <$> row)) <$> data (self w)
            = (λ row, String.concat "," (float_str <$> row) +:+ crlf)
                <$> data (self w)) as ->.
    { apply list_fmap_ext. intros _ row _.
      apply csv_line_plain, Forall_fmap, Forall_forall. intros x _. apply Hplain. }
    by rewrite csv_header_line, append_assoc.
Qed.

(** C6.  A click on an enabled segment button [K] while no recording is in
    progress: the start time is the clock reading, the buffer is empty, both
    flags are set, a stopwatch thread and a sample-pulling thread are
    started, and the button of [K] reads [Stop Recording] and stays enabled.
    The durations, the other buttons, the participant, the labels, the files
    and what was shown to the operator are unchanged.  Whatever happens
    next, the rows of the buffer come from samples pulled after this
    click. *)
Theorem start_action_effects
    (fs : gmap string string) (evs : list event) (K : string) (now : float)
    (fault : option nat) :
  let w := run evs (init fs) in
  clickable K w = true →
  recording (self w) = false →
  let w' := step (Press K now fault) w in
  action_of (Press K now fault) w = [Started K]
  ∧ start_time (self w') = Some now
  ∧ data (self w') = []
  ∧ recording (self w') = true
  ∧ stopwatch_running (self w') = true
  ∧ sw_threads w' = sw_threads w ++ [SwEntry]
  ∧ rec_threads w' = rec_threads w ++ [RecWhile]
  ∧ (∃ b, dict_get K (buttons (self w)) = Some b
          ∧ dict_get K (buttons (self w'))
            = Some (Button "Stop Recording" (btn_state b)))
  ∧ (∀ k, k ≠ K → dict_get k (buttons (self w')) = dict_get k (buttons (self w)))
  ∧ (∀ k, clickable k w' = clickable k w)
  ∧ dict_keys (buttons (self w')) = dict_keys (buttons (self w))
  ∧ durations (self w') = durations (self w)
  ∧ participant_id (self w') = participant_id (self w)
  ∧ stopwatch_label (self w') = stopwatch_label (self w)
  ∧ status_label (self w') = status_label (self w)
  ∧ files w' = files w
  ∧ trace w' = trace w
  ∧ (∀ later row, row ∈ data (self (run later w')) →
       ∃ i sample timestamp,
         RecPull i sample timestamp ∈ later ∧ row = timestamp :: sample).
Proof.
  intros w Hc Hrec w'.
  pose proof (reachable_inv_reached evs fs) as Hinv. fold w in Hinv.
  pose proof Hinv as (I1 & _ & I3 & _).
  pose proof Hc as Hc'. apply clickable_inv in Hc' as (b & Hb & Hs).
  pose proof (step_press_start K now fault b w Hb Hs Hrec I3) as Hw'.
  fold w' in Hw'.
  assert (∀ k, dict_get k (buttons (self w')) =
               if decide (k = K) then Some (Button "Stop Recording" (btn_state b))
               else dict_get k (buttons (self w))) as Hbtn.
  { intros k. rewrite Hw'. proj_simpl. destruct (decide (k = K)) as [->|Hk].
    - apply dict_get_set_eq.
    - by apply dict_get_set_ne. }
  split_and!; try (by rewrite Hw').
  - cbn. by rewrite Hc, Hrec.
  - exists b. split; [done|]. rewrite Hbtn. by rewrite decide_True.
  - intros k Hk. rewrite Hbtn. by rewrite decide_False.
  - intros k. unfold clickable. rewrite Hbtn.
    destruct (decide (k = K)) as [->|Hk]; [|done]. by rewrite Hb, Hs.
  - rewrite Hw'. proj_simpl. apply dict_keys_set_present.
    by eapply dict_get_Some_keys.
  - intros later row Hrow.
    assert (reachable_inv w') as Hinv' by by apply reachable_inv_step.
    destruct (data_rows_from_pulls later w' row Hinv' Hrow) as [Hin|?]; [|done].
    rewrite Hw' in Hin. cbn in Hin. by apply elem_of_nil in Hin.
Qed.

End DataFile.

(** ** One flag for all segments *)

Section SharedFlag.
Context `{FloatOps}.

Lemma dict_set_absent {V} (k : string) (v : V) (d : dict V) :
  k ∉ dict_keys d → dict_set k v d = d ++ [(k, v)].
Proof.
  induction d as [|[k' v'] d IH]; [done|]. cbn.
  intros Hin. apply not_elem_of_cons in Hin as [Hne Hin].
  rewrite decide_False by done. by rewrite IH.
Qed.

Lemma csv_name_inj (P K K0 : string) :
  P +:+ "_" +:+ K +:+ ".csv" = P +:+ "_" +:+ K0 +:+ ".csv" → K = K0.
Proof.
  intros Heq. apply String.app_inj in Heq. apply (String.app_inj "_") in Heq.
  revert K0 Heq. induction K as [|c K IH]; intros [|c0 K0] Heq; try done.
  - destruct K0 as [|? [|? [|? [|? ?]]]]; done.
  - destruct K as [|? [|? [|? [|? ?]]]]; done.
  - rewrite !append_cons in Heq. injection Heq as -> Heq. f_equal. by apply IH.
Qed.

(** The state in which a recording started from the button of [K0] is
    being made. *)
Lemma recording_in_progress (K0 : string) (t0 : float) (fault0 : option nat)
    (mid : list event) (w0 : world) :
  reachable_inv w0 →
  clickable K0 w0 = true →
  recording (self w0) = false →
  Forall thread_event mid →
  let w := run (Press K0 t0 fault0 :: mid) w0 in
  reachable_inv w
  ∧ recording (self w) = true
  ∧ start_time (self w) = Some t0
  ∧ participant_id (self w) = participant_id (self w0)
  ∧ durations (self w) = durations (self w0)
  ∧ files w = files w0
  ∧ (∀ k, clickable k w = clickable k w0)
  ∧ (Forall idle_thread_event mid → data (self w) = []).
Proof.
  intros Hinv Hc Hrec Hmid w.
  assert (reachable_inv w) as Hinvw.
  { by apply reachable_inv_run. }
  pose proof Hinv as (_ & _ & I3 & _).
  pose proof Hc as Hc'. apply clickable_inv in Hc' as (b & Hb & Hs).
  pose proof (step_press_start K0 t0 fault0 b w0 Hb Hs Hrec I3) as Hw1.
  unfold w. rewrite run_cons.
  destruct (thread_events_frame mid (step (Press K0 t0 fault0) w0) Hmid)
    as (Hbt & -> & -> & -> & -> & -> & Hd).
  split_and!; try (by rewrite Hw1).
  - done.
  - intros k. unfold clickable. rewrite Hbt, Hw1. proj_simpl.
    destruct (decide (k = K0)) as [->|Hk].
    + by rewrite dict_get_set_eq, Hb.
    + by rewrite dict_get_set_ne.
  - intros Hidle. rewrite Hd by done. by rewrite Hw1.
Qed.

End SharedFlag.

(** ** The durations and their order *)

Section Durations.
Context `{FloatOps}.

Lemma elem_of_first_occurrences (x : string) (l : list string) :
  x ∈ first_occurrences l ↔ x ∈ l.
Proof.
  induction l as [|y l IH]; [done|]. cbn [first_occurrences].
  rewrite !elem_of_cons, list_elem_of_filter, IH.
  destruct (decide (x = y)) as [->|Hne]; [tauto|]. tauto.
Qed.

Lemma first_occurrences_snoc (x : string) (l : list string) :
  first_occurrences (l ++ [x])
  = if decide (x ∈ l) then first_occurrences l else first_occurrences l ++ [x].
Proof.
  induction l as [|y l IH]; [done|].
  rewrite <- app_comm_cons. cbn [first_occurrences]. rewrite IH.
  destruct (decide (x ∈ l)) as [Hin|Hin].
  - rewrite decide_True; [done|]. by right.
  - rewrite filter_app. destruct (decide (x = y)) as [->|Hne].
    + rewrite decide_True by by left.
      rewrite filter_cons_False by (by intros ?). by rewrite app_nil_r.
    + rewrite decide_False.
      * rewrite filter_cons_True by done. done.
      * intros [?|?]%elem_of_cons; done.
Qed.

Lemma dict_keys_set {V} (k : string) (v : V) (d : dict V) :
  dict_keys (dict_set k v d)
  = if decide (k ∈ dict_keys d) then dict_keys d else dict_keys d ++ [k].
Proof.
  case_decide.
  - by apply dict_keys_set_present.
  - by apply dict_keys_set_absent.
Qed.

(** What an event does to the durations: a click that stops a recording
    stores one under its key, nothing else touches them. *)
Lemma step_durations (e : event) (w : world) :
  reachable_inv w →
  dict_keys (durations (self (step e w)))
  = match stopped_keys (action_of e w) with
    | [] => dict_keys (durations (self w))
    | k :: _ =>
        if decide (k ∈ dict_keys (durations (self w)))
        then dict_keys (durations (self w))
        else dict_keys (durations (self w)) ++ [k]
    end.
Proof.
  intros Hinv. pose proof Hinv as (I1 & I2 & I3 & I4 & I5 & I6 & I7).
  destruct e as [found opened|text|key now fault|i|i s t|i now|i now].
  - cbn [step action_of stopped_keys omap]. rewrite I4.
    destruct (connected w) eqn:Hc.
    + destruct found as [[|s0 ss]|e].
      * by rewrite monitor_lost, on_disconnection_eval.
      * by rewrite monitor_found_still.
      * by rewrite monitor_error, on_disconnection_eval.
    + destruct found as [[|s0 ss]|e].
      * by rewrite monitor_idle.
      * destruct opened as [i|e].
        -- by rewrite monitor_found_new, on_connection_eval.
        -- by rewrite monitor_inlet_error.
      * by rewrite monitor_idle.
  - cbn [step action_of]. destruct (text_field_frame (self w)); [|done].
    unfold run_callback. rewrite enable_buttons_eval. cbn zeta.
    destruct (truthy _); [|done]. by destruct (dict_get _ _).
  - unfold action_of.
    destruct (clickable key w) eqn:Hc; [|by rewrite step_press_disabled].
    destruct (recording (self w)) eqn:Hrec.
    + destruct (reached_stop key w Hinv Hc Hrec) as (t0 & b & P & ? & ? & ? & ? & ? & ?).
      rewrite (step_press_stop key now t0 fault b) by done. cbn zeta.
      cbn [stopped_keys omap].
      destruct fault as [n|]; [case_decide|]; proj_simpl; apply dict_keys_set.
    + apply clickable_inv in Hc as (b & Hb & Hs).
      by rewrite (step_press_start key now fault b).
  - destruct (thread_step_frame (RecTest i) w I) as (_ & _ & _ & _ & -> & _). done.
  - destruct (thread_step_frame (RecPull i s t) w I) as (_ & _ & _ & _ & -> & _). done.
  - destruct (thread_step_frame (SwStart i now) w I) as (_ & _ & _ & _ & -> & _). done.
  - destruct (thread_step_frame (SwIter i now) w I) as (_ & _ & _ & _ & -> & _). done.
Qed.

Lemma stopped_keys_app (a1 a2 : list action) :
  stopped_keys (a1 ++ a2) = stopped_keys a1 ++ stopped_keys a2.
Proof. apply omap_app. Qed.

Lemma actions_app (evs1 evs2 : list event) (w : world) :
  actions (evs1 ++ evs2) w = actions evs1 w ++ actions evs2 (run evs1 w).
Proof.
  revert w. induction evs1 as [|e evs1 IH]; intros w; [done|].
  rewrite <- app_comm_cons. cbn [actions]. rewrite IH, run_cons.
  by rewrite app_assoc.
Qed.

Lemma action_of_stopped (e : event) (w : world) :
  stopped_keys (action_of e w) = []
  ∨ ∃ k, stopped_keys (action_of e w) = [k].
Proof.
  destruct e; try (by left). 
  - cbn. destruct (text_field_frame (self w)); by left.
  - cbn. destruct (clickable key w); [|by left].
    destruct (recording (self w)); [right; by eexists | by left].
Qed.

(** The keys of the durations are the keys of the segments stopped so far,
    each at the place of its first stop. *)
Lemma durations_keys_run (evs : list event) (w : world) (before : list string) :
  reachable_inv w →
  dict_keys (durations (self w)) = first_occurrences before →
  dict_keys (durations (self (run evs w)))
  = first_occurrences (before ++ stopped_keys (actions evs w)).
Proof.
  revert w before. induction evs as [|e evs IH]; intros w before Hinv Hk.
  - cbn. by rewrite app_nil_r.
  - rewrite run_cons. cbn [actions]. rewrite stopped_keys_app, app_assoc.
    apply IH; [by apply reachable_inv_step|].
    rewrite step_durations by done.
    destruct (action_of_stopped e w) as [->|[k ->]].
    + by rewrite app_nil_r.
    + rewrite first_occurrences_snoc, Hk.
      destruct (decide (k ∈ first_occurrences before)) as [Hin|Hin].
      * rewrite decide_True; [done|]. by apply elem_of_first_occurrences.
      * rewrite decide_False; [done|]. by rewrite <- elem_of_first_occurrences.
Qed.

Lemma durations_keys_reached (evs : list event) (fs : gmap string string) :
  dict_keys (durations (self (run evs (init fs))))
  = first_occurrences (stopped_keys (actions evs (init fs))).
Proof.
  apply (durations_keys_run evs (init fs) []); [apply reachable_inv_init | done].
Qed.

End Durations.

(** ** The duration file *)

Section DurationFile.
Context `{FloatOps}.

(** C3.  A click on an enabled segment button [K] that stops a recording,
    with no file error, for participant [P]: the duration of the recording is
    stored under [K], and the file [P_duration.txt] then holds exactly the
    line [Participant ID: P] followed by one line [key: d seconds] per entry
    of the durations, [d] being the duration written with two decimals.
    The file is written from the durations alone, whatever it held before.
    The entries are the segments stopped so far, one entry per segment, in
    the order in which the segments were first stopped. *)
Theorem duration_file_rewritten
    (fs : gmap string string) (evs : list event) (K : string) (now : float) :
  let w := run evs (init fs) in
  clickable K w = true →
  recording (self w) = true →
  let w' := step (Press K now None) w in
  ∃ P t0, participant_id (self w) = Some P ∧ start_time (self w) = Some t0
    ∧ durations (self w') = dict_set K (fsub now t0) (durations (self w))
    ∧ files w' !! (P +:+ "_duration.txt")
      = Some ("Participant ID: " +:+ P +:+ nl
                +:+ String.concat ""
                      ((λ item : string * float,
                          item.1 +:+ ": " +:+ fmt_2f item.2 +:+ " seconds" +:+ nl)
                         <$> durations (self w')))
    ∧ dict_keys (durations (self w'))
      = first_occurrences
          (stopped_keys (actions (evs ++ [Press K now None]) (init fs))).
Proof.
  intros w Hc Hrec w'.
  pose proof (reachable_inv_reached evs fs) as Hinv. fold w in Hinv.
  destruct (stop_ok_world K now w Hinv Hc Hrec) as (t0 & b & P & Ht0 & Hb & HP & Hw').
  fold w' in Hw'. exists P, t0. split_and!; try done.
  - by rewrite Hw'.
  - rewrite Hw'. proj_simpl. by rewrite lookup_insert_eq.
  - unfold w', w. rewrite <- durations_keys_reached. by rewrite run_app.
Qed.

(** C4.  A segment started from its button [K] and stopped from the same
    button without any sample having been pulled in between, with no file
    error: the save goes through; the data file holds the header line and
    nothing else; the durations hold the difference of the two clock readings
    under [K], and the duration file, written from them, has the line of [K]
    with that difference; when [K] had no duration yet this is one more
    entry, at the end. *)
Theorem empty_recording_saved
    (fs : gmap string string) (evs : list event) (K : string) (t0 t1 : float)
    (fault0 : option nat) (mid : list event) :
  let w0 := run evs (init fs) in
  clickable K w0 = true →
  recording (self w0) = false →
  Forall idle_thread_event mid →
  let w := run (Press K t0 fault0 :: mid) w0 in
  let w' := step (Press K t1 None) w in
  ∃ P, participant_id (self w0) = Some P
    ∧ data (self w) = []
    ∧ files w' !! (P +:+ "_" +:+ K +:+ ".csv")
      = Some ("timestamps,TP9,AF7,AF8,TP10,Right AUX" +:+ crlf)
    ∧ durations (self w') = dict_set K (fsub t1 t0) (durations (self w0))
    ∧ dict_get K (durations (self w')) = Some (fsub t1 t0)
    ∧ files w' !! (P +:+ "_duration.txt")
      = Some (duration_text P (durations (self w')))
    ∧ (K +:+ ": " +:+ fmt_2f (fsub t1 t0) +:+ " seconds" +:+ nl)
        ∈ duration_lines (durations (self w'))
    ∧ (K ∉ dict_keys (durations (self w0)) →
       durations (self w') = durations (self w0) ++ [(K, fsub t1 t0)])
    ∧ trace w' = trace w ++
        [ShowInfo "Recording Saved"
           (K +:+ " data saved to " +:+ P +:+ "_" +:+ K +:+ ".csv")].
Proof.
  intros w0 Hc Hrec Hmid w w'.
  pose proof (reachable_inv_reached evs fs) as Hinv0. fold w0 in Hinv0.
  destruct (recording_in_progress K t0 fault0 mid w0 Hinv0 Hc Hrec
              (idle_thread_event_thread mid Hmid))
    as (Hinv & Hrecw & Hst & Hpid & Hds & Hfs & Hclick & Hdata).
  fold w in Hinv, Hrecw, Hst, Hpid, Hds, Hfs, Hclick, Hdata.
  specialize (Hdata Hmid).
  assert (clickable K w = true) as Hcw by by rewrite Hclick.
  destruct (stop_ok_world K t1 w Hinv Hcw Hrecw) as (t0' & b & P & Ht0 & Hb & HP & Hw').
  fold w' in Hw'. rewrite Hst in Ht0. injection Ht0 as <-.
  exists P. rewrite <- Hpid, <- Hds.
  assert (durations (self w') = dict_set K (fsub t1 t0) (durations (self w))) as Hds'
    by by rewrite Hw'.
  split_and!; try done.
  - rewrite Hw'. proj_simpl.
    rewrite lookup_insert_ne by (symmetry; apply csv_name_ne_duration_name).
    rewrite lookup_insert_eq, Hdata. done.
  - rewrite Hds'. apply dict_get_set_eq.
  - rewrite Hw'. proj_simpl. by rewrite lookup_insert_eq.
  - rewrite Hds'. unfold duration_lines.
    apply (list_elem_of_fmap_2'
             (λ item : string * float,
                item.1 +:+ ": " +:+ fmt_2f item.2 +:+ " seconds" +:+ nl)
             _ (K, fsub t1 t0)); [|done].
    generalize (durations (self w)). intros d.
    induction d as [|[k v] d IH]; cbn [dict_set]; [by left|].
    case_decide as Hk; [subst; by left | by right].
  - intros Hnew. rewrite Hds'. by apply dict_set_absent.
  - by rewrite Hw'.
Qed.

End DurationFile.

(** ** Saves cut short by a file error *)

Section PartialSave.
Context `{FloatOps}.

Lemma concat_cons (x : string) (l : list string) :
  String.concat "" (x :: l) = x +:+ String.concat "" l.
Proof. destruct l; [by rewrite append_nil_r | done]. Qed.

(** A proper part of a list of non-empty lines is shorter than the whole. *)
Lemma concat_take_shorter (j : nat) (l : list string) :
  j < length l → Forall (λ s, s ≠ "") l →
  String.length (String.concat "" (take j l))
  < String.length (String.concat "" l).
Proof.
  revert j. induction l as [|x l IH]; intros j Hj Hne; [simpl in Hj; lia|].
  apply Forall_cons in Hne as [Hx Hne]. rewrite concat_cons, append_length.
  destruct j as [|j].
  - destruct x; [done|]. cbn. lia.
  - cbn [take]. rewrite concat_cons, append_length.
    apply Nat.add_lt_mono_l, IH; [simpl in Hj; lia | done].
Qed.

Lemma duration_lines_nonempty (pid : string) (ds : dict float) :
  Forall (λ s, s ≠ "") (("Participant ID: " +:+ pid +:+ nl) :: duration_lines ds).
Proof.
  apply Forall_cons. split; [done|].
  unfold duration_lines. apply Forall_fmap, Forall_forall. intros [k d] _. cbn.
  intros Heq. apply (f_equal String.length) in Heq.
  rewrite !append_length in Heq. cbn in Heq. lia.
Qed.

Lemma dict_set_length {V} (k : string) (v : V) (d : dict V) :
  length (dict_set k v d)
  = length d + (if decide (k ∈ dict_keys d) then 0 else 1).
Proof.
  rewrite <- (length_fmap fst (dict_set k v d)), <- (length_fmap fst d).
  fold (dict_keys (dict_set k v d)). fold (dict_keys d). rewrite dict_keys_set.
  case_decide; [lia|]. rewrite length_app. simpl. lia.
Qed.

Lemma save_ops_length (key : string) (now t0 : float) (w : world) :
  length (save_ops key now t0 w)
  = 2 + length (data (self w)) + 2
    + (length (durations (self w))
       + (if decide (key ∈ dict_keys (durations (self w))) then 0 else 1)).
Proof.
  unfold save_ops, csv_ops, duration_ops, csv_rows, duration_lines.
  rewrite length_app. cbn [length]. rewrite !length_fmap, dict_set_length. lia.
Qed.

(** The files after the first [n] operations of a save, when these include
    all those of the data file. *)
Lemma save_ops_take_files (key : string) (now t0 : float) (n : nat) (w : world) :
  2 + length (data (self w)) ≤ n →
  let pid := fstr_opt (participant_id (self w)) in
  let ds := dict_set key (fsub now t0) (durations (self w)) in
  let m := n - (2 + length (data (self w))) in
  foldl file_op_apply (files w) (take n (save_ops key now t0 w))
  = match m with
    | 0 => <[pid +:+ "_" +:+ key +:+ ".csv" := csv_text (data (self w))]> (files w)
    | S j =>
        <[pid +:+ "_duration.txt" :=
            String.concat ""
              (take j (("Participant ID: " +:+ pid +:+ nl) :: duration_lines ds))]>
          (<[pid +:+ "_" +:+ key +:+ ".csv" := csv_text (data (self w))]> (files w))
    end.
Proof.
  intros Hn pid ds m. unfold save_ops. fold pid ds.
  assert (length (csv_ops (pid +:+ "_" +:+ key +:+ ".csv") (data (self w)))
          = 2 + length (data (self w))) as Hlen.
  { unfold csv_ops, csv_rows. cbn [length]. by rewrite !length_fmap. }
  rewrite take_app_ge by lia. rewrite Hlen. fold m.
  rewrite foldl_app, csv_ops_files.
  destruct m as [|j]; [done|].
  unfold duration_ops. cbn [take foldl file_op_apply].
  change (FWrite ?f ?s :: (FWrite ?f <$> ?l)) with (FWrite f <$> (s :: l)).
  by rewrite <- fmap_take, foldl_writes.
Qed.

End PartialSave.

Section SaveFailure.
Context `{FloatOps}.

(** C8.  A click on an enabled segment button [K] that stops a recording,
    when file operation number [n] of the save fails.  The error leaves
    [toggle_recording] as [OSError] and is reported as an uncaught exception
    of the callback; what follows [save_data] in the stop branch does not
    run (no confirmation, stopwatch label and buttons as they were), while
    what preceded the failure stays: both flags cleared, the duration stored
    under [K].  When the failure comes once the data file is complete, that
    file is on disk in full, and the duration file is either untouched (its
    opening failed) or cut short after the lines already written, which is
    not the text the durations call for. *)
Theorem save_failure_not_atomic
    (fs : gmap string string) (evs : list event) (K : string) (now : float)
    (n : nat) :
  let w := run evs (init fs) in
  clickable K w = true →
  recording (self w) = true →
  n < 2 + length (data (self w)) + 2
      + (length (durations (self w))
         + (if decide (K ∈ dict_keys (durations (self w))) then 0 else 1)) →
  let w' := step (Press K now (Some n)) w in
  ∃ P t0, participant_id (self w) = Some P ∧ start_time (self w) = Some t0
    ∧ (toggle_recording K now (set_io_fault (Some n) w)).1 = Raise OSError
    ∧ trace w' = trace w ++ [Uncaught MainLoop OSError]
    ∧ buttons (self w') = buttons (self w)
    ∧ stopwatch_label (self w') = stopwatch_label (self w)
    ∧ recording (self w') = false
    ∧ stopwatch_running (self w') = false
    ∧ durations (self w') = dict_set K (fsub now t0) (durations (self w))
    ∧ (2 + length (data (self w)) ≤ n →
       files w' !! (P +:+ "_" +:+ K +:+ ".csv") = Some (csv_text (data (self w)))
       ∧ (n = 2 + length (data (self w)) →
          files w' !! (P +:+ "_duration.txt") = files w !! (P +:+ "_duration.txt"))
       ∧ (2 + length (data (self w)) < n →
          files w' !! (P +:+ "_duration.txt")
          = Some (String.concat ""
                    (take (n - (2 + length (data (self w))) - 1)
                       (("Participant ID: " +:+ P +:+ nl)
                          :: duration_lines (durations (self w')))))
          ∧ files w' !! (P +:+ "_duration.txt")
            ≠ Some (duration_text P (durations (self w'))))).
Proof.
  intros w Hc Hrec Hn w'.
  pose proof (reachable_inv_reached evs fs) as Hinv. fold w in Hinv.
  destruct (reached_stop K w Hinv Hc Hrec) as (t0 & b & P & Ht0 & Hb & Hs & HP & Hio & Hkeys).
  rewrite <- (save_ops_length K now t0) in Hn.
  assert (w' = emit (Uncaught MainLoop OSError)
                 (set_files (foldl file_op_apply (files w)
                               (take n (save_ops K now t0 w)))
                    (upd_self (set_durations
                                 (dict_set K (fsub now t0) (durations (self w))))
                       (upd_self (set_stopwatch_running false)
                          (upd_self (set_recording false) w))))) as Hw'.
  { unfold w'. rewrite (step_press_stop K now t0 (Some n) b) by done. cbn zeta.
    by rewrite decide_True. }
  exists P, t0. split_and!; try done; try (by rewrite Hw').
  - rewrite (toggle_recording_stop K now t0 b) by done.
    change (save_ops K now t0 (set_io_fault (Some n) w)) with (save_ops K now t0 w).
    rewrite for_each_file_ops. cbn [io_fault upd_self set_io_fault].
    by rewrite decide_True.
  - intros Hge.
    assert (files w' = foldl file_op_apply (files w) (take n (save_ops K now t0 w)))
      as Hfiles by by rewrite Hw'.
    rewrite (save_ops_take_files K now t0 n w Hge) in Hfiles. cbn zeta in Hfiles.
    rewrite HP in Hfiles. cbn [fstr_opt] in Hfiles.
    assert (durations (self w') = dict_set K (fsub now t0) (durations (self w)))
      as Hds by by rewrite Hw'.
    destruct (n - (2 + length (data (self w)))) as [|j] eqn:Hm.
    + rewrite Hfiles. split_and!.
      * by rewrite lookup_insert_eq.
      * intros _. rewrite lookup_insert_ne; [done|]. apply csv_name_ne_duration_name.
      * intros ?. lia.
    + rewrite Hfiles. split_and!.
      * rewrite lookup_insert_ne by (symmetry; apply csv_name_ne_duration_name).
        by rewrite lookup_insert_eq.
      * intros ?. lia.
      * intros _. rewrite lookup_insert_eq, Hds.
        replace (S j - 1) with j by lia. split; [done|].
        intros [= Heq]. apply (f_equal String.length) in Heq.
        unfold duration_text in Heq.
        rewrite <- !append_assoc, <- concat_cons, !append_assoc in Heq.
        pose proof (concat_take_shorter j
                      (("Participant ID: " +:+ P +:+ nl)
                         :: duration_lines (dict_set K (fsub now t0) (durations (self w))))) as Hlt.
        rewrite save_ops_length in Hn.
        cbn [length] in Hlt. unfold duration_lines at 1 in Hlt.
        rewrite length_fmap, dict_set_length in Hlt.
        specialize (Hlt ltac:(lia) (duration_lines_nonempty _ _)). lia.
Qed.

End SaveFailure.

(** ** Order in which the buttons get enabled *)

Section History.
Context `{FloatOps}.




Lemma truthy_nonempty (s : string) : truthy s = true → s ≠ "".
Proof. by destruct s. Qed.


End History.

Section EnablingOrder.
Context `{FloatOps}.




End EnablingOrder.

(** ** A stop during any recording *)

Section AnyRecording.
Context `{FloatOps}.

(** An event that is not a click on an enabled button starts and stops
    nothing: the recording flag and the start reading stay as they are. *)
Lemma step_keeps_recording (e : event) (w : world) :
  reachable_inv w →
  (∀ key now fault, e = Press key now fault → clickable key w = false) →
  recording (self (step e w)) = recording (self w)
  ∧ start_time (self (step e w)) = start_time (self w)
  ∧ started_keys (action_of e w) = []
  ∧ stopped_keys (action_of e w) = [].
Proof.
  intros Hinv He. pose proof Hinv as (I1 & I2 & I3 & I4 & I5 & I6 & I7).
  destruct e as [found opened|text|key now fault|i|i s t|i now|i now].
  - cbn [step action_of started_keys stopped_keys omap]. rewrite I4.
    destruct (connected w) eqn:Hc; destruct found as [[|s0 ss]|e];
      rewrite ?monitor_lost, ?monitor_error, ?monitor_found_still, ?monitor_idle,
        ?on_disconnection_eval by done; try done.
    destruct opened as [j|e];
      rewrite ?monitor_found_new, ?monitor_inlet_error, ?on_connection_eval by done;
      done.
  - cbn [step action_of].
    destruct (text_field_frame (self w)) as [v|]; [|done].
    unfold run_callback. rewrite enable_buttons_eval. cbn zeta.
    destruct (truthy _); [|done]. by destruct (dict_get "EC" _).
  - rewrite step_press_disabled by by eapply He.
    cbn [action_of]. by rewrite (He key now fault).
  - cbn [step action_of started_keys stopped_keys omap].
    destruct (rec_threads w !! i) as [[]|]; try done.
    unfold record_data_test. munfold.
    destruct (recording (self w)) eqn:Hr; [destruct (inlet (self w))|];
      proj_simpl; by rewrite ?Hr.
  - cbn [step action_of started_keys stopped_keys omap].
    by destruct (rec_threads w !! i) as [[]|].
  - cbn [step action_of started_keys stopped_keys omap].
    by destruct (sw_threads w !! i) as [[]|].
  - cbn [step action_of started_keys stopped_keys omap].
    destruct (sw_threads w !! i) as [[| t0 |]|]; try done.
    unfold update_stopwatch. munfold. by destruct (stopwatch_running (self w)).
Qed.

Lemma started_keys_app (a1 a2 : list action) :
  started_keys (a1 ++ a2) = started_keys a1 ++ started_keys a2.
Proof. apply omap_app. Qed.

Lemma actions_snoc (evs : list event) (e : event) (w : world) :
  actions (evs ++ [e]) w = actions evs w ++ action_of e (run evs w).
Proof. rewrite actions_app. cbn [actions]. by rewrite app_nil_r. Qed.

(** A recording in progress was started by a click, the last click on an
    enabled button so far, and [self.start_time] is the clock reading of that
    click. *)
Lemma recording_started (fs : gmap string string) (evs : list event) :
  recording (self (run evs (init fs))) = true →
  ∃ pre K0 t0 fault0 mid,
    evs = pre ++ Press K0 t0 fault0 :: mid
    ∧ action_of (Press K0 t0 fault0) (run pre (init fs)) = [Started K0]
    ∧ started_keys (actions mid (run (pre ++ [Press K0 t0 fault0]) (init fs))) = []
    ∧ stopped_keys (actions mid (run (pre ++ [Press K0 t0 fault0]) (init fs))) = []
    ∧ start_time (self (run evs (init fs))) = Some t0.
Proof.
  induction evs as [|e evs IH] using rev_ind; [done|].
  rewrite run_app. cbn [run foldl].
  pose proof (reachable_inv_reached evs fs) as Hinv.
  set (w := run evs (init fs)) in *.
  assert ((∀ key now fault, e = Press key now fault → clickable key w = false) →
          recording (self (step e w)) = true →
          ∃ pre K0 t0 fault0 mid,
            evs ++ [e] = pre ++ Press K0 t0 fault0 :: mid
            ∧ action_of (Press K0 t0 fault0) (run pre (init fs)) = [Started K0]
            ∧ started_keys
                (actions mid (run (pre ++ [Press K0 t0 fault0]) (init fs))) = []
            ∧ stopped_keys
                (actions mid (run (pre ++ [Press K0 t0 fault0]) (init fs))) = []
            ∧ start_time (self (step e w)) = Some t0) as Hkeep.
  { intros He. destruct (step_keeps_recording e w Hinv He) as (-> & -> & Hs1 & Hs2).
    intros Hrec. destruct (IH Hrec) as (pre & K0 & t0 & fault0 & mid & -> & Ha & Hm1 & Hm2 & Ht).
    exists pre, K0, t0, fault0, (mid ++ [e]). split_and!; try done.
    - by rewrite <- app_assoc.
    - rewrite actions_snoc, started_keys_app, Hm1.
      replace (run mid (run (pre ++ [Press K0 t0 fault0]) (init fs))) with w; [done|].
      unfold w. by rewrite <- run_app, <- app_assoc.
    - rewrite actions_snoc, stopped_keys_app, Hm2.
      replace (run mid (run (pre ++ [Press K0 t0 fault0]) (init fs))) with w; [done|].
      unfold w. by rewrite <- run_app, <- app_assoc. }
  destruct e as [found opened|text|key now fault|i|i s t|i now|i now];
    try (by apply Hkeep).
  destruct (clickable key w) eqn:Hc; [|apply Hkeep; by intros ??? [= <- _ _]].
  clear Hkeep. destruct (recording (self w)) eqn:Hrec.
  - destruct (reached_stop key w Hinv Hc Hrec) as (t0 & b & P & ? & ? & ? & ? & ? & ?).
    rewrite (step_press_stop key now t0 fault b) by done. cbn zeta.
    destruct fault as [n|]; [case_decide|]; done.
  - intros _. exists evs, key, now, fault, []. fold w.
    pose proof Hinv as (_ & _ & I3 & _).
    apply clickable_inv in Hc as Hc'. destruct Hc' as (b & Hb & Hs).
    split_and!; try done.
    + cbn [action_of]. by rewrite Hc, Hrec.
    + by rewrite (step_press_start key now fault b).
Qed.

(** C10.  There is one recording flag for all segments.  In any state the
    program reaches with a recording in progress, the recording was started
    by a click on the button of some segment [K0], and a click on any enabled
    button [K] takes the stop branch for [K], whatever [K0] is: the recording
    ends, the time since the click on [K0] is stored as the duration of [K],
    the buffer is written to [P_K.csv] and the confirmation names [K].
    Nothing is stored or written for any other segment, [K0] included when it
    differs from [K], and every other enabled button stays enabled. *)
Theorem stop_saves_under_pressed_key
    (fs : gmap string string) (evs : list event) (K : string) (now : float) :
  let w := run evs (init fs) in
  clickable K w = true →
  recording (self w) = true →
  let w' := step (Press K now None) w in
  action_of (Press K now None) w = [Stopped K]
  ∧ recording (self w') = false
  ∧ ∃ pre K0 t0 fault0 mid P,
      evs = pre ++ Press K0 t0 fault0 :: mid
      ∧ action_of (Press K0 t0 fault0) (run pre (init fs)) = [Started K0]
      ∧ started_keys (actions mid (run (pre ++ [Press K0 t0 fault0]) (init fs))) = []
      ∧ stopped_keys (actions mid (run (pre ++ [Press K0 t0 fault0]) (init fs))) = []
      ∧ start_time (self w) = Some t0
      ∧ participant_id (self w) = Some P
      ∧ durations (self w') = dict_set K (fsub now t0) (durations (self w))
      ∧ files w' !! (P +:+ "_" +:+ K +:+ ".csv") = Some (csv_text (data (self w)))
      ∧ trace w' = trace w ++
          [ShowInfo "Recording Saved"
             (K +:+ " data saved to " +:+ P +:+ "_" +:+ K +:+ ".csv")]
      ∧ (∀ k, k ≠ K →
           files w' !! (P +:+ "_" +:+ k +:+ ".csv")
           = files w !! (P +:+ "_" +:+ k +:+ ".csv")
           ∧ dict_get k (durations (self w')) = dict_get k (durations (self w))
           ∧ (clickable k w = true → clickable k w' = true)).
Proof.
  intros w Hc Hrec w'.
  pose proof (reachable_inv_reached evs fs) as Hinv. fold w in Hinv.
  destruct (recording_started fs evs Hrec)
    as (pre & K0 & t0 & fault0 & mid & Hevs & Ha & Hm1 & Hm2 & Ht).
  fold w in Ht.
  destruct (stop_ok_world K now w Hinv Hc Hrec) as (t0' & b & P & Ht0 & Hb & HP & Hw').
  fold w' in Hw'. rewrite Ht in Ht0. injection Ht0 as <-.
  pose proof Hinv as (I1 & _).
  split_and!.
  - unfold action_of. by rewrite Hc, Hrec.
  - by rewrite Hw'.
  - exists pre, K0, t0, fault0, mid, P. split_and!; try done.
    + by rewrite Hw'.
    + rewrite Hw'. proj_simpl.
      rewrite lookup_insert_ne by (symmetry; apply csv_name_ne_duration_name).
      by rewrite lookup_insert_eq.
    + by rewrite Hw'.
    + intros k Hne. split_and!.
      * rewrite Hw'. proj_simpl.
        rewrite lookup_insert_ne by (symmetry; apply csv_name_ne_duration_name).
        rewrite lookup_insert_ne; [done|]. intros Heq. by apply csv_name_inj in Heq.
      * rewrite Hw'. proj_simpl. by rewrite dict_get_set_ne.
      * unfold clickable. rewrite Hw'. proj_simpl.
        rewrite (buttons_after_stop_spec K k b) by done.
        rewrite decide_False by done.
        destruct (dict_get k (buttons (self w))) as [b0|]; [|done].
        case_decide; [|done]. cbn. by destruct (btn_state b0).
Qed.

End AnyRecording.

(** * The statements on concrete sessions *)

Section Witnesses.
#[local] Existing Instance centi_float.



Lemma stop_writes_data_file_witness :
  let w := run session_three_samples (init ∅) in
  clickable "EC" w = true
  ∧ recording (self w) = true
  ∧ files (step (Press "EC" 100250%Z None) w) !! "p01_EC.csv"
    = Some ("timestamps,TP9,AF7,AF8,TP10,Right AUX" +:+ crlf
              +:+ "50.00,1.00,2.00,3.00,4.00,5.00" +:+ crlf
              +:+ "50.01,1.10,2.10,3.10,4.10,5.10" +:+ crlf
              +:+ "50.02,1.20,2.20,3.20,4.20,5.20" +:+ crlf).
Proof.
  intros w.
  assert (clickable "EC" w = true) as Hc by (vm_compute; reflexivity).
  assert (recording (self w) = true) as Hr by (vm_compute; reflexivity).
  split; [exact Hc|]. split; [exact Hr|].
  destruct (stop_writes_data_file ∅ session_three_samples "EC" 100250%Z Hc Hr)
    as (P & HP & Hfile & _).
  vm_compute in HP. injection HP as <-.
  vm_compute in Hfile. vm_compute. exact Hfile.
Defined.

Lemma duration_file_rewritten_witness :
  let w := run session_ec_done_eo_started (init ∅) in
  clickable "EO" w = true
  ∧ recording (self w) = true
  ∧ files (step (Press "EO" 100500%Z None) w) !! "p01_duration.txt"
    = Some ("Participant ID: p01" +:+ nl
              +:+ "EC: 2.50 seconds" +:+ nl
              +:+ "EO: 1.00 seconds" +:+ nl).
Proof.
  intros w.
  assert (clickable "EO" w = true) as Hc by (vm_compute; reflexivity).
  assert (recording (self w) = true) as Hr by (vm_compute; reflexivity).
  split; [exact Hc|]. split; [exact Hr|].
  destruct (duration_file_rewritten ∅ session_ec_done_eo_started "EO" 100500%Z
              Hc Hr) as (P & t0 & HP & _ & _ & Hfile & _).
  vm_compute in HP. injection HP as <-.
  vm_compute in Hfile. vm_compute. exact Hfile.
Defined.

Lemma empty_recording_saved_witness :
  let w0 := run session_ready (init ∅) in
  let mid := [RecTest 0; SwStart 0 100000%Z; SwIter 0 100000%Z] in
  let w' := run (Press "EC" 100000%Z None :: mid ++ [Press "EC" 100000%Z None]) w0 in
  clickable "EC" w0 = true
  ∧ recording (self w0) = false
  ∧ Forall idle_thread_event mid
  ∧ files w' !! "p01_EC.csv"
    = Some ("timestamps,TP9,AF7,AF8,TP10,Right AUX" +:+ crlf)
  ∧ files w' !! "p01_duration.txt"
    = Some ("Participant ID: p01" +:+ nl +:+ "EC: 0.00 seconds" +:+ nl).
Proof.
  intros w0 mid w'.
  assert (clickable "EC" w0 = true) as Hc by (vm_compute; reflexivity).
  assert (recording (self w0) = false) as Hr by (vm_compute; reflexivity).
  assert (Forall idle_thread_event mid) as Hmid by (repeat constructor).
  split; [exact Hc|]. split; [exact Hr|]. split; [exact Hmid|].
  destruct (empty_recording_saved ∅ session_ready "EC" 100000%Z 100000%Z None mid
              Hc Hr Hmid)
    as (P & HP & _ & Hcsv & _ & _ & Hdur & _).
  vm_compute in HP. injection HP as <-.
  vm_compute in Hcsv, Hdur. vm_compute. split; [exact Hcsv | exact Hdur].
Defined.

Lemma stop_action_effects_witness :
  let w := run session_three_samples (init ∅) in
  let w' := step (Press "EC" 100250%Z None) w in
  clickable "EC" w = true
  ∧ recording (self w) = true
  ∧ recording (self w') = false
  ∧ stopwatch_label (self w') = "Stopwatch: 00:00:00"
  ∧ clickable "EC" w' = false
  ∧ clickable "EO" w' = true.
Proof.
  intros w w'.
  assert (clickable "EC" w = true) as Hc by (vm_compute; reflexivity).
  assert (recording (self w) = true) as Hr by (vm_compute; reflexivity).
  assert (next_key "EC" segment_keys = Some "EO") as Hn
    by (vm_compute; reflexivity).
  split; [exact Hc|]. split; [exact Hr|].
  destruct (stop_action_effects ∅ session_three_samples "EC" 100250%Z Hc Hr)
    as (_ & Hrec & _ & _ & _ & _ & Hlabel & Hoff & Hnext & _).
  split_and!; [exact Hrec | exact Hlabel | exact Hoff | exact (Hnext "EO" Hn)].
Defined.

Lemma start_action_effects_witness :
  let w := run session_ready (init ∅) in
  let w' := step (Press "EC" 100000%Z None) w in
  clickable "EC" w = true
  ∧ recording (self w) = false
  ∧ start_time (self w') = Some 100000%Z
  ∧ data (self w') = []
  ∧ dict_get "EC" (buttons (self w')) = Some (Button "Stop Recording" NORMAL).
Proof.
  intros w w'.
  assert (clickable "EC" w = true) as Hc by (vm_compute; reflexivity).
  assert (recording (self w) = false) as Hr by (vm_compute; reflexivity).
  split; [exact Hc|]. split; [exact Hr|].
  destruct (start_action_effects ∅ session_ready "EC" 100000%Z None Hc Hr)
    as (_ & Hst & Hdata & _ & _ & _ & _ & (b & Hb & Hb') & _).
  vm_compute in Hb. injection Hb as <-.
  split_and!; [exact Hst | exact Hdata | exact Hb'].
Defined.

Lemma monitor_error_is_disconnect_witness :
  let w := run session_ready (init ∅) in
  let w' := step (Poll (Raise LSLError) (Ok 2)) w in
  w' = step (Poll (Ok []) (Ok 2)) w
  ∧ trace w' = [Connected; Sleep Monitor 1; Disconnected; Sleep Monitor 1]
  ∧ connected w' = false.
Proof.
  intros w w'.
  destruct (monitor_error_is_disconnect ∅ session_ready LSLError (Ok 2))
    as (Heq & _ & Htr & Hc & _).
  vm_compute in Htr.
  split_and!; [exact Heq | exact Htr | exact Hc].
Defined.

Lemma on_disconnection_frame_witness :
  let w := run session_three_samples (init ∅) in
  ∃ w', on_disconnection w = (Ok (), w')
    ∧ status_label (self w') = "Status: Not connected to Muse 2"
    ∧ clickable "EC" w' = false
    ∧ recording (self w') = true
    ∧ length (data (self w')) = 3.
Proof.
  intros w.
  assert (recording (self w) = true) as Hr by (vm_compute; reflexivity).
  assert (length (data (self w)) = 3) as Hd by (vm_compute; reflexivity).
  destruct (on_disconnection_frame ∅ session_three_samples)
    as (w' & Heq & Hst & _ & _ & Hoff & Hrec & _ & Hdata & _).
  exists w'. split_and!; [exact Heq | exact Hst | apply Hoff | |].
  - by rewrite Hrec.
  - by rewrite Hdata.
Defined.

Lemma save_failure_not_atomic_witness :
  let w := run session_three_samples (init ∅) in
  let w' := step (Press "EC" 100250%Z (Some 6)) w in
  clickable "EC" w = true
  ∧ recording (self w) = true
  ∧ trace w' = trace w ++ [Uncaught MainLoop OSError]
  ∧ buttons (self w') = buttons (self w)
  ∧ durations (self w') = [("EC", 250%Z)]
  ∧ files w' !! "p01_EC.csv"
    = Some ("timestamps,TP9,AF7,AF8,TP10,Right AUX" +:+ crlf
              +:+ "50.00,1.00,2.00,3.00,4.00,5.00" +:+ crlf
              +:+ "50.01,1.10,2.10,3.10,4.10,5.10" +:+ crlf
              +:+ "50.02,1.20,2.20,3.20,4.20,5.20" +:+ crlf)
  ∧ files w' !! "p01_duration.txt" = Some "".
Proof.
  intros w w'.
  assert (clickable "EC" w = true) as Hc by (vm_compute; reflexivity).
  assert (recording (self w) = true) as Hr by (vm_compute; reflexivity).
  assert (6 < 2 + length (data (self w)) + 2
              + (length (durations (self w))
                 + (if decide ("EC" ∈ dict_keys (durations (self w)))
                    then 0 else 1))) as Hn by (vm_compute; lia).
  split; [exact Hc|]. split; [exact Hr|].
  destruct (save_failure_not_atomic ∅ session_three_samples "EC" 100250%Z 6
              Hc Hr Hn)
    as (P & t0 & HP & Ht0 & _ & Htr & Hbs & _ & _ & _ & Hds & Hfiles).
  vm_compute in HP. injection HP as <-.
  vm_compute in Ht0. injection Ht0 as <-.
  destruct Hfiles as (Hcsv & _ & Hdur); [vm_compute; lia|].
  destruct Hdur as [Hdur _]; [vm_compute; lia|].
  split_and!; [exact Htr | exact Hbs | | |].
  - vm_compute in Hds. exact Hds.
  - vm_compute in Hcsv. vm_compute. exact Hcsv.
  - vm_compute in Hdur. vm_compute. exact Hdur.
Defined.

Lemma stop_saves_under_pressed_key_witness :
  let w := run session_eo_recording (init ∅) in
  let w' := step (Press "EC" 100600%Z None) w in
  clickable "EC" w = true
  ∧ recording (self w) = true
  ∧ Started "EO" ∈ actions session_eo_recording (init ∅)
  ∧ durations (self w') = [("EC", 200%Z)]
  ∧ files w' !! "p01_EC.csv"
    = Some ("timestamps,TP9,AF7,AF8,TP10,Right AUX" +:+ crlf
              +:+ "60.00,1.00,2.00,3.00,4.00,5.00" +:+ crlf)
  ∧ files w' !! "p01_EO.csv" = None.
Proof.
  intros w w'.
  assert (clickable "EC" w = true) as Hc by (vm_compute; reflexivity).
  assert (recording (self w) = true) as Hr by (vm_compute; reflexivity).
  assert (Started "EO" ∈ actions session_eo_recording (init ∅)) as Hs.
  { vm_compute. repeat first [apply list_elem_of_here | apply list_elem_of_further]. }
  assert (files w !! "p01_EO.csv" = None) as Hold by (vm_compute; reflexivity).
  split; [exact Hc|]. split; [exact Hr|]. split; [exact Hs|].
  destruct (stop_saves_under_pressed_key ∅ session_eo_recording "EC" 100600%Z Hc Hr)
    as (_ & _ & pre & K0 & t0 & fault0 & mid & P & _ & _ & _ & _ & Ht0 & HP & Hds
        & Hfile & _ & Hother).
  vm_compute in HP. injection HP as <-.
  vm_compute in Ht0. injection Ht0 as <-.
  destruct (Hother "EO") as (Heo & _); [discriminate|].
  split_and!.
  - vm_compute in Hds. exact Hds.
  - vm_compute in Hfile. vm_compute. exact Hfile.
  - change ("p01" +:+ "_" +:+ "EO" +:+ ".csv") with "p01_EO.csv" in Heo.
    fold w w' in Heo. rewrite Hold in Heo. exact Heo.
Defined.

End Witnesses.

(** * Further properties of the program *)

(** ** The program's own operations, flags and clicks *)

Section Exceptions.
Context `{FloatOps}.

(** X1.  In every state the program reaches, its own operations cannot
    fail.  The lookups [self.buttons["EC"]], [self.buttons[key]] and
    [self.buttons[next_key]] find their key, [keys.index(current_key)] finds
    the key clicked, [self.start_time] holds a reading when a duration is
    computed, and [self.inlet] is set when a recorder thread reaches
    [self.inlet.pull_sample]: the key handler returns, the test of the
    recorder loop returns, and a click on an enabled button returns unless a
    file operation of its save fails, which can happen in the stop branch
    only.  Nothing is said of what the file operations, [pull_sample] and the
    other calls of the platform raise themselves. *)
Theorem own_operations_never_raise (fs : gmap string string) (evs : list event) :
  let w := run evs (init fs) in
  (∀ text, ∃ w',
     enable_buttons (upd_self (set_participant_id_entry text) w) = (Ok (), w'))
  ∧ (∀ K now, clickable K w = true →
       ∃ w', toggle_recording K now w = (Ok (), w'))
  ∧ (∀ K now fault x w', clickable K w = true →
       toggle_recording K now (set_io_fault fault w) = (Raise x, w') →
       recording (self w) = true ∧ ∃ n, fault = Some n)
  ∧ (recording (self w) = true → record_data_test w = (Ok RecPulling, w)).
Proof.
  intros w. pose proof (reachable_inv_reached evs fs) as Hinv. fold w in Hinv.
  clearbody w. pose proof Hinv as (I1 & I2 & I3 & I4 & I5 & I6 & I7).
  split_and!.
  - intros text. rewrite enable_buttons_eval. cbn zeta. proj_simpl.
    destruct (segment_key_has_button "EC" w I1) as [bEC HbEC];
      [apply list_elem_of_here|].
    rewrite HbEC. destruct (truthy _); by eexists.
  - intros K now Hc. destruct (recording (self w)) eqn:Hrec.
    + destruct (reached_stop K w Hinv Hc Hrec) as (t0 & b & P & ? & ? & ? & ? & ? & ?).
      rewrite (toggle_recording_stop K now t0 b) by done.
      rewrite for_each_file_ops. proj_simpl. rewrite I3. by eexists.
    + apply clickable_inv in Hc as (b & Hb & Hs).
      rewrite (toggle_recording_start K now b) by done. by eexists.
  - intros K now fault x w' Hc. destruct (recording (self w)) eqn:Hrec.
    + destruct (reached_stop K w Hinv Hc Hrec) as (t0 & b & P & ? & ? & ? & ? & ? & ?).
      rewrite (toggle_recording_stop K now t0 b) by done.
      rewrite for_each_file_ops. proj_simpl.
      destruct fault as [n|]; [|done]. intros _. split; [done | by exists n].
    + apply clickable_inv in Hc as (b & Hb & Hs).
      by rewrite (toggle_recording_start K now b).
  - intros Hrec. unfold record_data_test. munfold. rewrite Hrec.
    by destruct (I6 (I7 Hrec)) as [j ->].
Qed.

Lemma flags_agree_run (evs : list event) (w : world) :
  reachable_inv w →
  stopwatch_running (self w) = recording (self w) →
  stopwatch_running (self (run evs w)) = recording (self (run evs w)).
Proof.
  revert w. induction evs as [|e evs IH]; intros w Hinv Hfl; [done|].
  rewrite run_cons. apply IH; [by apply reachable_inv_step|].
  pose proof Hinv as (I1 & I2 & I3 & I4 & I5 & I6 & I7).
  destruct e as [found opened|text|key now fault|i|i s t|i now|i now]; cbn [step].
  - rewrite I4. destruct (connected w) eqn:Hc; destruct found as [[|s0 ss]|e];
      rewrite ?monitor_lost, ?monitor_error, ?monitor_found_still, ?monitor_idle,
        ?on_disconnection_eval by done; try done.
    destruct opened as [j|e];
      rewrite ?monitor_found_new, ?monitor_inlet_error, ?on_connection_eval by done;
      done.
  - destruct (text_field_frame (self w)); [|done].
    unfold run_callback. rewrite enable_buttons_eval. cbn zeta.
    destruct (truthy _); [|done]. by destruct (dict_get _ _).
  - change (if clickable key w then _ else w) with (step (Press key now fault) w).
    destruct (clickable key w) eqn:Hc; [|by rewrite step_press_disabled].
    destruct (recording (self w)) eqn:Hrec.
    + destruct (reached_stop key w Hinv Hc Hrec) as (t0 & b & P & ? & ? & ? & ? & ? & ?).
      rewrite (step_press_stop key now t0 fault b) by done. cbn zeta.
      destruct fault as [n|]; [case_decide|]; done.
    + apply clickable_inv in Hc as (b & Hb & Hs).
      by rewrite (step_press_start key now fault b).
  - destruct (rec_threads w !! i) as [[]|]; try done.
    unfold record_data_test. munfold.
    destruct (recording (self w)) eqn:Hr; [destruct (inlet (self w))|];
      cbn; congruence.
  - by destruct (rec_threads w !! i) as [[]|].
  - by destruct (sw_threads w !! i) as [[]|].
  - destruct (sw_threads w !! i) as [[| t0 |]|]; try done.
    unfold update_stopwatch. munfold.
    destruct (stopwatch_running (self w)) eqn:Hs; cbn; congruence.
Qed.

(** X2.  A click on an enabled segment button always flips the recording
    flag, also when the save it triggers fails, and the stopwatch flag
    follows it: the two flags are equal in every state the program reaches.
    A click on a disabled button changes nothing at all. *)
Theorem click_toggles_recording
    (fs : gmap string string) (evs : list event) (K : string) (now : float)
    (fault : option nat) :
  let w := run evs (init fs) in
  let w' := step (Press K now fault) w in
  stopwatch_running (self w) = recording (self w)
  ∧ (clickable K w = true →
     recording (self w') = negb (recording (self w))
     ∧ stopwatch_running (self w') = negb (recording (self w)))
  ∧ (clickable K w = false → w' = w).
Proof.
  intros w w'.
  pose proof (reachable_inv_reached evs fs) as Hinv. fold w in Hinv.
  assert (stopwatch_running (self w) = recording (self w)) as Hfl.
  { by apply flags_agree_run; [apply reachable_inv_init|]. }
  split_and!; [done| |apply step_press_disabled].
  intros Hc.
  assert (stopwatch_running (self w') = recording (self w')) as Hfl'.
  { unfold w', w. change (step ?e (run ?l ?x)) with (run [e] (run l x)).
    rewrite <- run_app. by apply flags_agree_run; [apply reachable_inv_init|]. }
  rewrite Hfl'. cut (recording (self w') = negb (recording (self w))); [done|].
  unfold w'. destruct (recording (self w)) eqn:Hrec.
  - destruct (reached_stop K w Hinv Hc Hrec) as (t0 & b & P & ? & ? & ? & ? & ? & ?).
    rewrite (step_press_stop K now t0 fault b) by done. cbn zeta.
    destruct fault as [n|]; [case_decide|]; done.
  - pose proof Hinv as (_ & _ & I3 & _).
    apply clickable_inv in Hc as (b & Hb & Hs).
    by rewrite (step_press_start K now fault b).
Qed.

End Exceptions.

(** ** Recorder threads *)

Section RecorderThreads.
Context `{FloatOps}.

Lemma pull_cycles_thread_events (i : nat) (samples : list (list float * float)) :
  Forall thread_event (pull_cycles i samples).
Proof.
  unfold pull_cycles. induction samples as [|st samples IH]; [constructor|].
  cbn [flat_map]. by repeat constructor.
Qed.

(** One test of the loop condition by a recorder at the head of its loop,
    during a recording. *)
Lemma step_rec_test (i j : nat) (w : world) :
  recording (self w) = true → inlet (self w) = Some j →
  rec_threads w !! i = Some RecWhile →
  step (RecTest i) w = set_rec_threads (<[i := RecPulling]> (rec_threads w)) w.
Proof.
  intros Hrec Hin Hth. cbn [step]. rewrite Hth.
  unfold record_data_test. munfold. by rewrite Hrec, Hin.
Qed.

(** The arrival of a sample in a recorder blocked in [pull_sample]. *)
Lemma step_rec_pull (i : nat) (sample : list float) (timestamp : float) (w : world) :
  rec_threads w !! i = Some RecPulling →
  step (RecPull i sample timestamp) w
  = set_rec_threads (<[i := RecWhile]> (rec_threads w))
      (upd_self (set_data (data (self w) ++ [timestamp :: sample])) w).
Proof. intros Hth. cbn [step]. by rewrite Hth. Qed.

(** A recorder alone at work appends the samples in their order of
    arrival. *)
Lemma pull_cycles_run (i j : nat) (samples : list (list float * float)) (w : world) :
  recording (self w) = true → inlet (self w) = Some j →
  rec_threads w !! i = Some RecWhile →
  data (self (run (pull_cycles i samples) w)) = data (self w) ++ sample_rows samples
  ∧ rec_threads (run (pull_cycles i samples) w) = rec_threads w.
Proof.
  revert w. induction samples as [|[s t] samples IH]; intros w Hrec Hin Hth.
  - cbn. by rewrite app_nil_r.
  - unfold pull_cycles. cbn [flat_map]. fold (pull_cycles i samples).
    change ([RecTest i; RecPull i (s, t).1 (s, t).2] ++ pull_cycles i samples)
      with (RecTest i :: RecPull i s t :: pull_cycles i samples).
    rewrite !run_cons, (step_rec_test i j) by done.
    assert (i < length (rec_threads w)) as Hi by by eapply lookup_lt_Some.
    rewrite step_rec_pull by (cbn; by rewrite list_lookup_insert_eq).
    match goal with |- context [run _ ?W] => set (w2 := W) end.
    assert (rec_threads w2 = rec_threads w) as Hth2.
    { unfold w2. cbn. rewrite list_insert_insert_eq. by apply list_insert_id. }
    destruct (IH w2) as [Hd Hr]; [done|done|by rewrite Hth2|].
    rewrite Hd, Hr, Hth2. split; [|done].
    unfold w2. cbn. by rewrite <- app_assoc.
Qed.

(** X3.  A recording from start to stop.  From any reachable state in which
    the button of [K] is enabled and nothing is being recorded: click [K],
    let the recorder thread that this starts pull any number of samples,
    click [K] again (no file error).  The buffer then holds one row per
    sample, timestamp first, in the order of arrival, and the data file is
    the header line followed by exactly these rows. *)
Theorem recorded_samples_saved
    (fs : gmap string string) (evs : list event) (K : string) (t0 t1 : float)
    (fault0 : option nat) (samples : list (list float * float)) :
  let w0 := run evs (init fs) in
  clickable K w0 = true →
  recording (self w0) = false →
  let w := run (Press K t0 fault0 :: pull_cycles (length (rec_threads w0)) samples) w0 in
  let w' := step (Press K t1 None) w in
  data (self w) = (λ st : list float * float, st.2 :: st.1) <$> samples
  ∧ ∃ P, participant_id (self w0) = Some P
    ∧ files w' !! (P +:+ "_" +:+ K +:+ ".csv")
      = Some ("timestamps,TP9,AF7,AF8,TP10,Right AUX" +:+ crlf
                +:+ String.concat ""
                      ((λ st : list float * float,
                          csv_line (float_str <$> (st.2 :: st.1))) <$> samples)).
Proof.
  intros w0 Hc Hrec w w'.
  pose proof (reachable_inv_reached evs fs) as Hinv0. fold w0 in Hinv0.
  set (j := length (rec_threads w0)) in *.
  destruct (recording_in_progress K t0 fault0 (pull_cycles j samples) w0 Hinv0 Hc Hrec
              (pull_cycles_thread_events j samples))
    as (Hinv & Hrecw & Hst & Hpid & Hds & Hfs & Hclick & _).
  fold w in Hinv, Hrecw, Hst, Hpid, Hds, Hfs, Hclick.
  assert (data (self w) = sample_rows samples) as Hdata.
  { pose proof Hinv0 as (_ & _ & I3 & _ & I5 & I6 & _).
    destruct (I5 (ex_intro _ K Hc)) as [_ Hframe]. destruct (I6 Hframe) as [i Hi].
    pose proof Hc as Hc'. apply clickable_inv in Hc' as (b & Hb & Hs).
    unfold w. rewrite run_cons, (step_press_start K t0 fault0 b) by done.
    match goal with |- context [run _ ?W] => set (w1 := W) end.
    destruct (pull_cycles_run j i samples w1) as [Hd _]; try done.
    unfold w1, j. cbn. by rewrite lookup_app_r, Nat.sub_diag. }
  split; [exact Hdata|].
  assert (clickable K w = true) as Hcw by by rewrite Hclick.
  destruct (stop_ok_world K t1 w Hinv Hcw Hrecw) as (t0' & b & P & Ht0 & Hb & HP & Hw').
  fold w' in Hw'. exists P. rewrite <- Hpid. split; [done|].
  rewrite Hw'. proj_simpl.
  rewrite lookup_insert_ne by (symmetry; apply csv_name_ne_duration_name).
  rewrite lookup_insert_eq, Hdata. unfold csv_text, csv_rows, sample_rows.
  rewrite <- list_fmap_compose. by rewrite csv_header_line, append_assoc.
Qed.

(** X4.  A sample that arrives once the callback of the stop has returned.
    If a recorder thread is still blocked in [pull_sample] when the click
    that stops the recording has been served to its end (files written,
    confirmation closed), the sample it receives afterwards is still appended
    to the buffer, which no longer reaches the file: the file holds the rows
    the buffer had when the callback ran, the thread ends at its next test,
    and the next start replaces the buffer, so the row is never written
    anywhere.  A sample that arrives while the callback runs is not
    considered here. *)
Theorem sample_after_stop_callback_not_saved
    (fs : gmap string string) (evs : list event) (K : string) (now : float)
    (i : nat) (sample : list float) (timestamp : float) :
  let w := run evs (init fs) in
  clickable K w = true →
  recording (self w) = true →
  rec_threads w !! i = Some RecPulling →
  let w1 := step (Press K now None) w in
  let w2 := run [RecPull i sample timestamp; RecTest i] w1 in
  data (self w2) = data (self w) ++ [timestamp :: sample]
  ∧ rec_threads w2 !! i = Some RecDone
  ∧ files w2 = files w1
  ∧ (∃ P, participant_id (self w) = Some P
       ∧ files w2 !! (P +:+ "_" +:+ K +:+ ".csv") = Some (csv_text (data (self w))))
  ∧ (∀ K' t fault, clickable K' w2 = true →
       data (self (step (Press K' t fault) w2)) = []).
Proof.
  intros w Hc Hrec Hth w1 w2.
  pose proof (reachable_inv_reached evs fs) as Hinv. fold w in Hinv.
  destruct (stop_ok_world K now w Hinv Hc Hrec) as (t0 & b & P & Ht0 & Hb & HP & Hw1).
  fold w1 in Hw1.
  assert (i < length (rec_threads w)) as Hi by by eapply lookup_lt_Some.
  assert (rec_threads w1 = rec_threads w) as Hth1 by by rewrite Hw1.
  assert (w2 = set_rec_threads (<[i := RecDone]> (rec_threads w))
                 (upd_self (set_data (data (self w) ++ [timestamp :: sample])) w1))
    as Hw2.
  { assert (recording (self w1) = false) as Hrec1 by by rewrite Hw1.
    assert (data (self w1) = data (self w)) as Hdata1 by by rewrite Hw1.
    unfold w2. rewrite !run_cons. cbn [run foldl].
    rewrite step_rec_pull by by rewrite Hth1.
    cbn [step rec_threads set_rec_threads upd_self].
    rewrite list_lookup_insert_eq by by rewrite Hth1.
    unfold record_data_test. munfold.
    cbn [self upd_self set_rec_threads recording set_data].
    rewrite Hrec1. cbn [rec_threads set_rec_threads upd_self].
    by rewrite list_insert_insert_eq, Hth1, Hdata1. }
  assert (reachable_inv w2) as Hinv2.
  { unfold w2, w1. by apply reachable_inv_run, reachable_inv_step. }
  split_and!.
  - rewrite Hw2, Hw1. done.
  - rewrite Hw2. cbn. by rewrite list_lookup_insert_eq.
  - by rewrite Hw2.
  - exists P. split; [done|]. rewrite Hw2, Hw1. proj_simpl.
    rewrite lookup_insert_ne by (symmetry; apply csv_name_ne_duration_name).
    by rewrite lookup_insert_eq.
  - intros K' t fault Hc'.
    pose proof Hinv2 as (_ & _ & I3 & _).
    apply clickable_inv in Hc' as (b' & Hb' & Hs').
    rewrite (step_press_start K' t fault b') by (try done; by rewrite Hw2, Hw1).
    done.
Qed.

(** X5.  A recorder thread is ended only at its own test of the flag.  If
    it is blocked in [pull_sample] while the recording is stopped and the
    next one is started, it never sees the flag cleared: the next recording
    runs with one recorder more than it started, the sample the old thread
    receives goes into the new buffer, and the old thread loops on. *)
Theorem recorder_survives_restart
    (fs : gmap string string) (evs : list event) (K K' : string) (now t' : float)
    (fault' : option nat) (i : nat) (sample : list float) (timestamp : float) :
  let w := run evs (init fs) in
  clickable K w = true →
  recording (self w) = true →
  rec_threads w !! i = Some RecPulling →
  clickable K' (step (Press K now None) w) = true →
  let w1 := run [Press K now None; Press K' t' fault'] w in
  let w2 := run [RecPull i sample timestamp; RecTest i] w1 in
  recording (self w1) = true
  ∧ data (self w1) = []
  ∧ rec_threads w1 = rec_threads w ++ [RecWhile]
  ∧ data (self w2) = [timestamp :: sample]
  ∧ rec_threads w2 !! i = Some RecPulling
  ∧ rec_threads w2 !! length (rec_threads w) = Some RecWhile.
Proof.
  intros w Hc Hrec Hth Hc' w1 w2.
  pose proof (reachable_inv_reached evs fs) as Hinv. fold w in Hinv.
  destruct (stop_ok_world K now w Hinv Hc Hrec) as (t0 & b & P & Ht0 & Hb & HP & Hw0).
  set (w0 := step (Press K now None) w) in *.
  assert (reachable_inv w0) as Hinv0 by by apply reachable_inv_step.
  pose proof Hinv0 as (_ & _ & I3 & _ & I5 & I6 & _).
  destruct (I5 (ex_intro _ K' Hc')) as [_ Hframe]. destruct (I6 Hframe) as [j Hj].
  pose proof Hc' as Hc''. apply clickable_inv in Hc'' as (b' & Hb' & Hs').
  assert (recording (self w0) = false) as Hrec0 by by rewrite Hw0.
  assert (rec_threads w0 = rec_threads w) as Hth0 by by rewrite Hw0.
  assert (i < length (rec_threads w)) as Hi by by eapply lookup_lt_Some.
  assert (w1 = step (Press K' t' fault') w0) as Hw1 by done.
  rewrite (step_press_start K' t' fault' b') in Hw1 by done.
  assert (rec_threads w1 = rec_threads w ++ [RecWhile]) as Hth1.
  { rewrite Hw1. proj_simpl. by rewrite Hth0. }
  assert (rec_threads w1 !! i = Some RecPulling) as Hthi.
  { rewrite Hth1. by rewrite lookup_app_l. }
  assert (w2 = set_rec_threads (<[i := RecPulling]> (rec_threads w1))
                 (upd_self (set_data [timestamp :: sample]) w1)) as Hw2.
  { unfold w2. rewrite !run_cons. cbn [run foldl].
    rewrite step_rec_pull by done.
    assert (recording (self w1) = true) as Hrec1 by by rewrite Hw1.
    assert (inlet (self w1) = Some j) as Hj1 by by rewrite Hw1.
    assert (data (self w1) = []) as Hd1 by by rewrite Hw1.
    rewrite (step_rec_test i j); [|done|done|].
    - proj_simpl. by rewrite list_insert_insert_eq, Hd1.
    - proj_simpl. rewrite list_lookup_insert_eq; [done|].
      rewrite Hth1, length_app. lia. }
  split_and!.
  - by rewrite Hw1.
  - by rewrite Hw1.
  - done.
  - by rewrite Hw2.
  - rewrite Hw2. proj_simpl. rewrite list_lookup_insert_eq; [done|].
    rewrite Hth1, length_app. lia.
  - rewrite Hw2. proj_simpl. rewrite list_lookup_insert_ne by lia.
    by rewrite Hth1, lookup_app_r, Nat.sub_diag.
Qed.

End RecorderThreads.

(** ** The stopwatch *)

Section StopwatchDisplay.
Context `{FloatOps}.

Lemma fmt_02_two_digits (n : Z) :
  (0 ≤ n < 100)%Z → fmt_02 n = two_digits n.
Proof.
  intros Hn.
  assert (forallb (λ k, bool_decide (fmt_02 (Z.of_nat k) = two_digits (Z.of_nat k)))
            (seq 0 100) = true) as Hall by (vm_compute; reflexivity).
  rewrite forallb_forall in Hall.
  assert (In (Z.to_nat n) (seq 0 100)) as Hin by (apply in_seq; lia).
  apply Hall in Hin. rewrite Z2Nat.id in Hin by lia.
  by apply bool_decide_eq_true in Hin.
Qed.

Lemma hms_parts (e : Z) :
  (0 ≤ e < 360000)%Z →
  (0 ≤ e `div` 3600 < 100)%Z
  ∧ ((e `mod` 3600) `div` 60 = (e `div` 60) `mod` 60)%Z
  ∧ ((e `mod` 3600) `mod` 60 = e `mod` 60)%Z
  ∧ (0 ≤ (e `div` 60) `mod` 60 < 60)%Z
  ∧ (0 ≤ e `mod` 60 < 60)%Z.
Proof. intros He. split_and!; Z.div_mod_to_equations; lia. Qed.

(** X6.  A turn of the stopwatch loop while the stopwatch flag is set, for
    an elapsed time [e] of less than a hundred hours: the label reads
    [Stopwatch: HH:MM:SS] with the two decimal digits of [e / 3600], of
    [e / 60 mod 60] and of [e mod 60], 19 characters in all; nothing else of
    the object changes and the thread stays in its loop. *)
Theorem stopwatch_shows_hms (i : nat) (t0 now : float) (w : world) :
  stopwatch_running (self w) = true →
  (0 ≤ float_int (fsub now t0) < 360000)%Z →
  let e := float_int (fsub now t0) in
  ∃ w', update_stopwatch i t0 now w = (Ok (SwWhile t0), w')
    ∧ stopwatch_label (self w')
      = "Stopwatch: " +:+ two_digits (e `div` 3600)
          +:+ ":" +:+ two_digits ((e `div` 60) `mod` 60)
          +:+ ":" +:+ two_digits (e `mod` 60)
    ∧ String.length (stopwatch_label (self w')) = 19
    ∧ self w' = set_stopwatch_label (stopwatch_label (self w')) (self w)
    ∧ files w' = files w.
Proof.
  intros Hrun He e. fold e in He.
  destruct (hms_parts e He) as (Hh & Hm & Hs & Hm' & Hs').
  unfold update_stopwatch. munfold. rewrite Hrun. fold e.
  eexists. split; [reflexivity|]. proj_simpl.
  rewrite Hm, Hs, !fmt_02_two_digits by lia.
  split_and!; try done.
Qed.

(** X7.  When the clock reading is up to an hour behind the thread's start
    reading, floor division gives minus one hour and a positive remainder:
    for an elapsed time [e] with [-3600 <= e < 0] the label reads
    [Stopwatch: -1:MM:SS], where [MM:SS] are the minutes and seconds of
    [3600 + e]. *)
Theorem stopwatch_clock_stepped_back (i : nat) (t0 now : float) (w : world) :
  stopwatch_running (self w) = true →
  (-3600 ≤ float_int (fsub now t0) < 0)%Z →
  let e := float_int (fsub now t0) in
  ∃ w', update_stopwatch i t0 now w = (Ok (SwWhile t0), w')
    ∧ stopwatch_label (self w')
      = "Stopwatch: -1:" +:+ two_digits ((3600 + e) `div` 60)
          +:+ ":" +:+ two_digits ((3600 + e) `mod` 60).
Proof.
  intros Hrun He e. fold e in He.
  unfold update_stopwatch. munfold. rewrite Hrun. fold e.
  eexists. split; [reflexivity|]. proj_simpl.
  assert (e `div` 3600 = -1)%Z as -> by (Z.div_mod_to_equations; lia).
  assert (e `mod` 3600 = 3600 + e)%Z as -> by (Z.div_mod_to_equations; lia).
  rewrite (fmt_02_two_digits ((3600 + e) `div` 60)),
    (fmt_02_two_digits ((3600 + e) `mod` 60))
    by (Z.div_mod_to_equations; lia).
  done.
Qed.

(** Without a click, a cleared stopwatch flag stays cleared and the label
    stays as it is. *)
Lemma idle_step_display (e : event) (w : world) :
  reachable_inv w → no_click e →
  stopwatch_running (self w) = false →
  stopwatch_running (self (step e w)) = false
  ∧ stopwatch_label (self (step e w)) = stopwatch_label (self w)
  ∧ recording (self (step e w)) = recording (self w).
Proof.
  intros Hinv He Hsw. pose proof Hinv as (I1 & I2 & I3 & I4 & I5 & I6 & I7).
  destruct e as [found opened|text|key now fault|i|i s t|i now|i now];
    try done; cbn [step].
  - rewrite I4. destruct (connected w) eqn:Hc; destruct found as [[|s0 ss]|e];
      rewrite ?monitor_lost, ?monitor_error, ?monitor_found_still, ?monitor_idle,
        ?on_disconnection_eval by done; try done.
    destruct opened as [j|e];
      rewrite ?monitor_found_new, ?monitor_inlet_error, ?on_connection_eval by done;
      done.
  - destruct (text_field_frame (self w)); [|done].
    unfold run_callback. rewrite enable_buttons_eval. cbn zeta.
    destruct (truthy _); [|done]. by destruct (dict_get _ _).
  - destruct (rec_threads w !! i) as [[]|]; try done.
    unfold record_data_test. munfold.
    destruct (recording (self w)) eqn:Hr; [destruct (inlet (self w))|];
      cbn; rewrite ?Hr; done.
  - by destruct (rec_threads w !! i) as [[]|].
  - by destruct (sw_threads w !! i) as [[]|].
  - destruct (sw_threads w !! i) as [[| t0 |]|]; try done.
    unfold update_stopwatch. munfold. by rewrite Hsw.
Qed.

Lemma idle_run_display (mid : list event) (w : world) :
  reachable_inv w → Forall no_click mid →
  stopwatch_running (self w) = false →
  stopwatch_running (self (run mid w)) = false
  ∧ stopwatch_label (self (run mid w)) = stopwatch_label (self w)
  ∧ recording (self (run mid w)) = recording (self w).
Proof.
  intros Hinv Hmid. revert w Hinv.
  induction Hmid as [|e mid He Hmid IH]; intros w Hinv Hsw; [done|].
  rewrite run_cons.
  destruct (idle_step_display e w Hinv He Hsw) as (Hsw' & <- & <-).
  apply IH; [by apply reachable_inv_step | done].
Qed.

(** X8.  After a stop, the display stays at 00:00:00 until the next click:
    whatever the monitor, the entry and the threads do, both flags stay
    cleared and the label is not touched, and a stopwatch thread that takes a
    turn ends without writing to it. *)
Theorem display_stays_reset
    (fs : gmap string string) (evs : list event) (K : string) (now : float)
    (mid : list event) :
  let w := run evs (init fs) in
  clickable K w = true →
  recording (self w) = true →
  Forall no_click mid →
  let w2 := run mid (step (Press K now None) w) in
  stopwatch_label (self w2) = "Stopwatch: 00:00:00"
  ∧ stopwatch_running (self w2) = false
  ∧ recording (self w2) = false
  ∧ (∀ i t0 t, sw_threads w2 !! i = Some (SwWhile t0) →
       sw_threads (step (SwIter i t) w2) !! i = Some SwDone
       ∧ stopwatch_label (self (step (SwIter i t) w2)) = "Stopwatch: 00:00:00").
Proof.
  intros w Hc Hrec Hmid w2.
  pose proof (reachable_inv_reached evs fs) as Hinv. fold w in Hinv.
  destruct (stop_ok_world K now w Hinv Hc Hrec) as (t0 & b & P & Ht0 & Hb & HP & Hw1).
  set (w1 := step (Press K now None) w) in *.
  assert (reachable_inv w1) as Hinv1 by by apply reachable_inv_step.
  destruct (idle_run_display mid w1 Hinv1 Hmid) as (Hsw & Hlab & Hr);
    [by rewrite Hw1|].
  fold w2 in Hsw, Hlab, Hr.
  assert (stopwatch_label (self w2) = "Stopwatch: 00:00:00") as Hzero.
  { rewrite Hlab. by rewrite Hw1. }
  split_and!; [done | done | rewrite Hr; by rewrite Hw1 |].
  intros i t0' t Hth. cbn [step]. rewrite Hth.
  unfold update_stopwatch. munfold. rewrite Hsw.
  proj_simpl. split; [|done].
  apply list_lookup_insert_eq. by eapply lookup_lt_Some.
Qed.

(** X9.  A stopwatch thread keeps its own start reading and is ended only
    at its own test of the flag.  If it does not run between a stop and the
    next start, it goes on in the next recording and writes the time elapsed
    since the start of the previous one, beside the thread the new start
    created. *)
Theorem stopwatch_survives_restart
    (fs : gmap string string) (evs : list event) (K K' : string) (now t' t : float)
    (fault' : option nat) (i : nat) (t_old : float) :
  let w := run evs (init fs) in
  clickable K w = true →
  recording (self w) = true →
  sw_threads w !! i = Some (SwWhile t_old) →
  clickable K' (step (Press K now None) w) = true →
  let w1 := run [Press K now None; Press K' t' fault'] w in
  let w2 := step (SwIter i t) w1 in
  start_time (self w1) = Some t'
  ∧ sw_threads w1 = sw_threads w ++ [SwEntry]
  ∧ stopwatch_label (self w2) = stopwatch_text (float_int (fsub t t_old))
  ∧ sw_threads w2 !! i = Some (SwWhile t_old).
Proof.
  intros w Hc Hrec Hth Hc' w1 w2.
  pose proof (reachable_inv_reached evs fs) as Hinv. fold w in Hinv.
  destruct (stop_ok_world K now w Hinv Hc Hrec) as (t0 & b & P & Ht0 & Hb & HP & Hw0).
  set (w0 := step (Press K now None) w) in *.
  assert (reachable_inv w0) as Hinv0 by by apply reachable_inv_step.
  pose proof Hinv0 as (_ & _ & I3 & _).
  pose proof Hc' as Hc''. apply clickable_inv in Hc'' as (b' & Hb' & Hs').
  assert (recording (self w0) = false) as Hrec0 by by rewrite Hw0.
  assert (sw_threads w0 = sw_threads w) as Hth0 by by rewrite Hw0.
  assert (i < length (sw_threads w)) as Hi by by eapply lookup_lt_Some.
  assert (w1 = step (Press K' t' fault') w0) as Hw1 by done.
  clearbody w1. rewrite (step_press_start K' t' fault' b') in Hw1 by done.
  assert (sw_threads w1 = sw_threads w ++ [SwEntry]) as Hth1.
  { rewrite Hw1. proj_simpl. by rewrite Hth0. }
  assert (sw_threads w1 !! i = Some (SwWhile t_old)) as Hthi.
  { rewrite Hth1. by rewrite lookup_app_l. }
  assert (stopwatch_running (self w1) = true) as Hsw1 by by rewrite Hw1.
  split_and!; [by rewrite Hw1 | done | |].
  - unfold w2. cbn [step]. rewrite Hthi.
    unfold update_stopwatch. munfold. by rewrite Hsw1.
  - unfold w2. cbn [step]. rewrite Hthi.
    unfold update_stopwatch. munfold. rewrite Hsw1, Hw1. proj_simpl.
    apply list_lookup_insert_eq. proj_simpl. rewrite Hth0, length_app. lia.
Qed.

End StopwatchDisplay.

(** ** The connection and what the window shows of it *)

Ltac proj_simpl_in H :=
  cbn [self connected monitor_alive rec_threads sw_threads files io_fault trace
       stream inlet recording start_time data participant_id durations
       stopwatch_running status_label text_field_frame participant_id_entry
       buttons stopwatch_label
       upd_self emit set_connected set_monitor_alive set_rec_threads
       set_sw_threads set_files set_io_fault
       set_stream set_inlet set_recording set_start_time set_data
       set_participant_id set_durations set_stopwatch_running set_status_label
       set_text_field_frame set_participant_id_entry set_buttons
       set_stopwatch_label] in H.

Section Connection.
Context `{FloatOps}.

Lemma signals_app (tr1 tr2 : list effect) :
  signals (tr1 ++ tr2) = signals tr1 ++ signals tr2.
Proof. apply omap_app. Qed.

Lemma alternating_snoc (l : list bool) (first b : bool) :
  alternating first l →
  b = negb (default (negb first) (last l)) →
  alternating first (l ++ [b]).
Proof.
  revert first. induction l as [|a l IH]; intros first Hl Hb.
  - cbn in *. rewrite negb_involutive in Hb. by subst.
  - destruct Hl as [-> Hl]. split; [done|]. apply IH; [done|].
    destruct l as [|a' l]; [cbn in *; by rewrite negb_involutive|]. rewrite Hb, last_cons_cons.
    destruct (last (a' :: l)) eqn:E; [done|]. by apply last_None in E.
Qed.

(** Events other than turns of the monitor loop leave the connection and
    what is shown of it alone. *)
Lemma step_no_poll (e : event) (w : world) :
  reachable_inv w → no_poll e →
  connected (step e w) = connected w
  ∧ status_label (self (step e w)) = status_label (self w)
  ∧ text_field_frame (self (step e w)) = text_field_frame (self w)
  ∧ stream (self (step e w)) = stream (self w)
  ∧ inlet (self (step e w)) = inlet (self w)
  ∧ signals (trace (step e w)) = signals (trace w).
Proof.
  intros Hinv He. pose proof Hinv as (I1 & I2 & I3 & I4 & I5 & I6 & I7).
  destruct e as [found opened|text|key now fault|i|i s t|i now|i now];
    try done.
  - cbn [step]. destruct (text_field_frame (self w)) eqn:Hf; [|done].
    unfold run_callback. rewrite enable_buttons_eval. cbn zeta. proj_simpl.
    destruct (segment_key_has_button "EC" w I1) as [bEC HbEC];
      [apply list_elem_of_here|].
    rewrite HbEC. destruct (truthy _); proj_simpl; by rewrite Hf.
  - destruct (clickable key w) eqn:Hc; [|by rewrite step_press_disabled].
    destruct (recording (self w)) eqn:Hrec.
    + destruct (reached_stop key w Hinv Hc Hrec) as (t0 & b & P & ? & ? & ? & ? & ? & ?).
      rewrite (step_press_stop key now t0 fault b) by done. cbn zeta.
      destruct fault as [n|]; [case_decide|]; proj_simpl;
        rewrite ?signals_app; cbn; by rewrite ?app_nil_r.
    + apply clickable_inv in Hc as (b & Hb & Hs).
      by rewrite (step_press_start key now fault b).
  - cbn [step]. destruct (rec_threads w !! i) as [[]|]; try done.
    unfold record_data_test. munfold.
    destruct (recording (self w)) eqn:Hrec; [|done].
    destruct (I6 (I7 eq_refl)) as [x Hx]. rewrite Hx. proj_simpl. by rewrite Hx.
  - cbn [step]. by destruct (rec_threads w !! i) as [[]|].
  - cbn [step]. by destruct (sw_threads w !! i) as [[]|].
  - cbn [step]. destruct (sw_threads w !! i) as [[| t0 |]|]; try done.
    unfold update_stopwatch. munfold. unfold effect_.
    destruct (stopwatch_running (self w)); [|done].
    proj_simpl. rewrite signals_app. cbn. by rewrite app_nil_r.
Qed.

Lemma display_inv_step (e : event) (w : world) :
  reachable_inv w →
  display_inv w ∧ alternating true (signals (trace w))
    ∧ connected w = default false (last (signals (trace w))) →
  display_inv (step e w) ∧ alternating true (signals (trace (step e w)))
    ∧ connected (step e w) = default false (last (signals (trace (step e w)))).
Proof.
  intros Hinv (Hd & Ha & Hl).
  assert (no_poll e →
    display_inv (step e w) ∧ alternating true (signals (trace (step e w)))
    ∧ connected (step e w) = default false (last (signals (trace (step e w)))))
    as Hnp.
  { intros He.
    destruct (step_no_poll e w Hinv He) as (Hc & Hs & Hf & Hst & Hi & Hsig).
    unfold display_inv in *. by rewrite Hc, Hs, Hf, Hst, Hi, Hsig. }
  destruct e as [found opened| | | | | |]; try (by apply Hnp). clear Hnp.
  - pose proof Hinv as (_ & _ & _ & I4 & _).
    assert (∀ b, b = negb (connected w) →
              alternating true (signals (trace w) ++ [b])
              ∧ b = default false (last (signals (trace w) ++ [b]))) as Hnew.
    { intros b ->. split; [|by rewrite last_snoc].
      apply alternating_snoc; [done|]. by rewrite Hl. }
    cbn [step]. rewrite I4. unfold display_inv in *.
    destruct (connected w) eqn:Hc.
    + destruct Hd as (Hs & Hf & Hst & Hi).
      destruct found as [[|s0 ss]|e].
      * rewrite monitor_lost, on_disconnection_eval by done. proj_simpl.
        rewrite Hf, !signals_app. cbn. rewrite app_nil_r.
        destruct (Hnew false eq_refl) as [? ?]. by split_and!.
      * rewrite monitor_found_still by done. proj_simpl.
        rewrite Hc, signals_app. cbn. rewrite app_nil_r. by split_and!.
      * rewrite monitor_error, on_disconnection_eval by done. proj_simpl.
        rewrite Hf, !signals_app. cbn. rewrite app_nil_r.
        destruct (Hnew false eq_refl) as [? ?]. by split_and!.
    + destruct Hd as (Hs & Hf).
      assert (display_inv (emit (Sleep Monitor 1) w)
              ∧ alternating true (signals (trace (emit (Sleep Monitor 1) w)))
              ∧ connected (emit (Sleep Monitor 1) w)
                = default false (last (signals (trace (emit (Sleep Monitor 1) w)))))
        as Hidle.
      { unfold display_inv. proj_simpl.
        rewrite Hc, signals_app. cbn. rewrite app_nil_r. by split_and!. }
      destruct found as [[|s0 ss]|e]; [by rewrite monitor_idle| |by rewrite monitor_idle].
      destruct opened as [j|e].
      * rewrite monitor_found_new, on_connection_eval by done. proj_simpl.
        rewrite !signals_app. cbn. rewrite app_nil_r.
        destruct (Hnew true eq_refl) as [? ?]. by split_and!.
      * rewrite monitor_inlet_error by done. proj_simpl.
        rewrite Hc, signals_app. cbn. rewrite app_nil_r. by split_and!.
Qed.

Lemma display_inv_reached (fs : gmap string string) (evs : list event) :
  display_inv (run evs (init fs))
  ∧ alternating true (signals (trace (run evs (init fs))))
  ∧ connected (run evs (init fs))
    = default false (last (signals (trace (run evs (init fs))))).
Proof.
  induction evs as [|e evs IH] using rev_ind.
  - by vm_compute.
  - rewrite run_app. cbn [run foldl].
    apply display_inv_step; [apply reachable_inv_reached | done].
Qed.

(** X10.  Whatever the sequence of events, the window shows the monitor's
    view of the connection: when the monitor holds the headband for
    connected, the status line says so, the entry is on the grid and the
    object has a stream and an inlet; otherwise the status line says not
    connected and the entry is not on the grid.  The connection handlers are
    called in turn, [on_connection] first, and the monitor's flag tells which
    one was called last. *)
Theorem display_follows_connection (fs : gmap string string) (evs : list event) :
  let w := run evs (init fs) in
  display_inv w
  ∧ alternating true (signals (trace w))
  ∧ connected w = default false (last (signals (trace w))).
Proof. apply display_inv_reached. Qed.

(** The program before the first connection: the object as [__init__] left
    it, but for the stream of an attempt whose inlet could not be opened. *)
Lemma inert_step (e : event) (w : world) :
  no_connection e →
  self w = set_stream (stream (self w)) init_app →
  connected w = false → monitor_alive w = true →
  rec_threads w = [] → sw_threads w = [] →
  Forall (λ x, x = Sleep Monitor 1) (trace w) →
  self (step e w) = set_stream (stream (self (step e w))) init_app
  ∧ connected (step e w) = false ∧ monitor_alive (step e w) = true
  ∧ rec_threads (step e w) = [] ∧ sw_threads (step e w) = []
  ∧ Forall (λ x, x = Sleep Monitor 1) (trace (step e w))
  ∧ files (step e w) = files w.
Proof.
  intros He Hself Hc Hm Hr Hs Ht.
  assert (Forall (λ x, x = Sleep Monitor 1) (trace w ++ [Sleep Monitor 1])) as Ht'.
  { apply Forall_app. split; [done|]. by apply Forall_singleton. }
  destruct e as [found opened|text|key now fault|i|i s t|i now|i now]; cbn [step].
  - rewrite Hm. destruct found as [[|s0 ss]|e].
    + rewrite monitor_idle by done. by split_and!.
    + destruct opened as [j|e]; [done|].
      rewrite monitor_inlet_error by done. proj_simpl. split_and!; try done.
      by rewrite Hself.
    + rewrite monitor_idle by done. by split_and!.
  - assert (text_field_frame (self w) = None) as -> by by rewrite Hself.
    by split_and!.
  - assert (clickable key w = false) as ->; [|by split_and!].
    rewrite (clickable_same_buttons key (init (files w)) w)
      by (rewrite Hself; done).
    apply init_not_clickable.
  - rewrite Hr. by split_and!.
  - rewrite Hr. by split_and!.
  - rewrite Hs. by split_and!.
  - rewrite Hs. by split_and!.
Qed.

(** X11.  Until a turn of the monitor loop finds a stream and opens its
    inlet, the program does nothing but poll and sleep: the object is as
    [__init__] left it, except that [self.stream] holds the stream of a
    failed attempt to open an inlet; no handler is called, key releases and
    clicks have no effect, no thread is started and no file is written. *)
Theorem inert_before_connection (fs : gmap string string) (evs : list event) :
  Forall no_connection evs →
  let w := run evs (init fs) in
  self w = set_stream (stream (self w)) init_app
  ∧ connected w = false
  ∧ rec_threads w = [] ∧ sw_threads w = []
  ∧ Forall (λ x, x = Sleep Monitor 1) (trace w)
  ∧ files w = fs.
Proof.
  intros Hevs. cbn zeta.
  enough (self (run evs (init fs))
            = set_stream (stream (self (run evs (init fs)))) init_app
          ∧ connected (run evs (init fs)) = false
          ∧ monitor_alive (run evs (init fs)) = true
          ∧ rec_threads (run evs (init fs)) = []
          ∧ sw_threads (run evs (init fs)) = []
          ∧ Forall (λ x, x = Sleep Monitor 1) (trace (run evs (init fs)))
          ∧ files (run evs (init fs)) = fs) as (? & ? & ? & ? & ? & ? & ?)
    by by split_and!.
  induction evs as [|e evs IH] using rev_ind.
  - by split_and!.
  - apply Forall_app in Hevs as [Hevs He].
    rewrite Forall_singleton in He.
    rewrite run_app. cbn [run foldl].
    destruct (IH Hevs) as (I1 & I2 & I3 & I4 & I5 & I6 & I7).
    destruct (inert_step e _ He I1 I2 I3 I4 I5 I6) as (? & ? & ? & ? & ? & ? & Hf).
    split_and!; try done. by rewrite Hf.
Qed.

(** X12.  A connection lost and found again: the stored identifier, the text
    of the entry, the durations, the recording flag and the buffer are kept
    and the object holds the new stream and inlet, but every button is
    disabled, whatever segment the session had reached; a key release in the
    entry can then enable the first button only, and only for a text that is
    not blank. *)
Theorem reconnection_restarts_sequence
    (fs : gmap string string) (evs : list event)
    (lost : result (list nat)) (o : result nat) (s0 j : nat) (ss : list nat) :
  let w := run evs (init fs) in
  connected w = true →
  no_stream lost →
  let w' := run [Poll lost o; Poll (Ok (s0 :: ss)) (Ok j)] w in
  connected w' = true
  ∧ stream (self w') = Some s0 ∧ inlet (self w') = Some j
  ∧ text_field_frame (self w') = Some true
  ∧ participant_id_entry (self w') = participant_id_entry (self w)
  ∧ participant_id (self w') = participant_id (self w)
  ∧ durations (self w') = durations (self w)
  ∧ recording (self w') = recording (self w)
  ∧ data (self w') = data (self w)
  ∧ (∀ k, clickable k w' = false)
  ∧ (∀ text k, clickable k (step (KeyRelease text) w') = true →
       k = "EC" ∧ strip text ≠ "").
Proof.
  intros w Hc Hlost w'.
  pose proof (reachable_inv_reached evs fs) as Hinv. fold w in Hinv.
  pose proof Hinv as (I1 & I2 & I3 & I4 & I5 & I6 & I7).
  destruct (display_inv_reached fs evs) as (Hd & _). fold w in Hd.
  unfold display_inv in Hd. rewrite Hc in Hd. destruct Hd as (_ & Hf & _).
  assert (step (Poll lost o) w
          = emit (Sleep Monitor 1)
              (set_connected false
                 (upd_self (set_buttons
                              (prod_map id (with_state DISABLED) <$> buttons (self w)))
                    (upd_self (set_text_field_frame (Some false))
                       (upd_self (set_status_label "Status: Not connected to Muse 2")
                          (emit Disconnected w)))))) as Hw1.
  { cbn [step]. rewrite I4.
    destruct lost as [[|s1 ss1]|e]; [|done|].
    - by rewrite monitor_lost, on_disconnection_eval, Hf.
    - by rewrite monitor_error, on_disconnection_eval, Hf. }
  assert (w' = step (Poll (Ok (s0 :: ss)) (Ok j)) (step (Poll lost o) w)) as Hw'
    by done.
  clearbody w'. rewrite Hw1 in Hw'. cbn [step] in Hw'. proj_simpl_in Hw'.
  rewrite I4, monitor_found_new, on_connection_eval in Hw' by done.
  proj_simpl_in Hw'.
  assert (∀ k, clickable k w' = false) as Hoff.
  { intros k. apply (clickable_disabled k w). by rewrite Hw'. }
  rewrite Hw'. proj_simpl. split_and!; try done.
  - intros k. rewrite <- Hw'. apply Hoff.
  - intros text k. rewrite <- Hw'. cbn [step].
    assert (text_field_frame (self w') = Some true) as -> by by rewrite Hw'.
    unfold run_callback. rewrite enable_buttons_eval. cbn zeta. proj_simpl.
    destruct (truthy (strip text)) eqn:Ht.
    + destruct (dict_get "EC" (buttons (self w'))) as [b|] eqn:Hb.
      * intros Hk. split; [|by apply truthy_nonempty].
        destruct (decide (k = "EC")) as [|Hne]; [done|].
        unfold clickable in Hk. proj_simpl_in Hk.
        rewrite dict_get_set_ne in Hk by done.
        specialize (Hoff k). unfold clickable in Hoff. by rewrite Hoff in Hk.
      * intros Hk. unfold clickable in Hk. proj_simpl_in Hk.
        specialize (Hoff k). unfold clickable in Hoff. by rewrite Hoff in Hk.
    + intros Hk. unfold clickable in Hk. proj_simpl_in Hk.
      specialize (Hoff k). unfold clickable in Hoff. by rewrite Hoff in Hk.
Qed.

End Connection.

(** ** The participant identifier *)

Section Identifier.
Context `{FloatOps}.

Lemma chars_rev_app (s t : string) :
  chars (String.rev_app s t) = reverse (chars s) ++ chars t.
Proof.
  revert t. induction s as [|c s IH]; intros t; [done|].
  cbn [String.rev_app chars]. rewrite IH, reverse_cons. cbn [chars].
  by rewrite <- app_assoc.
Qed.

Lemma chars_rev (s : string) : chars (String.rev s) = reverse (chars s).
Proof. unfold String.rev. rewrite chars_rev_app. cbn. by rewrite app_nil_r. Qed.

Lemma chars_nil (s : string) : chars s = [] ↔ s = "".
Proof. by destruct s. Qed.

Lemma lstrip_empty (s : string) : lstrip s = "" ↔ blank s.
Proof.
  unfold blank. induction s as [|c s IH]; [done|].
  cbn [lstrip chars]. rewrite Forall_cons. destruct (is_space c).
  - rewrite IH. split; [by split | by intros [_ ?]].
  - split; [done | by intros [? _]].
Qed.

Lemma lstrip_blank (s : string) : blank (lstrip s) ↔ blank s.
Proof.
  unfold blank. induction s as [|c s IH]; [done|].
  cbn [lstrip chars]. destruct (is_space c) eqn:Hc; [|done].
  rewrite IH, Forall_cons. split; [by split | by intros [_ ?]].
Qed.

Lemma blank_rev (s : string) : blank (String.rev s) ↔ blank s.
Proof. unfold blank. rewrite chars_rev. apply Forall_reverse. Qed.

Lemma rev_empty (s : string) : String.rev s = "" ↔ s = "".
Proof.
  rewrite <- !chars_nil, chars_rev. split; [|by intros ->].
  intros Hr. apply (f_equal reverse) in Hr.
  by rewrite reverse_involutive in Hr.
Qed.

Lemma rstrip_empty (s : string) : rstrip s = "" ↔ blank s.
Proof. unfold rstrip. by rewrite rev_empty, lstrip_empty, blank_rev. Qed.

(** [strip] gives the empty string for blank texts, and for them only. *)
Lemma strip_empty (s : string) : strip s = "" ↔ blank s.
Proof. unfold strip. by rewrite rstrip_empty, lstrip_blank. Qed.

Lemma truthy_strip (s : string) : truthy (strip s) = true ↔ ¬ blank s.
Proof.
  rewrite <- strip_empty. destruct (strip s); [|done].
  split; [done|]. intros Hn. by destruct Hn.
Qed.

Lemma step_key_release (text : string) (w : world) :
  reachable_inv w → is_Some (text_field_frame (self w)) →
  ∃ bEC, dict_get "EC" (buttons (self w)) = Some bEC
  ∧ step (KeyRelease text) w
    = let w1 := upd_self (set_participant_id (Some (strip text)))
                  (upd_self (set_participant_id_entry text) w) in
      if truthy (strip text)
      then upd_self (set_buttons
                       (dict_set "EC" (with_state NORMAL bEC) (buttons (self w)))) w1
      else w1.
Proof.
  intros (I1 & _) [v Hf].
  destruct (segment_key_has_button "EC" w I1) as [bEC HbEC];
    [apply list_elem_of_here|].
  exists bEC. split; [done|]. cbn [step]. rewrite Hf.
  unfold run_callback. rewrite enable_buttons_eval. cbn zeta. proj_simpl.
  rewrite HbEC. by destruct (truthy _).
Qed.

(** X13.  A key release in the entry, for a text of the ASCII range: the
    stripped text is stored as the identifier and nothing but the first
    button is touched.  A blank text stores the empty string and leaves every
    button as it is (the first button is not disabled again when the entry is
    emptied), any other text enables the first button; no button is ever
    disabled and no other button changes. *)
Theorem key_release_effect
    (fs : gmap string string) (evs : list event) (text : string) :
  let w := run evs (init fs) in
  is_Some (text_field_frame (self w)) →
  ascii_text text →
  let w' := step (KeyRelease text) w in
  participant_id (self w') = Some (strip text)
  ∧ participant_id_entry (self w') = text
  ∧ (∀ k, k ≠ "EC" →
       dict_get k (buttons (self w')) = dict_get k (buttons (self w)))
  ∧ (∀ k, clickable k w = true → clickable k w' = true)
  ∧ (blank text → strip text = "" ∧ buttons (self w') = buttons (self w))
  ∧ (¬ blank text → clickable "EC" w' = true)
  ∧ recording (self w') = recording (self w)
  ∧ data (self w') = data (self w)
  ∧ durations (self w') = durations (self w)
  ∧ files w' = files w ∧ trace w' = trace w.
Proof.
  intros w Hf _ w'.
  pose proof (reachable_inv_reached evs fs) as Hinv. fold w in Hinv.
  destruct (step_key_release text w Hinv Hf) as (bEC & HbEC & Hw').
  fold w' in Hw'. cbn zeta in Hw'. clearbody w'.
  pose proof (truthy_strip text) as Ht.
  destruct (truthy (strip text)) eqn:Htr; rewrite Hw'; proj_simpl.
  - split_and!; try done.
    + intros k Hk. by rewrite dict_get_set_ne.
    + intros k Hk. unfold clickable in *. proj_simpl.
      destruct (decide (k = "EC")) as [->|Hne].
      * by rewrite dict_get_set_eq.
      * by rewrite dict_get_set_ne.
    + intros Hb. by apply Ht in Hb.
    + intros _. unfold clickable. proj_simpl. by rewrite dict_get_set_eq.
  - assert (blank text) as Hb.
    { apply strip_empty. by destruct (strip text). }
    split_and!; try done.
    intros _. split; [by apply strip_empty | done].
Qed.

(** X14.  The entry can be emptied while a recording is in progress; the
    stop that follows then saves under the empty identifier: the data file
    is [_K.csv] and the duration file [_duration.txt]. *)
Theorem blank_id_saves_unnamed
    (fs : gmap string string) (evs : list event) (K text : string) (now : float) :
  let w := run evs (init fs) in
  clickable K w = true →
  recording (self w) = true →
  blank text →
  let w' := run [KeyRelease text; Press K now None] w in
  participant_id (self w') = Some ""
  ∧ files w'
    = <["_duration.txt" := duration_text "" (durations (self w'))]>
        (<["_" +:+ K +:+ ".csv" := csv_text (data (self w))]> (files w))
  ∧ trace w'
    = trace w ++ [ShowInfo "Recording Saved"
                    (K +:+ " data saved to _" +:+ K +:+ ".csv")].
Proof.
  intros w Hc Hrec Hb w'.
  pose proof (reachable_inv_reached evs fs) as Hinv. fold w in Hinv.
  pose proof Hinv as (I1 & I2 & I3 & I4 & I5 & I6 & I7).
  destruct (step_key_release text w Hinv (I7 Hrec)) as (bEC & HbEC & Hw1).
  apply strip_empty in Hb. rewrite Hb in Hw1. cbn [truthy] in Hw1.
  set (w1 := step (KeyRelease text) w) in *.
  assert (reachable_inv w1) as Hinv1 by by apply reachable_inv_step.
  assert (clickable K w1 = true) as Hc1.
  { rewrite (clickable_same_buttons K w); [done|]. by rewrite Hw1. }
  assert (recording (self w1) = true) as Hrec1 by by rewrite Hw1.
  destruct (stop_ok_world K now w1 Hinv1 Hc1 Hrec1)
    as (t0 & b & P & Ht0 & Hbt & HP & Hw').
  assert (P = "") as ->.
  { rewrite Hw1 in HP. proj_simpl_in HP. congruence. }
  change (step (Press K now None) w1) with w' in Hw'. clearbody w' w1.
  rewrite Hw'. proj_simpl. subst w1. proj_simpl. done.
Qed.

End Identifier.

(** ** The files on disk *)

Section Files.
Context `{FloatOps}.

Lemma file_op_apply_other (fs : gmap string string) (o : file_op) (f : string) :
  file_op_name o ≠ f → file_op_apply fs o !! f = fs !! f.
Proof.
  destruct o as [g|g s]; cbn; intros Hne.
  - by rewrite lookup_insert_ne.
  - by rewrite lookup_alter_ne.
Qed.

Lemma foldl_file_ops_other (ops : list file_op) (fs : gmap string string) (f : string) :
  Forall (λ o, file_op_name o ≠ f) ops →
  foldl file_op_apply fs ops !! f = fs !! f.
Proof.
  intros Hops. revert fs. induction Hops as [|o ops Ho Hops IH]; intros fs; [done|].
  cbn [foldl]. by rewrite IH, file_op_apply_other.
Qed.

Lemma save_ops_names (key : string) (now t0 : float) (w : world) (o : file_op) :
  o ∈ save_ops key now t0 w →
  file_op_name o = fstr_opt (participant_id (self w)) +:+ "_" +:+ key +:+ ".csv"
  ∨ file_op_name o = fstr_opt (participant_id (self w)) +:+ "_duration.txt".
Proof.
  unfold save_ops, csv_ops, duration_ops. intros Hin.
  apply elem_of_app in Hin as [Hin|Hin]; [left|right];
    repeat (apply elem_of_cons in Hin as [->|Hin]; [done|]);
    apply list_elem_of_fmap in Hin as (s & -> & _); done.
Qed.

(** The files an event changes. *)
Lemma step_files (e : event) (w : world) (f : string) :
  reachable_inv w →
  files (step e w) !! f ≠ files w !! f →
  ∃ key now fault pid,
    e = Press key now fault ∧ clickable key w = true
    ∧ recording (self w) = true ∧ participant_id (self w) = Some pid
    ∧ (f = pid +:+ "_" +:+ key +:+ ".csv" ∨ f = pid +:+ "_duration.txt").
Proof.
  intros Hinv. pose proof Hinv as (I1 & I2 & I3 & I4 & I5 & I6 & I7).
  destruct e as [found opened|text|key now fault|i|i s t|i now|i now].
  - cbn [step]. rewrite I4. intros Hf. exfalso. apply Hf. clear Hf.
    destruct (connected w) eqn:Hc; destruct found as [[|s0 ss]|e];
      rewrite ?monitor_lost, ?monitor_error, ?monitor_found_still, ?monitor_idle,
        ?on_disconnection_eval by done; try done.
    destruct opened as [j|e];
      rewrite ?monitor_found_new, ?monitor_inlet_error, ?on_connection_eval by done;
      done.
  - cbn [step]. intros Hf. exfalso. apply Hf. clear Hf.
    destruct (text_field_frame (self w)); [|done].
    unfold run_callback. rewrite enable_buttons_eval. cbn zeta.
    destruct (truthy _); [|done]. by destruct (dict_get _ _).
  - destruct (clickable key w) eqn:Hc.
    2:{ rewrite step_press_disabled by done. by intros Hf. }
    destruct (recording (self w)) eqn:Hrec.
    2:{ apply clickable_inv in Hc as (b & Hb & Hs).
        rewrite (step_press_start key now fault b) by done. by intros Hf. }
    destruct (reached_stop key w Hinv Hc Hrec) as (t0 & b & P & ? & ? & ? & HP & ? & ?).
    intros Hf. exists key, now, fault, P. split_and!; try done.
    destruct (decide (f = P +:+ "_" +:+ key +:+ ".csv")) as [|Hn1]; [by left|].
    destruct (decide (f = P +:+ "_duration.txt")) as [|Hn2]; [by right|].
    exfalso. apply Hf. clear Hf.
    assert (Forall (λ o, file_op_name o ≠ f) (save_ops key now t0 w)) as Hops.
    { apply Forall_forall. intros o Ho. apply save_ops_names in Ho.
      rewrite HP in Ho. cbn [fstr_opt] in Ho. by destruct Ho as [-> | ->]. }
    rewrite (step_press_stop key now t0 fault b) by done. cbn zeta.
    destruct fault as [n|]; [case_decide|]; proj_simpl;
      apply foldl_file_ops_other; try done.
    eapply Forall_impl; [|by intros o Ho; apply Ho].
    apply Forall_forall. intros o Ho. apply subseteq_take in Ho.
    rewrite Forall_forall in Hops. by apply Hops.
  - cbn [step]. intros Hf. exfalso. apply Hf. clear Hf.
    destruct (rec_threads w !! i) as [[]|]; try done.
    unfold record_data_test. munfold.
    destruct (recording (self w)); [destruct (inlet (self w))|]; done.
  - cbn [step]. intros Hf. exfalso. apply Hf. clear Hf.
    by destruct (rec_threads w !! i) as [[]|].
  - cbn [step]. intros Hf. exfalso. apply Hf. clear Hf.
    by destruct (sw_threads w !! i) as [[]|].
  - cbn [step]. intros Hf. exfalso. apply Hf. clear Hf.
    destruct (sw_threads w !! i) as [[| t0 |]|]; try done.
    unfold update_stopwatch. munfold. by destruct (stopwatch_running (self w)).
Qed.

Lemma entered_ids_app (a1 a2 : list action) :
  entered_ids (a1 ++ a2) = entered_ids a1 ++ entered_ids a2.
Proof. apply omap_app. Qed.

(** The stored identifier is the one of the last key release. *)
Lemma step_participant (e : event) (w : world) :
  reachable_inv w →
  participant_id (self (step e w))
  = match entered_ids (action_of e w) with
    | pid :: _ => Some pid
    | [] => participant_id (self w)
    end.
Proof.
  intros Hinv. pose proof Hinv as (I1 & I2 & I3 & I4 & I5 & I6 & I7).
  destruct e as [found opened|text|key now fault|i|i s t|i now|i now].
  - cbn [step action_of entered_ids omap]. rewrite I4.
    destruct (connected w) eqn:Hc; destruct found as [[|s0 ss]|e];
      rewrite ?monitor_lost, ?monitor_error, ?monitor_found_still, ?monitor_idle,
        ?on_disconnection_eval by done; try done.
    destruct opened as [j|e];
      rewrite ?monitor_found_new, ?monitor_inlet_error, ?on_connection_eval by done;
      done.
  - cbn [step action_of].
    destruct (text_field_frame (self w)); [|done].
    unfold run_callback. rewrite enable_buttons_eval. cbn zeta.
    destruct (truthy _); [|done]. by destruct (dict_get _ _).
  - assert (entered_ids (action_of (Press key now fault) w) = []) as ->.
    { cbn. by destruct (clickable key w), (recording (self w)). }
    destruct (clickable key w) eqn:Hc; [|by rewrite step_press_disabled].
    destruct (recording (self w)) eqn:Hrec.
    + destruct (reached_stop key w Hinv Hc Hrec) as (t0 & b & P & ? & ? & ? & HP & ? & ?).
      rewrite (step_press_stop key now t0 fault b) by done. cbn zeta.
      by destruct fault as [n|]; [case_decide|].
    + apply clickable_inv in Hc as (b & Hb & Hs).
      by rewrite (step_press_start key now fault b).
  - cbn [step action_of entered_ids omap].
    destruct (rec_threads w !! i) as [[]|]; try done.
    unfold record_data_test. munfold.
    destruct (recording (self w)); [destruct (inlet (self w))|]; done.
  - cbn [step action_of entered_ids omap].
    by destruct (rec_threads w !! i) as [[]|].
  - cbn [step action_of entered_ids omap].
    by destruct (sw_threads w !! i) as [[]|].
  - cbn [step action_of entered_ids omap].
    destruct (sw_threads w !! i) as [[| t0 |]|]; try done.
    unfold update_stopwatch. munfold. by destruct (stopwatch_running (self w)).
Qed.

Lemma participant_entered (evs : list event) (fs : gmap string string) (pid : string) :
  participant_id (self (run evs (init fs))) = Some pid →
  pid ∈ entered_ids (actions evs (init fs)).
Proof.
  induction evs as [|e evs IH] using rev_ind; [done|].
  rewrite run_app, actions_app, entered_ids_app. cbn [run foldl actions].
  rewrite app_nil_r, step_participant by apply reachable_inv_reached.
  destruct (entered_ids (action_of e _)) as [|p l] eqn:Ha.
  - rewrite app_nil_r. apply IH.
  - intros [= ->]. apply elem_of_app. right. apply list_elem_of_here.
Qed.

(** X15.  The only files the program ever creates, truncates or writes to
    are data files [<id>_<key>.csv] and duration files [<id>_duration.txt],
    for an identifier stored by a key release and the key of one of the five
    segments; every other file on the disk is as it was when the program
    started, file errors included. *)
Theorem only_session_files_written
    (fs : gmap string string) (evs : list event) (f : string) :
  files (run evs (init fs)) !! f ≠ fs !! f →
  ∃ pid key,
    pid ∈ entered_ids (actions evs (init fs))
    ∧ key ∈ segment_keys
    ∧ (f = pid +:+ "_" +:+ key +:+ ".csv" ∨ f = pid +:+ "_duration.txt").
Proof.
  induction evs as [|e evs IH] using rev_ind; [done|].
  rewrite run_app, actions_app, entered_ids_app. cbn [run foldl].
  set (w := run evs (init fs)) in *. intros Hf.
  destruct (decide (files w !! f = fs !! f)) as [Heq|Hne].
  - rewrite <- Heq in Hf.
    pose proof (reachable_inv_reached evs fs) as Hinv. fold w in Hinv.
    destruct (step_files e w f Hinv Hf) as (key & now & fault & pid & _ & Hc & _ & HP & Hname).
    exists pid, key. split_and!; [|  |done].
    + apply elem_of_app. left. by apply participant_entered.
    + destruct Hinv as (I1 & _). rewrite <- I1.
      apply clickable_inv in Hc as (b & Hb & _).
      by eapply dict_get_Some_keys.
  - destruct (IH Hne) as (pid & key & Hpid & Hkey & Hname).
    exists pid, key. split_and!; [|done..]. apply elem_of_app. by left.
Qed.

End Files.

(** ** Durations, threads and captions *)

Section Bookkeeping.
Context `{FloatOps}.

(** The durations an event changes: the one of the segment it stops. *)
Lemma step_duration_of (e : event) (w : world) (K : string) :
  reachable_inv w →
  K ∉ stopped_keys (action_of e w) →
  dict_get K (durations (self (step e w))) = dict_get K (durations (self w)).
Proof.
  intros Hinv. pose proof Hinv as (I1 & I2 & I3 & I4 & I5 & I6 & I7).
  destruct e as [found opened|text|key now fault|i|i s t|i now|i now]; intros HK.
  - cbn [step]. rewrite I4.
    destruct (connected w) eqn:Hc; destruct found as [[|s0 ss]|e];
      rewrite ?monitor_lost, ?monitor_error, ?monitor_found_still, ?monitor_idle,
        ?on_disconnection_eval by done; try done.
    destruct opened as [j|e];
      rewrite ?monitor_found_new, ?monitor_inlet_error, ?on_connection_eval by done;
      done.
  - cbn [step].
    destruct (text_field_frame (self w)); [|done].
    unfold run_callback. rewrite enable_buttons_eval. cbn zeta.
    destruct (truthy _); [|done]. by destruct (dict_get "EC" _).
  - destruct (clickable key w) eqn:Hc; [|by rewrite step_press_disabled].
    destruct (recording (self w)) eqn:Hrec.
    + assert (K ≠ key) as Hne.
      { intros ->. apply HK. cbn. rewrite Hc, Hrec. apply list_elem_of_here. }
      destruct (reached_stop key w Hinv Hc Hrec) as (t0 & b & P & ? & ? & ? & HP & ? & ?).
      rewrite (step_press_stop key now t0 fault b) by done. cbn zeta.
      destruct fault as [n|]; [case_decide|]; proj_simpl;
        by rewrite dict_get_set_ne.
    + apply clickable_inv in Hc as (b & Hb & Hs).
      by rewrite (step_press_start key now fault b).
  - cbn [step].
    destruct (rec_threads w !! i) as [[]|]; try done.
    unfold record_data_test. munfold.
    destruct (recording (self w)); [destruct (inlet (self w))|]; done.
  - cbn [step]. by destruct (rec_threads w !! i) as [[]|].
  - cbn [step]. by destruct (sw_threads w !! i) as [[]|].
  - cbn [step].
    destruct (sw_threads w !! i) as [[| t0 |]|]; try done.
    unfold update_stopwatch. munfold. by destruct (stopwatch_running (self w)).
Qed.

Lemma run_duration_of (more : list event) (w : world) (K : string) :
  reachable_inv w →
  K ∉ stopped_keys (actions more w) →
  dict_get K (durations (self (run more w))) = dict_get K (durations (self w)).
Proof.
  revert w. induction more as [|e more IH]; intros w Hinv HK; [done|].
  cbn [actions] in HK. rewrite stopped_keys_app in HK.
  apply not_elem_of_app in HK as [HK1 HK2].
  rewrite run_cons, IH; [by apply step_duration_of | by apply reachable_inv_step | done].
Qed.

Lemma run_duration_present (more : list event) (w : world) (K : string) :
  reachable_inv w →
  K ∈ dict_keys (durations (self w)) →
  K ∈ dict_keys (durations (self (run more w))).
Proof.
  revert w. induction more as [|e more IH]; intros w Hinv HK; [done|].
  rewrite run_cons. apply IH; [by apply reachable_inv_step|].
  rewrite step_durations by done.
  destruct (stopped_keys (action_of e w)) as [|k l]; [done|].
  case_decide; [done|]. apply elem_of_app. by left.
Qed.

(** X16.  A stored duration stays as it is until the same segment is
    stopped again: no other event removes or changes it, in particular not
    the entry of another identifier, so that the duration file of the next
    participant lists the segments of the previous one. *)
Theorem duration_kept_until_restopped
    (fs : gmap string string) (evs more : list event) (K : string) :
  let w := run evs (init fs) in
  let w' := run more w in
  (K ∉ stopped_keys (actions more w) →
   dict_get K (durations (self w')) = dict_get K (durations (self w)))
  ∧ (K ∈ dict_keys (durations (self w)) → K ∈ dict_keys (durations (self w'))).
Proof.
  intros w w'. pose proof (reachable_inv_reached evs fs) as Hinv. fold w in Hinv.
  split; intros HK.
  - by apply run_duration_of.
  - by apply run_duration_present.
Qed.

Lemma list_index_None (k : string) (l : list string) :
  k ∉ l → list_index k l = None.
Proof.
  induction l as [|y l IH]; [done|]. intros Hk.
  apply not_elem_of_cons in Hk as [Hne Hk]. cbn [list_index].
  rewrite decide_False by done. by rewrite IH.
Qed.

(** X17.  In every state the program reaches, [get_next_key] gives the
    segment that follows in the order of creation of the buttons, [None]
    after the last one, and raises [ValueError] for any other key; it changes
    nothing. *)
Theorem get_next_key_table (fs : gmap string string) (evs : list event) :
  let w := run evs (init fs) in
  get_next_key "EC" w = (Ok (Some "EO"), w)
  ∧ get_next_key "EO" w = (Ok (Some "Personality1"), w)
  ∧ get_next_key "Personality1" w = (Ok (Some "Personality2"), w)
  ∧ get_next_key "Personality2" w = (Ok (Some "Personality3"), w)
  ∧ get_next_key "Personality3" w = (Ok None, w)
  ∧ (∀ k, k ∉ segment_keys → get_next_key k w = (Raise ValueError, w)).
Proof.
  intros w. pose proof (reachable_inv_reached evs fs) as (I1 & _). fold w in I1.
  clearbody w. unfold get_next_key. munfold. rewrite I1.
  split_and!; [by vm_compute..|].
  intros k Hk. by rewrite list_index_None.
Qed.

(** The threads an event creates. *)
Lemma step_threads (e : event) (w : world) :
  reachable_inv w →
  length (rec_threads (step e w))
  = length (rec_threads w) + length (started_keys (action_of e w))
  ∧ length (sw_threads (step e w))
    = length (sw_threads w) + length (started_keys (action_of e w)).
Proof.
  intros Hinv. pose proof Hinv as (I1 & I2 & I3 & I4 & I5 & I6 & I7).
  destruct e as [found opened|text|key now fault|i|i s t|i now|i now].
  - cbn [step action_of started_keys omap length]. rewrite !Nat.add_0_r, I4.
    destruct (connected w) eqn:Hc; destruct found as [[|s0 ss]|e];
      rewrite ?monitor_lost, ?monitor_error, ?monitor_found_still, ?monitor_idle,
        ?on_disconnection_eval by done; try done.
    destruct opened as [j|e];
      rewrite ?monitor_found_new, ?monitor_inlet_error, ?on_connection_eval by done;
      done.
  - assert (started_keys (action_of (KeyRelease text) w) = []) as ->.
    { cbn. by destruct (text_field_frame (self w)). }
    cbn [step length]. rewrite !Nat.add_0_r.
    destruct (text_field_frame (self w)); [|done].
    unfold run_callback. rewrite enable_buttons_eval. cbn zeta.
    destruct (truthy _); [|done]. by destruct (dict_get "EC" _).
  - cbn [action_of].
    destruct (clickable key w) eqn:Hc.
    2:{ rewrite step_press_disabled by done. cbn. lia. }
    destruct (recording (self w)) eqn:Hrec.
    + destruct (reached_stop key w Hinv Hc Hrec) as (t0 & b & P & ? & ? & ? & HP & ? & ?).
      rewrite (step_press_stop key now t0 fault b) by done. cbn zeta.
      destruct fault as [n|]; [case_decide|]; proj_simpl; cbn; lia.
    + apply clickable_inv in Hc as (b & Hb & Hs).
      rewrite (step_press_start key now fault b) by done. proj_simpl.
      rewrite !length_app. cbn. lia.
  - cbn [step action_of started_keys omap length]. rewrite !Nat.add_0_r.
    destruct (rec_threads w !! i) as [[]|]; try done.
    unfold record_data_test. munfold.
    destruct (recording (self w)); [destruct (inlet (self w))|];
      proj_simpl; by rewrite length_insert.
  - cbn [step action_of started_keys omap length]. rewrite !Nat.add_0_r.
    destruct (rec_threads w !! i) as [[]|]; try done.
    unfold record_data_pull. munfold. proj_simpl. by rewrite length_insert.
  - cbn [step action_of started_keys omap length]. rewrite !Nat.add_0_r.
    destruct (sw_threads w !! i) as [[]|]; try done.
    proj_simpl. by rewrite length_insert.
  - cbn [step action_of started_keys omap length]. rewrite !Nat.add_0_r.
    destruct (sw_threads w !! i) as [[| t0 |]|]; try done.
    unfold update_stopwatch. munfold. unfold effect_.
    destruct (stopwatch_running (self w)); proj_simpl; by rewrite length_insert.
Qed.

(** X18.  Threads are created by starts only, one [record_data] thread and
    one [update_stopwatch] thread per start: after any sequence of events
    there are as many threads of each kind, finished ones included, as
    recordings were started. *)
Theorem threads_per_start (fs : gmap string string) (evs : list event) :
  let w := run evs (init fs) in
  length (rec_threads w) = length (started_keys (actions evs (init fs)))
  ∧ length (sw_threads w) = length (started_keys (actions evs (init fs))).
Proof.
  cbn zeta. induction evs as [|e evs IH] using rev_ind; [done|].
  rewrite run_app, actions_app, started_keys_app, length_app.
  cbn [run foldl actions]. rewrite app_nil_r.
  destruct (step_threads e (run evs (init fs)) (reachable_inv_reached evs fs))
    as [-> ->].
  destruct IH as [-> ->]. done.
Qed.

Lemma replace_char_segment_key (k : string) :
  k ∈ segment_keys → replace_char "_" " " k = k.
Proof.
  intros Hk. apply segment_keys_cases in Hk.
  by destruct Hk as [->|[->|[->|[->| ->]]]].
Qed.

Lemma stop_caption_new (k : string) :
  k ∈ segment_keys → ("Record " +:+ k, k) ∉ segments.
Proof.
  intros Hk. apply segment_keys_cases in Hk.
  destruct Hk as [->|[->|[->|[->| ->]]]]; (apply (bool_decide_eq_false_1 _); by vm_compute).
Qed.

Lemma caption_ok_step (e : event) (w : world) :
  reachable_inv w →
  (∀ k b, dict_get k (buttons (self w)) = Some b → caption_ok k b) →
  ∀ k b, dict_get k (buttons (self (step e w))) = Some b → caption_ok k b.
Proof.
  intros Hinv Hcap. pose proof Hinv as (I1 & I2 & I3 & I4 & I5 & I6 & I7).
  assert (∀ w', buttons (self w') = buttons (self w) →
            ∀ k b, dict_get k (buttons (self w')) = Some b → caption_ok k b) as Hsame.
  { intros w' ->. apply Hcap. }
  assert (∀ w', buttons (self w')
                = prod_map id (with_state DISABLED) <$> buttons (self w) →
            ∀ k b, dict_get k (buttons (self w')) = Some b → caption_ok k b) as Hoff.
  { intros w' -> k b. rewrite dict_get_disable.
    destruct (dict_get k (buttons (self w))) as [b0|] eqn:Hb0; [|done].
    intros [= <-]. by apply (Hcap k b0). }
  destruct e as [found opened|text|key now fault|i|i s t|i now|i now].
  - cbn [step]. rewrite I4.
    destruct (connected w) eqn:Hc; destruct found as [[|s0 ss]|e];
      rewrite ?monitor_lost, ?monitor_error, ?monitor_found_still, ?monitor_idle,
        ?on_disconnection_eval by done;
      try (by apply Hsame); try (by apply Hoff).
    destruct opened as [j|e];
      rewrite ?monitor_found_new, ?monitor_inlet_error, ?on_connection_eval by done;
      by apply Hsame.
  - cbn [step]. destruct (text_field_frame (self w)) as [v|]; [|done].
    unfold run_callback. rewrite enable_buttons_eval. cbn zeta. proj_simpl.
    destruct (truthy _); [|by apply Hsame].
    destruct (dict_get "EC" (buttons (self w))) as [bEC|] eqn:HbEC;
      [|by apply Hsame].
    proj_simpl. intros k b.
    destruct (decide (k = "EC")) as [->|Hne].
    + rewrite dict_get_set_eq. intros [= <-]. by apply (Hcap "EC" bEC).
    + rewrite dict_get_set_ne by done. apply Hcap.
  - destruct (clickable key w) eqn:Hc; [|by rewrite step_press_disabled].
    destruct (recording (self w)) eqn:Hrec.
    + destruct (reached_stop key w Hinv Hc Hrec) as (t0 & b0 & P & ? & Hb0 & ? & HP & ? & ?).
      rewrite (step_press_stop key now t0 fault b0) by done. cbn zeta.
      assert (key ∈ segment_keys) as Hkey.
      { rewrite <- I1. by eapply dict_get_Some_keys. }
      assert (∀ k b, dict_get k (buttons_after_stop key (buttons (self w))) = Some b →
                caption_ok k b) as Hstop.
      { intros k b. rewrite (buttons_after_stop_spec key k b0) by done.
        repeat case_decide.
        - intros [= <-]. subst k. right. right. cbn.
          by rewrite replace_char_segment_key.
        - destruct (dict_get k (buttons (self w))) as [b1|] eqn:Hb1; [|done].
          intros [= <-]. by apply (Hcap k b1).
        - apply Hcap. }
      destruct fault as [n|]; [case_decide|]; proj_simpl; done.
    + apply clickable_inv in Hc as (b0 & Hb0 & Hs).
      rewrite (step_press_start key now fault b0) by done. proj_simpl.
      intros k b. destruct (decide (k = key)) as [->|Hne].
      * rewrite dict_get_set_eq. intros [= <-]. right. by left.
      * rewrite dict_get_set_ne by done. apply Hcap.
  - cbn [step]. destruct (rec_threads w !! i) as [[]|]; try done.
    unfold record_data_test. munfold.
    destruct (recording (self w)); [destruct (inlet (self w))|]; by apply Hsame.
  - cbn [step]. by destruct (rec_threads w !! i) as [[]|].
  - cbn [step]. by destruct (sw_threads w !! i) as [[]|].
  - cbn [step]. destruct (sw_threads w !! i) as [[| t0 |]|]; try done.
    unfold update_stopwatch. munfold.
    destruct (stopwatch_running (self w)); by apply Hsame.
Qed.

Lemma caption_ok_reached (fs : gmap string string) (evs : list event) :
  ∀ k b, dict_get k (buttons (self (run evs (init fs)))) = Some b → caption_ok k b.
Proof.
  induction evs as [|e evs IH] using rev_ind.
  - intros k b. cbn [run foldl init self]. rewrite init_buttons. cbn [dict_get].
    repeat case_decide; try done; intros [= <-]; left; subst k;
      apply (bool_decide_eq_true_1 _); by vm_compute.
  - rewrite run_app. cbn [run foldl].
    apply caption_ok_step; [apply reachable_inv_reached | done].
Qed.

(** X19.  A button carries the caption [__init__] gave it, [Stop Recording],
    or [Record <key>]; a stop puts [Record <key>] on the button clicked, which
    for none of the five segments is the caption the button had at first. *)
Theorem button_captions
    (fs : gmap string string) (evs : list event) (k : string) (b : button) :
  let w := run evs (init fs) in
  dict_get k (buttons (self w)) = Some b →
  ((btn_text b, k) ∈ segments
   ∨ btn_text b = "Stop Recording"
   ∨ btn_text b = "Record " +:+ k)
  ∧ (("Record " +:+ k, k) ∉ segments)
  ∧ (∀ now, btn_state b = NORMAL → recording (self w) = true →
       dict_get k (buttons (self (step (Press k now None) w)))
       = Some (Button ("Record " +:+ k) DISABLED)).
Proof.
  intros w Hb.
  pose proof (reachable_inv_reached evs fs) as Hinv. fold w in Hinv.
  pose proof Hinv as (I1 & _).
  assert (k ∈ segment_keys) as Hk.
  { rewrite <- I1. by eapply dict_get_Some_keys. }
  split_and!.
  - by apply (caption_ok_reached fs evs).
  - by apply stop_caption_new.
  - intros now Hs Hrec.
    assert (clickable k w = true) as Hc by (apply clickable_inv; eauto).
    destruct (stop_ok_world k now w Hinv Hc Hrec) as (t0 & b' & P & Ht0 & Hb' & HP & Hw').
    rewrite Hw'. proj_simpl.
    rewrite (buttons_after_stop_spec k k b') by done.
    rewrite decide_True by done. by rewrite replace_char_segment_key.
Qed.

End Bookkeeping.

(** * The further properties on concrete sessions *)

Section MoreWitnesses.
#[local] Existing Instance centi_float.

Lemma own_operations_never_raise_witness :
  let w := run session_three_samples (init ∅) in
  clickable "EC" w = true
  ∧ recording (self w) = true
  ∧ (∃ w', toggle_recording "EC" 100250%Z w = (Ok (), w'))
  ∧ record_data_test w = (Ok RecPulling, w).
Proof.
  intros w.
  assert (clickable "EC" w = true) as Hc by (vm_compute; reflexivity).
  assert (recording (self w) = true) as Hr by (vm_compute; reflexivity).
  split; [exact Hc|]. split; [exact Hr|].
  destruct (own_operations_never_raise ∅ session_three_samples)
    as (_ & Hok & _ & Htest).
  split; [exact (Hok "EC" 100250%Z Hc) | exact (Htest Hr)].
Defined.

Lemma click_toggles_recording_witness :
  let w := run session_three_samples (init ∅) in
  let w' := step (Press "EC" 100250%Z (Some 6)) w in
  clickable "EC" w = true
  ∧ recording (self w) = true
  ∧ recording (self w') = false
  ∧ stopwatch_running (self w') = false.
Proof.
  intros w w'.
  assert (clickable "EC" w = true) as Hc by (vm_compute; reflexivity).
  assert (recording (self w) = true) as Hr by (vm_compute; reflexivity).
  split; [exact Hc|]. split; [exact Hr|].
  destruct (click_toggles_recording ∅ session_three_samples "EC" 100250%Z (Some 6))
    as (_ & Hflip & _).
  destruct (Hflip Hc) as [Hrec Hsw]. fold w w' in Hrec, Hsw.
  rewrite Hr in Hrec, Hsw. split; [exact Hrec | exact Hsw].
Defined.

Lemma recorded_samples_saved_witness :
  let w0 := run session_ready (init ∅) in
  let w := run (Press "EC" 100000%Z None :: pull_cycles 0 two_samples) w0 in
  clickable "EC" w0 = true
  ∧ recording (self w0) = false
  ∧ data (self w) = [[5000; 100; 200; 300; 400; 500]; [5001; 110; 210; 310; 410; 510]]%Z
  ∧ files (step (Press "EC" 100250%Z None) w) !! "p01_EC.csv"
    = Some ("timestamps,TP9,AF7,AF8,TP10,Right AUX" +:+ crlf
              +:+ "50.00,1.00,2.00,3.00,4.00,5.00" +:+ crlf
              +:+ "50.01,1.10,2.10,3.10,4.10,5.10" +:+ crlf).
Proof.
  intros w0 w.
  assert (clickable "EC" w0 = true) as Hc by (vm_compute; reflexivity).
  assert (recording (self w0) = false) as Hr by (vm_compute; reflexivity).
  split; [exact Hc|]. split; [exact Hr|].
  destruct (recorded_samples_saved ∅ session_ready "EC" 100000%Z 100250%Z None
              two_samples Hc Hr) as (Hdata & P & HP & Hfile).
  vm_compute in HP. injection HP as <-.
  vm_compute in Hdata, Hfile. vm_compute. split; [exact Hdata | exact Hfile].
Defined.

Lemma sample_after_stop_callback_not_saved_witness :
  let w := run session_pull_pending (init ∅) in
  let w1 := step (Press "EC" 100250%Z None) w in
  let w2 := run [RecPull 0 [100; 200; 300; 400; 500]%Z 5000%Z; RecTest 0] w1 in
  clickable "EC" w = true
  ∧ recording (self w) = true
  ∧ rec_threads w !! 0 = Some RecPulling
  ∧ data (self w2) = [[5000; 100; 200; 300; 400; 500]%Z]
  ∧ rec_threads w2 !! 0 = Some RecDone
  ∧ files w2 = files w1.
Proof.
  intros w w1 w2.
  assert (clickable "EC" w = true) as Hc by (vm_compute; reflexivity).
  assert (recording (self w) = true) as Hr by (vm_compute; reflexivity).
  assert (rec_threads w !! 0 = Some RecPulling) as Hth by (vm_compute; reflexivity).
  split; [exact Hc|]. split; [exact Hr|]. split; [exact Hth|].
  destruct (sample_after_stop_callback_not_saved ∅ session_pull_pending "EC" 100250%Z
              0 [100; 200; 300; 400; 500]%Z 5000%Z Hc Hr Hth)
    as (Hdata & Hdone & Hfiles & _).
  split_and!; [|exact Hdone|exact Hfiles].
  vm_compute in Hdata. vm_compute. exact Hdata.
Defined.

Lemma recorder_survives_restart_witness :
  let w := run session_pull_pending (init ∅) in
  let w1 := run [Press "EC" 100250%Z None; Press "EO" 100400%Z None] w in
  let w2 := run [RecPull 0 [100; 200; 300; 400; 500]%Z 5000%Z; RecTest 0] w1 in
  clickable "EC" w = true
  ∧ recording (self w) = true
  ∧ rec_threads w !! 0 = Some RecPulling
  ∧ clickable "EO" (step (Press "EC" 100250%Z None) w) = true
  ∧ data (self w2) = [[5000; 100; 200; 300; 400; 500]%Z]
  ∧ rec_threads w2 !! 0 = Some RecPulling
  ∧ rec_threads w2 !! 1 = Some RecWhile.
Proof.
  intros w w1 w2.
  assert (clickable "EC" w = true) as Hc by (vm_compute; reflexivity).
  assert (recording (self w) = true) as Hr by (vm_compute; reflexivity).
  assert (rec_threads w !! 0 = Some RecPulling) as Hth by (vm_compute; reflexivity).
  assert (clickable "EO" (step (Press "EC" 100250%Z None) w) = true) as Hc'
    by (vm_compute; reflexivity).
  assert (length (rec_threads w) = 1) as Hlen by (vm_compute; reflexivity).
  split; [exact Hc|]. split; [exact Hr|]. split; [exact Hth|]. split; [exact Hc'|].
  destruct (recorder_survives_restart ∅ session_pull_pending "EC" "EO" 100250%Z
              100400%Z None 0 [100; 200; 300; 400; 500]%Z 5000%Z Hc Hr Hth Hc')
    as (_ & _ & _ & Hdata & Hold & Hnew).
  fold w in Hnew. rewrite Hlen in Hnew.
  split_and!; [exact Hdata | exact Hold | exact Hnew].
Defined.

Lemma stopwatch_shows_hms_witness :
  let w := run session_three_samples (init ∅) in
  stopwatch_running (self w) = true
  ∧ (0 ≤ float_int (fsub 472500 100000) < 360000)%Z
  ∧ ∃ w', update_stopwatch 0 100000%Z 472500%Z w = (Ok (SwWhile 100000%Z), w')
      ∧ stopwatch_label (self w') = "Stopwatch: 01:02:05".
Proof.
  intros w.
  assert (stopwatch_running (self w) = true) as Hs by (vm_compute; reflexivity).
  assert (0 ≤ float_int (fsub 472500 100000) < 360000)%Z as He
    by (vm_compute; split; [discriminate | reflexivity]).
  split; [exact Hs|]. split; [exact He|].
  destruct (@stopwatch_shows_hms centi_float 0 100000%Z 472500%Z w Hs He)
    as (w' & Hrun & Hlabel & _).
  exists w'. split; [exact Hrun|].
  rewrite Hlabel. vm_compute. reflexivity.
Defined.

Lemma stopwatch_clock_stepped_back_witness :
  let w := run session_three_samples (init ∅) in
  stopwatch_running (self w) = true
  ∧ (-3600 ≤ float_int (fsub 99000 100000) < 0)%Z
  ∧ ∃ w', update_stopwatch 0 100000%Z 99000%Z w = (Ok (SwWhile 100000%Z), w')
      ∧ stopwatch_label (self w') = "Stopwatch: -1:59:50".
Proof.
  intros w.
  assert (stopwatch_running (self w) = true) as Hs by (vm_compute; reflexivity).
  assert (-3600 ≤ float_int (fsub 99000 100000) < 0)%Z as He
    by (vm_compute; split; [discriminate | reflexivity]).
  split; [exact Hs|]. split; [exact He|].
  destruct (@stopwatch_clock_stepped_back centi_float 0 100000%Z 99000%Z w Hs He)
    as (w' & Hrun & Hlabel).
  exists w'. split; [exact Hrun|].
  rewrite Hlabel. vm_compute. reflexivity.
Defined.

Lemma display_stays_reset_witness :
  let w := run session_stopwatch_running (init ∅) in
  let w2 := run [Poll (Ok [7]) (Ok 1); KeyRelease "p01"; RecTest 0]
              (step (Press "EC" 100250%Z None) w) in
  clickable "EC" w = true
  ∧ recording (self w) = true
  ∧ sw_threads w2 !! 0 = Some (SwWhile 100000%Z)
  ∧ stopwatch_label (self w2) = "Stopwatch: 00:00:00"
  ∧ sw_threads (step (SwIter 0 100300%Z) w2) !! 0 = Some SwDone.
Proof.
  intros w w2.
  assert (clickable "EC" w = true) as Hc by (vm_compute; reflexivity).
  assert (recording (self w) = true) as Hr by (vm_compute; reflexivity).
  assert (sw_threads w2 !! 0 = Some (SwWhile 100000%Z)) as Hth
    by (vm_compute; reflexivity).
  assert (Forall no_click [Poll (Ok [7]) (Ok 1); KeyRelease "p01"; RecTest 0])
    as Hmid by (repeat constructor).
  split; [exact Hc|]. split; [exact Hr|]. split; [exact Hth|].
  destruct (display_stays_reset ∅ session_stopwatch_running "EC" 100250%Z _ Hc Hr Hmid)
    as (Hlabel & _ & _ & Hiter).
  split; [exact Hlabel|].
  exact (proj1 (Hiter 0 100000%Z 100300%Z Hth)).
Defined.

Lemma stopwatch_survives_restart_witness :
  let w := run session_stopwatch_running (init ∅) in
  let w1 := run [Press "EC" 100250%Z None; Press "EO" 100400%Z None] w in
  let w2 := step (SwIter 0 100500%Z) w1 in
  clickable "EC" w = true
  ∧ recording (self w) = true
  ∧ sw_threads w !! 0 = Some (SwWhile 100000%Z)
  ∧ clickable "EO" (step (Press "EC" 100250%Z None) w) = true
  ∧ start_time (self w1) = Some 100400%Z
  ∧ stopwatch_label (self w2) = "Stopwatch: 00:00:05"
  ∧ sw_threads w2 !! 0 = Some (SwWhile 100000%Z).
Proof.
  intros w w1 w2.
  assert (clickable "EC" w = true) as Hc by (vm_compute; reflexivity).
  assert (recording (self w) = true) as Hr by (vm_compute; reflexivity).
  assert (sw_threads w !! 0 = Some (SwWhile 100000%Z)) as Hth
    by (vm_compute; reflexivity).
  assert (clickable "EO" (step (Press "EC" 100250%Z None) w) = true) as Hc'
    by (vm_compute; reflexivity).
  split; [exact Hc|]. split; [exact Hr|]. split; [exact Hth|]. split; [exact Hc'|].
  destruct (stopwatch_survives_restart ∅ session_stopwatch_running "EC" "EO"
              100250%Z 100400%Z 100500%Z None 0 100000%Z Hc Hr Hth Hc')
    as (Hst & _ & Hlabel & Hold).
  split_and!; [exact Hst | | exact Hold].
  fold w w1 w2 in Hlabel. rewrite Hlabel. vm_compute. reflexivity.
Defined.

Lemma inert_before_connection_witness :
  let w := run session_no_headband (init ∅) in
  Forall no_connection session_no_headband
  ∧ self w = set_stream (Some 7) init_app
  ∧ rec_threads w = []
  ∧ files w = ∅.
Proof.
  intros w.
  assert (Forall no_connection session_no_headband) as Hevs
    by (repeat constructor).
  assert (stream (self w) = Some 7) as Hst by (vm_compute; reflexivity).
  split; [exact Hevs|].
  destruct (inert_before_connection ∅ session_no_headband Hevs)
    as (Hself & _ & Hrec & _ & _ & Hfiles).
  fold w in Hself. rewrite Hst in Hself.
  split_and!; [exact Hself | exact Hrec | exact Hfiles].
Defined.

Lemma reconnection_restarts_sequence_witness :
  let w := run session_two_enabled (init ∅) in
  let w' := run [Poll (Ok []) (Ok 1); Poll (Ok [8]) (Ok 2)] w in
  connected w = true
  ∧ no_stream (Ok [])
  ∧ clickable "EO" w = true
  ∧ participant_id (self w') = Some "p01"
  ∧ inlet (self w') = Some 2
  ∧ clickable "EO" w' = false
  ∧ clickable "EC" w' = false.
Proof.
  intros w w'.
  assert (connected w = true) as Hc by (vm_compute; reflexivity).
  assert (clickable "EO" w = true) as Heo by (vm_compute; reflexivity).
  assert (participant_id (self w) = Some "p01") as Hp by (vm_compute; reflexivity).
  split; [exact Hc|]. split; [exact I|]. split; [exact Heo|].
  destruct (reconnection_restarts_sequence ∅ session_two_enabled (Ok []) (Ok 1)
              8 2 [] Hc I)
    as (_ & _ & Hin & _ & _ & Hpid & _ & _ & _ & Hoff & _).
  fold w in Hpid. rewrite Hp in Hpid.
  split_and!; [exact Hpid | exact Hin | exact (Hoff "EO") | exact (Hoff "EC")].
Defined.

Lemma key_release_effect_witness :
  let w := run session_ec_saved (init ∅) in
  let w' := step (KeyRelease " p02 ") w in
  is_Some (text_field_frame (self w))
  ∧ ascii_text " p02 "
  ∧ clickable "EC" w = false
  ∧ participant_id (self w') = Some "p02"
  ∧ clickable "EC" w' = true.
Proof.
  intros w w'.
  assert (is_Some (text_field_frame (self w))) as Hf by (vm_compute; eauto).
  assert (ascii_text " p02 ") as Ha.
  { apply Forall_forall. intros c Hc. cbn [chars] in Hc.
    repeat (apply elem_of_cons in Hc as [->|Hc]; [vm_compute; lia|]).
    by apply elem_of_nil in Hc. }
  assert (clickable "EC" w = false) as Hoff by (vm_compute; reflexivity).
  assert (¬ blank " p02 ") as Hn.
  { intros Hb. apply strip_empty in Hb. vm_compute in Hb. discriminate. }
  split; [exact Hf|]. split; [exact Ha|]. split; [exact Hoff|].
  destruct (key_release_effect ∅ session_ec_saved " p02 " Hf Ha)
    as (Hpid & _ & _ & _ & _ & Hon & _).
  split; [|exact (Hon Hn)].
  fold w w' in Hpid. rewrite Hpid. vm_compute. reflexivity.
Defined.

Lemma blank_id_saves_unnamed_witness :
  let w := run session_three_samples (init ∅) in
  let w' := run [KeyRelease "  "; Press "EC" 100250%Z None] w in
  clickable "EC" w = true
  ∧ recording (self w) = true
  ∧ blank "  "
  ∧ participant_id (self w') = Some ""
  ∧ is_Some (files w' !! "_EC.csv")
  ∧ is_Some (files w' !! "_duration.txt")
  ∧ files w' !! "p01_EC.csv" = None.
Proof.
  intros w w'.
  assert (clickable "EC" w = true) as Hc by (vm_compute; reflexivity).
  assert (recording (self w) = true) as Hr by (vm_compute; reflexivity).
  assert (blank "  ") as Hb by (repeat constructor).
  assert (files w = ∅) as Hfs by (vm_compute; reflexivity).
  split; [exact Hc|]. split; [exact Hr|]. split; [exact Hb|].
  destruct (blank_id_saves_unnamed ∅ session_three_samples "EC" "  " 100250%Z
              Hc Hr Hb) as (Hpid & Hfiles & _).
  fold w w' in Hpid, Hfiles. rewrite Hfs in Hfiles.
  split; [exact Hpid|]. rewrite Hfiles.
  split_and!.
  - rewrite lookup_insert_ne by discriminate. rewrite lookup_insert_eq. eauto.
  - rewrite lookup_insert_eq. eauto.
  - rewrite !lookup_insert_ne by discriminate. apply lookup_empty.
Defined.

Lemma only_session_files_written_witness :
  files (run session_ec_saved (init ∅)) !! "p01_EC.csv" ≠ (∅ : gmap string string) !! "p01_EC.csv"
  ∧ ∃ pid key,
      pid ∈ entered_ids (actions session_ec_saved (init ∅))
      ∧ key ∈ segment_keys
      ∧ ("p01_EC.csv" = pid +:+ "_" +:+ key +:+ ".csv"
         ∨ "p01_EC.csv" = pid +:+ "_duration.txt").
Proof.
  assert (files (run session_ec_saved (init ∅)) !! "p01_EC.csv"
          ≠ (∅ : gmap string string) !! "p01_EC.csv") as Hf
    by (vm_compute; discriminate).
  split; [exact Hf|].
  exact (only_session_files_written ∅ session_ec_saved "p01_EC.csv" Hf).
Defined.

Lemma duration_kept_until_restopped_witness :
  let w := run session_two_enabled (init ∅) in
  let w' := run session_next_participant w in
  ("EC" ∉ stopped_keys (actions session_next_participant w))
  ∧ dict_get "EC" (durations (self w)) = Some 250%Z
  ∧ participant_id (self w') = Some "p02"
  ∧ dict_get "EC" (durations (self w')) = Some 250%Z
  ∧ dict_keys (durations (self w')) = ["EC"; "EO"].
Proof.
  intros w w'.
  assert ("EC" ∉ stopped_keys (actions session_next_participant w)) as Hn.
  { vm_compute. intros Hin.
    repeat (apply elem_of_cons in Hin as [Hin|Hin]; [discriminate|]).
    by apply elem_of_nil in Hin. }
  assert (dict_get "EC" (durations (self w)) = Some 250%Z) as Hd
    by (vm_compute; reflexivity).
  assert (participant_id (self w') = Some "p02") as Hp by (vm_compute; reflexivity).
  assert (dict_keys (durations (self w')) = ["EC"; "EO"]) as Hk
    by (vm_compute; reflexivity).
  split; [exact Hn|]. split; [exact Hd|]. split; [exact Hp|].
  destruct (duration_kept_until_restopped ∅ session_two_enabled
              session_next_participant "EC") as (Hkept & _).
  split; [|exact Hk].
  rewrite <- Hd. exact (Hkept Hn).
Defined.

Lemma button_captions_witness :
  let w := run session_three_samples (init ∅) in
  dict_get "EC" (buttons (self w)) = Some (Button "Stop Recording" NORMAL)
  ∧ recording (self w) = true
  ∧ (("Record EC", "EC") ∉ segments)
  ∧ dict_get "EC" (buttons (self (step (Press "EC" 100250%Z None) w)))
    = Some (Button "Record EC" DISABLED).
Proof.
  intros w.
  assert (dict_get "EC" (buttons (self w)) = Some (Button "Stop Recording" NORMAL))
    as Hb by (vm_compute; reflexivity).
  assert (recording (self w) = true) as Hr by (vm_compute; reflexivity).
  split; [exact Hb|]. split; [exact Hr|].
  destruct (button_captions ∅ session_three_samples "EC" _ Hb)
    as (_ & Hnew & Hstop).
  split; [exact Hnew|].
  exact (Hstop 100250%Z eq_refl Hr).
Defined.

End MoreWitnesses.
